(** * Payment initiation and verification (listings/views.py)

    A shallow embedding of [initiate_chapa_payment] and
    [verify_chapa_payment] together with the part of the data model
    (listings/models.py) they read and write.  Every effect of the two
    views is explicit: the database tables are fields of [World], the
    calls to the gateway, to the ORM and to the task queue are recorded
    in a trace, and the answers of the outside world (gateway responses,
    random UUIDs, the broker accepting a task) come from an [Env]. *)

From Stdlib Require Import ZArith List String Ascii Bool Lia DecimalString.
Import ListNotations.
Open Scope string_scope.
Open Scope Z_scope.

(** ** The Python runtime the views rely on *)

(** Python floats and UUID objects are kept abstract: the views only
    compare floats, and only print UUIDs. *)
Class PyRuntime := {
  PyFloat : Type;
  float_eq : PyFloat -> PyFloat -> bool;       (* [==] on floats *)
  float_zero : PyFloat;                        (* [0.0] *)
  UUID : Type;
  UUID_eqb : UUID -> UUID -> bool;
  UUID_eqb_eq : forall a b, UUID_eqb a b = true <-> a = b;
  hex : UUID -> string;                        (* [UUID.hex] *)
  str_uuid : UUID -> string                    (* [str(UUID)] *)
}.

(** Values produced by [json.loads] / [Response.json()]. *)
#[local] Set Warnings "-register-all".
Inductive pyval `{PyRuntime} : Type :=
| VNone
| VBool (b : bool)
| VInt (z : Z)
| VFloat (f : PyFloat)
| VStr (s : string)
| VList (l : list pyval)
| VDict (items : list (string * pyval)).

(** A [DecimalField(max_digits=10, decimal_places=2)] read back from the
    database, in hundredths. *)
Definition Decimal := Z.

(** Exception classes that can travel through the two views.  All of
    them derive from [Exception]. *)
Inductive exn_class :=
| JSONDecodeError            (* json.loads *)
| RequestException           (* requests.exceptions.RequestException *)
| RequestsJSONDecodeError    (* requests.exceptions.JSONDecodeError: derives
                                from RequestException and from
                                json.JSONDecodeError *)
| Http404                    (* django.http.Http404 *)
| BookingDoesNotExist        (* Booking.DoesNotExist *)
| PaymentDoesNotExist        (* Payment.DoesNotExist *)
| MultipleObjectsReturned
| IntegrityError
| ValidationError
| KeyError
| TypeError
| AttributeError
| ValueError
| NameError
| OperationalError.          (* kombu: the broker refused the task *)

Record exn := Exn { exn_cls : exn_class; exn_msg : string }.

(** The [except] clauses written in the views. *)
Inductive except_clause :=
| ExceptJSONDecodeError
| ExceptRequestException
| ExceptBookingDoesNotExist
| ExceptPaymentDoesNotExist
| ExceptException.

Definition isinstance (e : exn) (c : except_clause) : bool :=
  match c, exn_cls e with
  | ExceptJSONDecodeError, JSONDecodeError => true
  | ExceptJSONDecodeError, RequestsJSONDecodeError => true
  | ExceptRequestException, RequestException => true
  | ExceptRequestException, RequestsJSONDecodeError => true
  | ExceptBookingDoesNotExist, BookingDoesNotExist => true
  | ExceptPaymentDoesNotExist, PaymentDoesNotExist => true
  | ExceptException, _ => true
  | _, _ => false
  end.

(** Builtins and framework conversions applied to JSON values.  Where
    the conversion raises, the text of the exception is given. *)
Class PyBuiltins `{PyRuntime} := {
  float : pyval -> string + PyFloat;           (* [float(x)] *)
  float_of_decimal : Decimal -> PyFloat;       (* [float(Decimal)] *)
  str : pyval -> string;                       (* [str(x)], [f"{x}"] *)
  str_decimal : Decimal -> string;
  uuid_of : pyval -> string + UUID;            (* UUIDField.to_python *)
  decimal_of : pyval -> string + Decimal       (* DecimalField.to_python *)
}.

Section Python.
Context `{PyRuntime}.

Definition type_name (v : pyval) : string :=
  match v with
  | VNone => "NoneType"
  | VBool _ => "bool"
  | VInt _ => "int"
  | VFloat _ => "float"
  | VStr _ => "str"
  | VList _ => "list"
  | VDict _ => "dict"
  end.

(** [bool(v)], as used by [not v]. *)
Definition truthy (v : pyval) : bool :=
  match v with
  | VNone => false
  | VBool b => b
  | VInt z => negb (z =? 0)
  | VFloat f => negb (float_eq f float_zero)
  | VStr s => negb (String.eqb s EmptyString)
  | VList l => match l with [] => false | _ => true end
  | VDict l => match l with [] => false | _ => true end
  end.

Fixpoint assoc (k : string) (items : list (string * pyval)) : option pyval :=
  match items with
  | [] => None
  | (k', v) :: rest => if String.eqb k k' then Some v else assoc k rest
  end.

(** [v.get(k, d)] *)
Definition py_get (v : pyval) (k : string) (d : pyval) : exn + pyval :=
  match v with
  | VDict items => inr (match assoc k items with Some x => x | None => d end)
  | _ => inl (Exn AttributeError
                ("'" ++ type_name v ++ "' object has no attribute 'get'"))
  end.

(** [v[k]] for a string key [k] *)
Definition py_getitem (v : pyval) (k : string) : exn + pyval :=
  match v with
  | VDict items =>
      match assoc k items with
      | Some x => inr x
      | None => inl (Exn KeyError ("'" ++ k ++ "'"))
      end
  | VList _ => inl (Exn TypeError "list indices must be integers or slices, not str")
  | VStr _ => inl (Exn TypeError "string indices must be integers, not 'str'")
  | _ => inl (Exn TypeError ("'" ++ type_name v ++ "' object is not subscriptable"))
  end.

(** [v == s] for a string literal [s] *)
Definition py_eq_str (v : pyval) (s : string) : bool :=
  match v with
  | VStr t => String.eqb t s
  | _ => false
  end.

Definition lower_ascii (c : ascii) : ascii :=
  let n := nat_of_ascii c in
  if (Nat.leb 65 n && Nat.leb n 90)%bool then ascii_of_nat (n + 32) else c.

(** [s.lower()] on ASCII text *)
Fixpoint lower (s : string) : string :=
  match s with
  | EmptyString => EmptyString
  | String c rest => String (lower_ascii c) (lower rest)
  end.
End Python.

(** ** Data model (listings/models.py) *)

Inductive BookingStatusChoices := BOOKING_PENDING | CONFIRMED | BOOKING_CANCELED.

Inductive ChapaPaymentStatusChoices := PENDING | COMPLETED | FAILED | CANCELED | REVERSED.

Inductive PaymentMethodChoices := CHAPA | CREDIT_CARD | PAYPAL | STRIPE.

(** The database value of each payment status (note the spelling of
    [CANCELED]'s value). *)
Definition status_value (s : ChapaPaymentStatusChoices) : string :=
  match s with
  | PENDING => "PENDING"
  | COMPLETED => "COMPLETED"
  | FAILED => "FAILED"
  | CANCELED => "CANCELLED"
  | REVERSED => "REVERSED"
  end.

Definition payment_status_eqb (a b : ChapaPaymentStatusChoices) : bool :=
  match a, b with
  | PENDING, PENDING | COMPLETED, COMPLETED | FAILED, FAILED
  | CANCELED, CANCELED | REVERSED, REVERSED => true
  | _, _ => false
  end.

Definition booking_status_eqb (a b : BookingStatusChoices) : bool :=
  match a, b with
  | BOOKING_PENDING, BOOKING_PENDING | CONFIRMED, CONFIRMED
  | BOOKING_CANCELED, BOOKING_CANCELED => true
  | _, _ => false
  end.

Section Models.
Context `{PyRuntime}.

(** The columns of [User] the views read.  Users are never written by
    the payment views, so a booking carries its user row directly. *)
Record User := {
  user_id : UUID;
  email : string;
  first_name : string;
  last_name : string
}.

Record Booking := {
  booking_id : UUID;
  booking_user : User;
  total_price : Decimal;
  booking_status : BookingStatusChoices
}.

(** [payment_date] (auto_now_add) is left out: no view reads it. *)
Record Payment := {
  payment_id : UUID;
  booking : UUID;                              (* foreign key *)
  amount : Decimal;
  chapa_transaction_id : option string;        (* unique, nullable *)
  status : ChapaPaymentStatusChoices;
  chapa_status_text : pyval;                   (* nullable text *)
  payment_method : PaymentMethodChoices
}.

Definition set_status (p : Payment) (s : ChapaPaymentStatusChoices) : Payment :=
  {| payment_id := payment_id p; booking := booking p; amount := amount p;
     chapa_transaction_id := chapa_transaction_id p; status := s;
     chapa_status_text := chapa_status_text p;
     payment_method := payment_method p |}.

Definition set_status_text (p : Payment) (t : pyval) : Payment :=
  {| payment_id := payment_id p; booking := booking p; amount := amount p;
     chapa_transaction_id := chapa_transaction_id p; status := status p;
     chapa_status_text := t;
     payment_method := payment_method p |}.

Definition set_booking_status (b : Booking) (s : BookingStatusChoices) : Booking :=
  {| booking_id := booking_id b; booking_user := booking_user b;
     total_price := total_price b; booking_status := s |}.

(** ** The outside world *)

(** The body sent to the gateway's initialize endpoint. *)
Record InitiatePayload := {
  pl_amount : string;
  pl_currency : string;
  pl_email : string;
  pl_first_name : string;
  pl_last_name : string;
  pl_tx_ref : string;
  pl_callback_url : string;
  pl_return_url : string;
  pl_title : string;
  pl_description : string
}.

(** Arguments of [send_payment_confirmation_email.delay]. *)
Record PaymentConfirmed := {
  job_payment_id : string;
  job_recipient_email : string;
  job_amount : Decimal;
  job_booking_ref : string
}.

(** Every write to a table and every call to an external collaborator,
    in program order.  A call is recorded when it is made, whether or
    not it then raises. *)
Inductive event :=
| DbInsertPayment (p : Payment)                (* Payment.objects.create *)
| DbUpdatePayment (p : Payment)                (* payment.save() *)
| DbUpdateBooking (b : Booking)                (* payment.booking.save() *)
| HttpPost (url : string) (payload : InitiatePayload)
| HttpGet (url : string)
| CeleryDelay (job : PaymentConfirmed).

Record World := {
  payments : list Payment;
  bookings : list Booking;
  trace : list event
}.

(** What [requests.post/get], [raise_for_status] and [.json()] give. *)
Inductive http_outcome :=
| HttpRaises (msg : string)      (* the request or raise_for_status raises
                                    a RequestException with this text *)
| HttpNotJson (msg : string)     (* the body is not JSON: .json() raises *)
| HttpJson (response_data : pyval).

Record Env := {
  uuid4_tx_ref : UUID;           (* uuid.uuid4() of the reference *)
  uuid4_payment_id : UUID;       (* default of Payment.payment_id *)
  post_outcome : http_outcome;
  get_outcome : http_outcome;
  delay_outcome : option string  (* [Some msg]: the broker raises *)
}.

Record HttpRequest := {
  method : string;
  user : option User;            (* [None]: not authenticated *)
  body : option pyval;           (* [None]: json.loads raises *)
  base_uri : string              (* scheme and host for build_absolute_uri *)
}.

Inductive HttpResponse :=
| JsonResponse (data : list (string * pyval)) (status_code : Z)
| HttpResponseRedirect (location : string)
| HttpResponseServerError.       (* an exception left the view *)

Definition response_status (r : HttpResponse) : Z :=
  match r with
  | JsonResponse _ c => c
  | HttpResponseRedirect _ => 302
  | HttpResponseServerError => 500
  end.
End Models.

(** ** A state-and-exception monad for view bodies *)

Section ViewMonad.
Context `{PyRuntime}.

(** A running view: the database and trace, and the local variable
    [payment] of the view (unbound until it is assigned), which the
    [except] clauses inspect through [locals()]. *)
Record Frame := {
  world : World;
  payment_var : option Payment
}.

Definition View (A : Type) : Type := Frame -> Frame * (exn + A).

Definition ret {A} (a : A) : View A := fun fr => (fr, inr a).

Definition raise {A} (e : exn) : View A := fun fr => (fr, inl e).

Definition bind {A B} (c : View A) (k : A -> View B) : View B :=
  fun fr =>
    match c fr with
    | (fr', inr a) => k a fr'
    | (fr', inl e) => (fr', inl e)
    end.

Definition lift {A} (r : exn + A) : View A :=
  match r with
  | inl e => raise e
  | inr a => ret a
  end.

(** A conversion that raises an exception of class [c] when it fails *)
Definition lift_as {A} (c : exn_class) (r : string + A) : View A :=
  match r with
  | inl msg => raise (Exn c msg)
  | inr a => ret a
  end.

(** [try: body  except ...: handlers e] *)
Definition try_except {A} (body : View A) (handlers : exn -> View A) : View A :=
  fun fr =>
    match body fr with
    | (fr', inl e) => handlers e fr'
    | done => done
    end.

(** A view called by the framework on a database [w].  An exception
    that leaves the view becomes the framework's 500 page. *)
Definition run_view (v : View HttpResponse) (w : World) : World * HttpResponse :=
  match v {| world := w; payment_var := None |} with
  | (fr, inr response) => (world fr, response)
  | (fr, inl _) => (world fr, HttpResponseServerError)
  end.
End ViewMonad.

Declare Scope view_scope.
Delimit Scope view_scope with view.
Notation "x <- c ;; k" := (bind c (fun x => k))
  (at level 61, c at next level, right associativity) : view_scope.
Notation "c ;; k" := (bind c (fun _ => k))
  (at level 61, right associativity) : view_scope.

(** ** ORM, HTTP client and task queue *)

Section Collaborators.
Context `{PyRuntime} `{!PyBuiltins}.
Local Open Scope view_scope.

Definition log (ev : event) : View unit :=
  fun fr =>
    let w := world fr in
    ({| world := {| payments := payments w; bookings := bookings w;
                    trace := trace w ++ [ev] |};
        payment_var := payment_var fr |}, inr tt).

(** [payment = ...] *)
Definition assign_payment (p : Payment) : View unit :=
  fun fr => ({| world := world fr; payment_var := Some p |}, inr tt).

(** [payment.<field> = ...] on the object bound to [payment] *)
Definition payment_setattr (f : Payment -> Payment) : View unit :=
  fun fr =>
    match payment_var fr with
    | Some p => ({| world := world fr; payment_var := Some (f p) |}, inr tt)
    | None => (fr, inl (Exn NameError "name 'payment' is not defined"))
    end.

(** Reading the local variable [payment] *)
Definition payment_obj : View Payment :=
  fun fr =>
    match payment_var fr with
    | Some p => (fr, inr p)
    | None => (fr, inl (Exn NameError "name 'payment' is not defined"))
    end.

Definition has_tx_ref (tx_ref : string) (p : Payment) : bool :=
  match chapa_transaction_id p with
  | Some t => String.eqb t tx_ref
  | None => false
  end.

(** Rows of a table whose primary key is read by [key] *)
Definition has_pk {A} (key : A -> UUID) (id : UUID) (row : A) : bool :=
  UUID_eqb (key row) id.

Definition has_payment_id : UUID -> Payment -> bool := has_pk payment_id.

Definition has_booking_id : UUID -> Booking -> bool := has_pk booking_id.

(** [Payment.objects.get(chapa_transaction_id=tx_ref)] *)
Definition Payment_objects_get (tx_ref : string) : View Payment :=
  fun fr =>
    match filter (has_tx_ref tx_ref) (payments (world fr)) with
    | [] => (fr, inl (Exn PaymentDoesNotExist "Payment matching query does not exist."))
    | [p] => (fr, inr p)
    | _ => (fr, inl (Exn MultipleObjectsReturned
                       "get() returned more than one Payment"))
    end.

(** [django.shortcuts.get_object_or_404(Payment, chapa_transaction_id=tx_ref)]:
    the manager's [DoesNotExist] is turned into [Http404]. *)
Definition get_object_or_404 (tx_ref : string) : View Payment :=
  try_except (Payment_objects_get tx_ref)
    (fun e =>
       if isinstance e ExceptPaymentDoesNotExist
       then raise (Exn Http404 "No Payment matches the given query.")
       else raise e).

(** [Model.save()] on a row with a primary key: UPDATE, and INSERT when
    no row was updated. *)
Definition save_row {A} (key : A -> UUID) (row : A) (rows : list A) : list A :=
  if existsb (has_pk key (key row)) rows
  then map (fun old => if has_pk key (key row) old then row else old) rows
  else rows ++ [row].

Definition save_payment_row : Payment -> list Payment -> list Payment :=
  save_row payment_id.

Definition save_booking_row : Booking -> list Booking -> list Booking :=
  save_row booking_id.

(** [payment.save()] *)
Definition payment_save : View unit :=
  p <- payment_obj ;;
  (fun fr =>
     let w := world fr in
     ({| world := {| payments := save_payment_row p (payments w);
                     bookings := bookings w;
                     trace := trace w ++ [DbUpdatePayment p] |};
         payment_var := payment_var fr |}, inr tt)).

(** [payment.booking]: the related row, fetched through the foreign key *)
Definition payment_booking : View Booking :=
  p <- payment_obj ;;
  (fun fr =>
     match find (has_booking_id (booking p)) (bookings (world fr)) with
     | Some b => (fr, inr b)
     | None => (fr, inl (Exn BookingDoesNotExist "Payment has no booking."))
     end).

(** [payment.booking.save()] *)
Definition booking_save (b : Booking) : View unit :=
  fun fr =>
    let w := world fr in
    ({| world := {| payments := payments w;
                    bookings := save_booking_row b (bookings w);
                    trace := trace w ++ [DbUpdateBooking b] |};
        payment_var := payment_var fr |}, inr tt).

(** [Booking.objects.get(booking_id=booking_id, user=request.user)] *)
Definition Booking_objects_get (booking_id_arg : pyval) (u : User) : View Booking :=
  id <- lift_as ValidationError (uuid_of booking_id_arg) ;;
  (fun fr =>
     match filter (fun b => has_booking_id id b
                            && UUID_eqb (user_id (booking_user b)) (user_id u))%bool
                  (bookings (world fr)) with
     | [] => (fr, inl (Exn BookingDoesNotExist "Booking matching query does not exist."))
     | [b] => (fr, inr b)
     | _ => (fr, inl (Exn MultipleObjectsReturned
                        "get() returned more than one Booking"))
     end).

(** [Payment.objects.create(...)]: the primary key takes its default
    [uuid.uuid4()], the amount goes through the decimal field, and the
    INSERT is refused when the primary key or the (unique)
    [chapa_transaction_id] is already taken. *)
Definition Payment_objects_create (env : Env) (b : Booking) (amount_arg : pyval)
    (m : PaymentMethodChoices) (tx_ref : string)
    (s : ChapaPaymentStatusChoices) (text : pyval) : View Payment :=
  a <- lift_as ValidationError (decimal_of amount_arg) ;;
  let p := {| payment_id := uuid4_payment_id env; booking := booking_id b;
              amount := a; chapa_transaction_id := Some tx_ref;
              status := s; chapa_status_text := text;
              payment_method := m |} in
  (fun fr =>
     let w := world fr in
     if (existsb (has_payment_id (payment_id p)) (payments w)
         || existsb (has_tx_ref tx_ref) (payments w))%bool
     then (fr, inl (Exn IntegrityError "UNIQUE constraint failed"))
     else ({| world := {| payments := payments w ++ [p];
                          bookings := bookings w;
                          trace := trace w ++ [DbInsertPayment p] |};
              payment_var := payment_var fr |}, inr p)).

Definition http_result (o : http_outcome) : View pyval :=
  match o with
  | HttpRaises msg => raise (Exn RequestException msg)
  | HttpNotJson msg => raise (Exn RequestsJSONDecodeError msg)
  | HttpJson response_data => ret response_data
  end.

(** [requests.post(url, headers=..., json=payload)], then
    [raise_for_status()] and [.json()] *)
Definition requests_post (env : Env) (url : string) (payload : InitiatePayload)
    : View pyval :=
  log (HttpPost url payload) ;; http_result (post_outcome env).

(** [requests.get(url, headers=...)], then [raise_for_status()] and [.json()] *)
Definition requests_get (env : Env) (url : string) : View pyval :=
  log (HttpGet url) ;; http_result (get_outcome env).

(** [send_payment_confirmation_email.delay(...)] *)
Definition delay (env : Env) (job : PaymentConfirmed) : View unit :=
  log (CeleryDelay job) ;;
  match delay_outcome env with
  | Some msg => raise (Exn OperationalError msg)
  | None => ret tt
  end.

(** [json.loads(request.body)] *)
Definition json_loads (b : option pyval) : View pyval :=
  match b with
  | Some v => ret v
  | None => raise (Exn JSONDecodeError "Expecting value")
  end.

(** [float(x)] on a JSON value: [ValueError] for a string that is not
    a number, [TypeError] for a value of another type. *)
Definition py_float (v : pyval) : View PyFloat :=
  lift_as (match v with VStr _ => ValueError | _ => TypeError end) (float v).
End Collaborators.

(** ** The two views (listings/views.py) *)

Section Views.
Context `{PyRuntime} `{!PyBuiltins}.
Local Open Scope view_scope.

Definition CHAPA_INITIATE_URL : string := "https://api.chapa.co/v1/initialize".
Definition CHAPA_VERIFY_URL : string := "https://api.chapa.co/v1/verify/".

(** [request.build_absolute_uri(path)] *)
Definition build_absolute_uri (request : HttpRequest) (path : string) : string :=
  base_uri request ++ path.

(** [payment.status in [COMPLETED, FAILED]] *)
Definition already_processed (p : Payment) : bool :=
  existsb (payment_status_eqb (status p)) [COMPLETED; FAILED].

(** The guard shared by the broad [except] clauses:
    [if 'payment' in locals() and payment.status == PENDING: ...save()] *)
Definition fail_if_pending (text : string) : View unit :=
  fun fr =>
    match payment_var fr with
    | Some p =>
        if payment_status_eqb (status p) PENDING
        then (payment_setattr (fun p => set_status p FAILED) ;;
              payment_setattr (fun p => set_status_text p (VStr text)) ;;
              payment_save) fr
        else (fr, inr tt)
    | None => (fr, inr tt)
    end.

(** *** initiate_chapa_payment *)

(** The inner [try] of the view: look the booking up and compare the
    amounts.  [inl] is an early [return]. *)
Definition check_booking (booking_id_arg amount_arg : pyval) (u : User)
    : View (HttpResponse + Booking) :=
  try_except
    (b <- Booking_objects_get booking_id_arg u ;;
     requested <- py_float amount_arg ;;
     if negb (float_eq requested (float_of_decimal (total_price b)))
     then ret (inl (JsonResponse
                      [("error",
                        VStr ("Amount " ++ str amount_arg
                              ++ " does not match booking total price "
                              ++ str_decimal (total_price b) ++ "."))] 400))
     else ret (inr b))
    (fun e =>
       if isinstance e ExceptBookingDoesNotExist
       then ret (inl (JsonResponse
                        [("error",
                          VStr "Booking not found or you do not own this booking.")]
                        404))
       else raise e).

Definition initiate_try (env : Env) (request : HttpRequest) (u : User)
    : View HttpResponse :=
  data <- json_loads (body request) ;;
  booking_id_arg <- lift (py_get data "booking_id" VNone) ;;
  amount_arg <- lift (py_get data "amount" VNone) ;;
  if (negb (truthy booking_id_arg) || negb (truthy amount_arg))%bool
  then ret (JsonResponse
              [("error", VStr "Booking ID and amount are required.")] 400)
  else
    checked <- check_booking booking_id_arg amount_arg u ;;
    match checked with
    | inl response => ret response
    | inr b =>
        let tx_ref := hex (booking_id b) ++ "-" ++ hex (uuid4_tx_ref env) in
        payment <- Payment_objects_create env b amount_arg CHAPA tx_ref PENDING
                     (VStr "Initiation pending") ;;
        assign_payment payment ;;
        let payload :=
          {| pl_amount := str amount_arg;
             pl_currency := "ETB";
             pl_email := email (booking_user b);
             pl_first_name := first_name (booking_user b);
             pl_last_name := last_name (booking_user b);
             pl_tx_ref := tx_ref;
             pl_callback_url :=
               build_absolute_uri request
                 ("/api/payments/chapa/verify/" ++ tx_ref ++ "/");
             pl_return_url := build_absolute_uri request "/payment-status/";
             pl_title := "Travel Booking Payment";
             pl_description :=
               "Payment for booking " ++ str_uuid (booking_id b) |} in
        response_data <- requests_post env CHAPA_INITIATE_URL payload ;;
        st <- lift (py_get response_data "status" VNone) ;;
        if py_eq_str st "success"
        then
          d <- lift (py_getitem response_data "data") ;;
          checkout_url <- lift (py_getitem d "checkout_url") ;;
          text <- lift (py_get response_data "message"
                          (VStr "Payment initiation successful, awaiting completion.")) ;;
          payment_setattr (fun p => set_status_text p text) ;;
          payment_save ;;
          ret (JsonResponse [("status", VStr "success");
                             ("checkout_url", checkout_url);
                             ("tx_ref", VStr tx_ref)] 200)
        else
          payment_setattr (fun p => set_status p FAILED) ;;
          text <- lift (py_get response_data "message"
                          (VStr "Failed to initiate payment with Chapa.")) ;;
          payment_setattr (fun p => set_status_text p text) ;;
          payment_save ;;
          ret (JsonResponse [("status", VStr "error"); ("message", text)] 400)
    end.

(** The [except] clauses of the outer [try], in their order. *)
Definition initiate_except (e : exn) : View HttpResponse :=
  if isinstance e ExceptJSONDecodeError
  then ret (JsonResponse [("error", VStr "Invalid JSON body.")] 400)
  else if isinstance e ExceptRequestException
  then
    fail_if_pending ("API Request Error: " ++ exn_msg e) ;;
    ret (JsonResponse
           [("status", VStr "error");
            ("message", VStr "Could not connect to payment gateway or API error.")]
           500)
  else
    fail_if_pending ("Internal Error: " ++ exn_msg e) ;;
    ret (JsonResponse
           [("status", VStr "error");
            ("message", VStr ("An internal error occurred: " ++ exn_msg e))]
           500).

Definition initiate_chapa_payment (env : Env) (request : HttpRequest) (w : World)
    : World * HttpResponse :=
  if String.eqb (method request) "POST"
  then
    match user request with
    | None => (w, JsonResponse [("error", VStr "Authentication required.")] 401)
    | Some u =>
        run_view (try_except (initiate_try env request u) initiate_except) w
    end
  else (w, JsonResponse
             [("error", VStr "Invalid request method. Only POST is allowed.")] 405).

(** *** verify_chapa_payment *)

Definition verify_try (env : Env) (tx_ref : string) : View HttpResponse :=
  payment <- get_object_or_404 tx_ref ;;
  assign_payment payment ;;
  if already_processed payment
  then ret (HttpResponseRedirect
              ("/payment-status/?tx_ref=" ++ tx_ref ++ "&status="
               ++ lower (status_value (status payment))))
  else
    response_data <- requests_get env (CHAPA_VERIFY_URL ++ tx_ref) ;;
    outer <- lift (py_get response_data "status" VNone) ;;
    success <- (if py_eq_str outer "success"
                then (d <- lift (py_getitem response_data "data") ;;
                      inner <- lift (py_get d "status" VNone) ;;
                      ret (py_eq_str inner "success"))
                else ret false) ;;
    if success : bool
    then
      payment_setattr (fun p => set_status p COMPLETED) ;;
      d <- lift (py_getitem response_data "data") ;;
      text <- lift (py_get d "status" (VStr "Payment completed successfully.")) ;;
      payment_setattr (fun p => set_status_text p text) ;;
      payment_save ;;
      b <- payment_booking ;;
      b <- (if negb (booking_status_eqb (booking_status b) CONFIRMED)
            then (booking_save (set_booking_status b CONFIRMED) ;;
                  ret (set_booking_status b CONFIRMED))
            else ret b) ;;
      let recipient_email := email (booking_user b) in
      payment <- payment_obj ;;
      delay env {| job_payment_id := str_uuid (payment_id payment);
                   job_recipient_email := recipient_email;
                   job_amount := amount payment;
                   job_booking_ref := str_uuid (booking_id b) |} ;;
      ret (HttpResponseRedirect "/payment-success/")
    else
      payment_setattr (fun p => set_status p FAILED) ;;
      d <- lift (py_getitem response_data "data") ;;
      fallback <- lift (py_get response_data "message"
                          (VStr "Payment verification failed.")) ;;
      text <- lift (py_get d "message" fallback) ;;
      payment_setattr (fun p => set_status_text p text) ;;
      payment_save ;;
      ret (HttpResponseRedirect
             ("/payment-fail/?tx_ref=" ++ tx_ref ++ "&status=" ++ str text)).

(** The [except] clauses of the view, in their order. *)
Definition verify_except (tx_ref : string) (e : exn) : View HttpResponse :=
  if isinstance e ExceptPaymentDoesNotExist
  then ret (JsonResponse [("status", VStr "error");
                          ("message", VStr "Payment record not found.")] 404)
  else if isinstance e ExceptRequestException
  then
    fail_if_pending ("API Verification Error: " ++ exn_msg e) ;;
    ret (HttpResponseRedirect
           ("/payment-fail/?tx_ref=" ++ tx_ref ++ "&error=api_error"))
  else
    fail_if_pending ("Internal Error: " ++ exn_msg e) ;;
    ret (HttpResponseRedirect
           ("/payment-fail/?tx_ref=" ++ tx_ref ++ "&error=internal_error")).

Definition verify_chapa_payment (env : Env) (tx_ref : string) (w : World)
    : World * HttpResponse :=
  run_view (try_except (verify_try env tx_ref) (verify_except tx_ref)) w.
End Views.

(** ** Sequences of orchestrator calls *)

Section Calls.
Context `{PyRuntime} `{!PyBuiltins}.

Inductive call :=
| VerifyPayment (env : Env) (tx_ref : string)
| InitiatePayment (env : Env) (request : HttpRequest).

Definition perform (c : call) (w : World) : World * HttpResponse :=
  match c with
  | VerifyPayment env tx_ref => verify_chapa_payment env tx_ref w
  | InitiatePayment env request => initiate_chapa_payment env request w
  end.

(** The database after a sequence of calls, each with its own
    environment. *)
Definition run (cs : list call) (w : World) : World :=
  fold_left (fun w c => fst (perform c w)) cs w.

(** A verification of another reference is not about this payment. *)
Definition concerns (tx_ref : string) (c : call) : Prop :=
  match c with
  | VerifyPayment _ r => r = tx_ref
  | InitiatePayment _ _ => True
  end.

(** The jobs handed to [send_payment_confirmation_email.delay], in
    order. *)
Fixpoint delayed_jobs (t : list event) : list PaymentConfirmed :=
  match t with
  | [] => []
  | CeleryDelay job :: rest => job :: delayed_jobs rest
  | _ :: rest => delayed_jobs rest
  end.

(** The URLs fetched from the gateway's verify endpoint, in order. *)
Fixpoint gateway_verifications (t : list event) : list string :=
  match t with
  | [] => []
  | HttpGet url :: rest => url :: gateway_verifications rest
  | _ :: rest => gateway_verifications rest
  end.

(** The request passes every check of [initiate_chapa_payment] for the
    booking [b] of the caller [u], and the payment row for the
    reference [tx_ref] can be inserted with the amount [c]. *)
Record passes_checks (env : Env) (request : HttpRequest) (w : World)
    (u : User) (b : Booking) (amount_arg : pyval) (c : Decimal)
    (tx_ref : string) : Prop := {
  pc_method : method request = "POST";
  pc_user : user request = Some u;
  pc_amount_given : truthy amount_arg = true;
  pc_body : exists items booking_id_arg id,
      body request = Some (VDict items)
      /\ assoc "booking_id" items = Some booking_id_arg
      /\ assoc "amount" items = Some amount_arg
      /\ truthy booking_id_arg = true
      /\ uuid_of booking_id_arg = inr id
      /\ filter (fun b => has_booking_id id b
                          && UUID_eqb (user_id (booking_user b)) (user_id u))%bool
                (bookings w) = [b];
  pc_amount : exists requested,
      float amount_arg = inr requested
      /\ float_eq requested (float_of_decimal (total_price b)) = true;
  pc_decimal : decimal_of amount_arg = inr c;
  pc_tx_ref : tx_ref = hex (booking_id b) ++ "-" ++ hex (uuid4_tx_ref env);
  pc_fresh_id : existsb (has_payment_id (uuid4_payment_id env)) (payments w) = false;
  pc_fresh_ref : existsb (has_tx_ref tx_ref) (payments w) = false
}.

(** The row inserted by [initiate_chapa_payment] *)
Definition pending_payment (env : Env) (b : Booking) (c : Decimal)
    (tx_ref : string) : Payment :=
  {| payment_id := uuid4_payment_id env; booking := booking_id b;
     amount := c; chapa_transaction_id := Some tx_ref;
     status := PENDING; chapa_status_text := VStr "Initiation pending";
     payment_method := CHAPA |}.

(** The body posted to the gateway *)
Definition gateway_payload (request : HttpRequest) (b : Booking)
    (amount_arg : pyval) (tx_ref : string) : InitiatePayload :=
  {| pl_amount := str amount_arg;
     pl_currency := "ETB";
     pl_email := email (booking_user b);
     pl_first_name := first_name (booking_user b);
     pl_last_name := last_name (booking_user b);
     pl_tx_ref := tx_ref;
     pl_callback_url :=
       build_absolute_uri request ("/api/payments/chapa/verify/" ++ tx_ref ++ "/");
     pl_return_url := build_absolute_uri request "/payment-status/";
     pl_title := "Travel Booking Payment";
     pl_description := "Payment for booking " ++ str_uuid (booking_id b) |}.

(** The [tx_ref] member of a JSON answer *)
Definition returned_tx_ref (r : HttpResponse) : option string :=
  match r with
  | JsonResponse data _ =>
      match assoc "tx_ref" data with
      | Some (VStr s) => Some s
      | _ => None
      end
  | _ => None
  end.

(** The same environment with another answer of the broker *)
Definition with_broker (env : Env) (answer : option string) : Env :=
  {| uuid4_tx_ref := uuid4_tx_ref env;
     uuid4_payment_id := uuid4_payment_id env;
     post_outcome := post_outcome env;
     get_outcome := get_outcome env;
     delay_outcome := answer |}.

(** The two ways in which the call of the initialize endpoint fails,
    with the text stored on the payment and the HTTP status returned:
    the request raises (no connection, time-out, HTTP error status), or
    the gateway answers with a status other than ["success"]. *)
Inductive initiation_failure : http_outcome -> pyval -> Z -> Prop :=
| transport_failure msg :
    initiation_failure (HttpRaises msg)
      (VStr ("API Request Error: " ++ msg)) 500
| gateway_rejection top :
    match assoc "status" top with
    | Some st => py_eq_str st "success"
    | None => false
    end = false ->
    initiation_failure (HttpJson (VDict top))
      (match assoc "message" top with
       | Some m => m
       | None => VStr "Failed to initiate payment with Chapa."
       end) 400.

(** HTTP 5xx *)
Definition server_error (r : HttpResponse) : Prop :=
  500 <= response_status r < 600.

(** The response structure documented in [verify_chapa_payment]:
    a JSON object whose [data] member is a JSON object. *)
Definition verification_payload (response_data : pyval)
    (top nested : list (string * pyval)) : Prop :=
  response_data = VDict top /\ assoc "data" top = Some (VDict nested).

(** Both the outer and the inner status say ["success"]. *)
Definition reports_success (top nested : list (string * pyval)) : bool :=
  (match assoc "status" top with Some v => py_eq_str v "success" | None => false end
   && match assoc "status" nested with Some v => py_eq_str v "success" | None => false end)%bool.

(** The diagnostic text of a failed verification: the nested message,
    else the top-level message, else a fixed text. *)
Definition diagnostic_text (top nested : list (string * pyval)) : pyval :=
  match assoc "message" nested with
  | Some m => m
  | None =>
      match assoc "message" top with
      | Some m => m
      | None => VStr "Payment verification failed."
      end
  end.
End Calls.

(** ** A concrete runtime and database

    Used to run the views on explicit data.  Floats are represented
    exactly, in hundredths, which is enough for prices with two decimal
    places; a UUID is its 32-digit hexadecimal form. *)

Module Sample.
Definition digit (c : ascii) : option Z :=
  let n := nat_of_ascii c in
  if (Nat.leb 48 n && Nat.leb n 57)%bool then Some (Z.of_nat (n - 48)) else None.

Fixpoint digits (s : string) (acc : Z) : option Z :=
  match s with
  | EmptyString => Some acc
  | String c rest =>
      match digit c with
      | Some d => digits rest (10 * acc + d)
      | None => None
      end
  end.

(** ["800"], ["800.5"], ["800.50"] *)
Definition parse_hundredths (s : string) : option Z :=
  match index 0 "." s with
  | None =>
      if String.eqb s EmptyString then None else option_map (Z.mul 100) (digits s 0)
  | Some i =>
      let whole := substring 0 i s in
      let frac := substring (S i) (String.length s - S i) s in
      match digits whole 0, digits frac 0, String.length frac with
      | Some a, Some d, 1%nat => Some (100 * a + 10 * d)
      | Some a, Some d, 2%nat => Some (100 * a + d)
      | _, _, _ => None
      end
  end.

Definition show_nat (n : nat) : string :=
  NilZero.string_of_uint (Nat.to_uint n).

Definition show_hundredths (c : Z) : string :=
  let a := Z.abs c in
  let cents := Z.to_nat (a mod 100) in
  (if c <? 0 then "-" else EmptyString)
  ++ show_nat (Z.to_nat (a / 100)) ++ "."
  ++ (if Nat.ltb cents 10 then "0" else EmptyString) ++ show_nat cents.

(** 8-4-4-4-12 *)
Definition dashed (h : string) : string :=
  substring 0 8 h ++ "-" ++ substring 8 4 h ++ "-" ++ substring 12 4 h
  ++ "-" ++ substring 16 4 h ++ "-" ++ substring 20 12 h.

#[export] Instance runtime : PyRuntime := {|
  PyFloat := Z;
  float_eq := Z.eqb;
  float_zero := 0;
  UUID := string;
  UUID_eqb := String.eqb;
  UUID_eqb_eq := String.eqb_eq;
  hex := fun u => u;
  str_uuid := dashed
|}.

Definition sample_float (v : pyval) : string + Z :=
  match v with
  | VInt z => inr (100 * z)
  | VFloat f => inr f
  | VBool b => inr (if b then 100 else 0)
  | VStr s =>
      match parse_hundredths s with
      | Some c => inr c
      | None => inl ("could not convert string to float: '" ++ s ++ "'")
      end
  | _ => inl "float() argument must be a string or a real number"
  end.

Definition sample_str (v : pyval) : string :=
  match v with
  | VNone => "None"
  | VBool b => if b then "True" else "False"
  | VInt z => (if z <? 0 then "-" else EmptyString) ++ show_nat (Z.to_nat (Z.abs z))
  | VFloat f => show_hundredths f
  | VStr s => s
  | VList _ => "[...]"
  | VDict _ => "{...}"
  end.

Definition sample_uuid (v : pyval) : string + string :=
  match v with
  | VStr s =>
      if Nat.eqb (String.length s) 32 then inr s
      else inl "is not a valid UUID."
  | _ => inl "is not a valid UUID."
  end.

Definition sample_decimal (v : pyval) : string + Decimal :=
  match sample_float v with
  | inr c => inr c
  | inl _ => inl "value must be a decimal number."
  end.

#[export] Instance builtins : PyBuiltins := {|
  float := sample_float;
  float_of_decimal := fun c => c;
  str := sample_str;
  str_decimal := show_hundredths;
  uuid_of := sample_uuid;
  decimal_of := sample_decimal
|}.

Definition guest : User :=
  {| user_id := "b2c3d4e5f6a7890123456789abcdef00";
     email := "jane.doe@example.com";
     first_name := "Jane";
     last_name := "Doe" |}.

(** A booking of 800.00, not yet confirmed *)
Definition trip : Booking :=
  {| booking_id := "a1b2c3d4e5f678901234567890abcdef";
     booking_user := guest;
     total_price := 80000;
     booking_status := BOOKING_PENDING |}.

Definition trip_ref : string :=
  "a1b2c3d4e5f678901234567890abcdef-0123456789abcdef0123456789abcdef".

(** A payment attempt for it, as [initiate_chapa_payment] leaves it *)
Definition attempt : Payment :=
  {| payment_id := "e6f78899aabb4ccd8eef001122334455";
     booking := booking_id trip;
     amount := 80000;
     chapa_transaction_id := Some trip_ref;
     status := PENDING;
     chapa_status_text := VStr "Hosted Link";
     payment_method := CHAPA |}.

Definition ledger : World :=
  {| payments := [attempt]; bookings := [trip]; trace := [] |}.

(** The same database with the attempt in another state *)
Definition ledger_with (s : ChapaPaymentStatusChoices) : World :=
  {| payments := [set_status attempt s]; bookings := [trip]; trace := [] |}.

Definition no_payments : World :=
  {| payments := []; bookings := [trip]; trace := [] |}.

Definition gateway (post get : http_outcome) (broker : option string) : Env :=
  {| uuid4_tx_ref := "0123456789abcdef0123456789abcdef";
     uuid4_payment_id := "e6f78899aabb4ccd8eef001122334455";
     post_outcome := post;
     get_outcome := get;
     delay_outcome := broker |}.

(** An environment whose random draws differ from those behind
    [attempt] *)
Definition later_gateway (post get : http_outcome) (broker : option string) : Env :=
  {| uuid4_tx_ref := "00112233445566778899aabbccddeeff";
     uuid4_payment_id := "ffeeddccbbaa99887766554433221100";
     post_outcome := post;
     get_outcome := get;
     delay_outcome := broker |}.

Definition initiated : pyval :=
  VDict [("message", VStr "Hosted Link"); ("status", VStr "success");
         ("data", VDict [("checkout_url",
                          VStr "https://checkout.chapa.co/checkout/payment/abc")])].

Definition declined : pyval :=
  VDict [("message", VStr "Invalid API Key"); ("status", VStr "failed");
         ("data", VNone)].

Definition paid : pyval :=
  VDict [("message", VStr "Payment details"); ("status", VStr "success");
         ("data", VDict [("amount", VInt 800); ("currency", VStr "ETB");
                         ("status", VStr "success")])].

Definition unpaid : pyval :=
  VDict [("message", VStr "Payment details"); ("status", VStr "success");
         ("data", VDict [("amount", VInt 800); ("currency", VStr "ETB");
                         ("status", VStr "failed")])].

(** A failure reported at the top level only, with no nested object *)
Definition not_found : pyval :=
  VDict [("message", VStr "Invalid transaction or Transaction not found");
         ("status", VStr "failed"); ("data", VNone)].

(** An acknowledgement that lacks the nested object *)
Definition acknowledged_only : pyval :=
  VDict [("message", VStr "Payment details"); ("status", VStr "success")].

Definition timed_out : http_outcome := HttpRaises "Read timed out.".

(** The URL fetched when [trip_ref] is verified *)
Definition verify_url : string :=
  "https://api.chapa.co/v1/verify/a1b2c3d4e5f678901234567890abcdef-0123456789abcdef0123456789abcdef".

(** The confirmation job of [attempt] *)
Definition confirmation : PaymentConfirmed :=
  {| job_payment_id := "e6f78899-aabb-4ccd-8eef-001122334455";
     job_recipient_email := "jane.doe@example.com";
     job_amount := 80000;
     job_booking_ref := "a1b2c3d4-e5f6-7890-1234-567890abcdef" |}.

Definition pay_request (amount_arg : pyval) : HttpRequest :=
  {| method := "POST";
     user := Some guest;
     body := Some (VDict [("booking_id", VStr (booking_id trip));
                          ("amount", amount_arg)]);
     base_uri := "https://travel.example.com" |}.
End Sample.

(** ** Floats that drop digits

    [float()] keeps finitely many digits.  In this runtime a float
    carries fifteen decimal places and drops the digits after them, and
    the decimal column keeps two; on the amounts used with it this is
    what CPython and the database do:
    [float("800.000000000000000001") == 800.0], stored as [800.00]. *)

Module Rounding.
Import Sample.






End Rounding.

(** * The rest of the application

    The booking endpoint that creates the bookings the payment views
    work on (views.py), the two e-mail tasks that run the jobs the views
    submit (tasks.py), the user manager (models.py) and the URL
    configuration (urls.py). *)

(** ** Bookings with all their columns (listings/models.py) *)

Section BookingRows.
Context `{PyRuntime}.

Record Property := {
  property_id : UUID;
  host : User;
  name : string;
  description : string;
  location : string;
  price_per_night : Decimal
}.

(** A row of [Booking] with every column but [created_at].  Dates are
    day numbers ([date.toordinal()]).  [Booking] above keeps the
    columns the payment views read. *)
Record BookingRow := {
  row_booking_id : UUID;
  row_property : Property;
  row_user : User;
  start_date : Z;
  end_date : Z;
  row_total_price : Decimal;
  row_status : BookingStatusChoices
}.

Definition as_booking (r : BookingRow) : Booking :=
  {| booking_id := row_booking_id r; booking_user := row_user r;
     total_price := row_total_price r; booking_status := row_status r |}.
End BookingRows.

(** ** BookingViewSet.perform_create (listings/views.py) *)

Section PerformCreate.
Context `{PyRuntime}.

(** [serializer.validated_data] of a [BookingSerializer]: the property
    row found for [property_id] and the two dates. *)
Record ValidatedBooking := {
  vd_property : Property;
  vd_start_date : Z;
  vd_end_date : Z
}.

(** Arguments of [send_booking_confirmation_email.delay] *)
Record BookingConfirmed := {
  bc_booking_id : string;
  bc_recipient_email : string
}.

(** The bookings table and the booking jobs handed to the task queue
    (a job is recorded when [.delay] is called). *)
Record Reservations := {
  booking_rows : list BookingRow;
  booking_jobs : list BookingConfirmed
}.

Record CreateEnv := {
  uuid4_booking_id : UUID;                 (* default of Booking.booking_id *)
  booking_delay_outcome : option string    (* [Some msg]: the broker raises *)
}.

(** What leaves [perform_create] as an exception; the view has no
    [try], so the framework answers 500. *)
Inductive create_failure :=
| DecimalOutOfRange        (* total_price does not fit max_digits=10 *)
| DuplicateKey             (* the primary key is taken *)
| BrokerRefused (msg : string).

(** [DecimalField(max_digits=10, decimal_places=2)], in hundredths *)
Definition fits_decimal_10_2 (c : Decimal) : bool := Z.abs c <? 10 ^ 10.

Definition perform_create (env : CreateEnv) (validated_data : ValidatedBooking)
    (request_user : User) (db : Reservations)
    : Reservations * (create_failure + unit) :=
  let property_obj := vd_property validated_data in
  let start := vd_start_date validated_data in
  let finish := vd_end_date validated_data in
  let nights := finish - start in
  let total := nights * price_per_night property_obj in
  (* serializer.save(user=self.request.user, total_price=total_price) *)
  let row := {| row_booking_id := uuid4_booking_id env;
                row_property := property_obj;
                row_user := request_user;
                start_date := start;
                end_date := finish;
                row_total_price := total;
                row_status := BOOKING_PENDING |} in
  if negb (fits_decimal_10_2 total) then (db, inl DecimalOutOfRange)
  else if existsb (has_pk row_booking_id (row_booking_id row)) (booking_rows db)
  then (db, inl DuplicateKey)
  else
    let saved := {| booking_rows := booking_rows db ++ [row];
                    booking_jobs := booking_jobs db |} in
    (* send_booking_confirmation_email.delay(str(booking.booking_id),
                                             booking.user.email) *)
    let submitted :=
      {| booking_rows := booking_rows saved;
         booking_jobs := booking_jobs saved
                         ++ [{| bc_booking_id := str_uuid (row_booking_id row);
                                bc_recipient_email := email (row_user row) |}] |} in
    match booking_delay_outcome env with
    | Some msg => (submitted, inl (BrokerRefused msg))
    | None => (submitted, inr tt)
    end.
End PerformCreate.

(** ** The e-mail tasks (listings/tasks.py) *)

Section Tasks.
Context `{PyRuntime} `{!PyBuiltins}.

Record EmailMessage := {
  mail_subject : string;
  mail_message : string;
  mail_from : string;
  mail_recipients : list string
}.

Record MailEnv := {
  DEFAULT_FROM_EMAIL : string;
  send_mail_outcome : option string;   (* [Some msg]: send_mail raises *)
  isoformat : Z -> string              (* [str(date)] *)
}.

Inductive task_failure :=
| TaskBookingDoesNotExist            (* Booking.DoesNotExist *)
| TaskOtherException (msg : string). (* any other Exception *)

(** A task body: the outbox of the mail backend, and exceptions *)
Definition Task (A : Type) : Type :=
  list EmailMessage -> list EmailMessage * (task_failure + A).

Definition task_ret {A} (a : A) : Task A := fun out => (out, inr a).

Definition task_raise {A} (e : task_failure) : Task A := fun out => (out, inl e).

Definition task_bind {A B} (c : Task A) (k : A -> Task B) : Task B :=
  fun out =>
    match c out with
    | (out', inr a) => k a out'
    | (out', inl e) => (out', inl e)
    end.

Definition task_try {A} (body : Task A) (handlers : task_failure -> Task A) : Task A :=
  fun out =>
    match body out with
    | (out', inl e) => handlers e out'
    | done => done
    end.

(** [send_mail(subject, message, from_email, recipient_list,
    fail_silently=False)] *)
Definition send_mail (menv : MailEnv) (m : EmailMessage) : Task unit :=
  fun out =>
    match send_mail_outcome menv with
    | Some msg => (out, inl (TaskOtherException msg))
    | None => ((out ++ [m])%list, inr tt)
    end.

Definition nl : string := String "010" EmptyString.

(** [Booking.objects.get(booking_id=booking_id_str)] *)
Definition task_get_booking (rows : list BookingRow) (booking_id_str : string)
    : Task BookingRow :=
  match uuid_of (VStr booking_id_str) with
  | inl msg => task_raise (TaskOtherException msg)
  | inr id =>
      match filter (has_pk row_booking_id id) rows with
      | [] => task_raise TaskBookingDoesNotExist
      | [b] => task_ret b
      | _ => task_raise (TaskOtherException "get() returned more than one Booking")
      end
  end.

Definition booking_email (menv : MailEnv) (b : BookingRow) (recipient_email : string)
    : EmailMessage :=
  {| mail_subject :=
       "Your Booking #" ++ substring 0 8 (str_uuid (row_booking_id b))
       ++ " is Confirmed with ALX Travel.";
     mail_message :=
       "Dear " ++ first_name (row_user b) ++ "," ++ nl ++ nl
       ++ "Thank you for booking with ALX Travel!" ++ nl ++ nl
       ++ "Your booking for '" ++ name (row_property b) ++ "' "
       ++ "located in " ++ location (row_property b) ++ " "
       ++ "from " ++ isoformat menv (start_date b)
       ++ " to " ++ isoformat menv (end_date b) ++ " "
       ++ "has been successfully confirmed." ++ nl ++ nl
       ++ "Price per night: " ++ str_decimal (price_per_night (row_property b))
       ++ " USD" ++ nl
       ++ "Total price: " ++ str_decimal (row_total_price b) ++ " USD" ++ nl ++ nl
       ++ "We look forward to hosting you!" ++ nl ++ nl
       ++ "Best regards," ++ nl
       ++ "ALX Travel Team";
     mail_from := DEFAULT_FROM_EMAIL menv;
     mail_recipients := [recipient_email] |}.

Definition send_booking_confirmation_email (menv : MailEnv) (rows : list BookingRow)
    (booking_id_str recipient_email : string) : Task unit :=
  task_try
    (task_bind (task_get_booking rows booking_id_str) (fun b =>
     send_mail menv (booking_email menv b recipient_email)))
    (fun e =>
       match e with
       | TaskBookingDoesNotExist => task_ret tt
       | TaskOtherException _ => task_ret tt
       end).

Definition payment_email (menv : MailEnv) (job : PaymentConfirmed) : EmailMessage :=
  {| mail_subject :=
       "Your Payment for Booking " ++ job_booking_ref job ++ " is Confirmed!";
     mail_message :=
       "Dear customer," ++ nl ++ nl
       ++ "Your payment of " ++ str_decimal (job_amount job)
       ++ " ETB for booking " ++ job_booking_ref job ++ " "
       ++ "has been successfully processed. Payment ID: "
       ++ substring 0 8 (job_payment_id job) ++ "..." ++ nl ++ nl
       ++ "Thank you for choosing ALX Travel!" ++ nl ++ nl
       ++ "Best regards," ++ nl
       ++ "The ALX Travel Team";
     mail_from := DEFAULT_FROM_EMAIL menv;
     mail_recipients := [job_recipient_email job] |}.

(** The four arguments of the task are the fields of [job]. *)
Definition send_payment_confirmation_email (menv : MailEnv) (job : PaymentConfirmed)
    : Task unit :=
  task_try
    (send_mail menv (payment_email menv job))
    (fun _ => task_ret tt).
End Tasks.

(** ** UserManager (listings/models.py) *)

Section UserManager.
Context `{PyRuntime}.

(** The user table and the user objects are kept abstract.
    [new_user email password extra_fields] stands for
    [self.model(email=email, **extra_fields)], [set_password] and
    [save], on the normalized e-mail address. *)
Variables (Users NewUser : Type).
Variable normalize_email : string -> string.
Variable new_user :
  string -> option string -> list (string * pyval) -> Users -> Users * (exn + NewUser).

(** [create_user(email, password=None, **extra_fields)] *)
Definition create_user (email_arg : option string) (password : option string)
    (extra_fields : list (string * pyval)) (db : Users)
    : Users * (exn + NewUser) :=
  match email_arg with
  | None => (db, inl (Exn ValueError "The Email field must be set"))
  | Some e =>
      if String.eqb e EmptyString
      then (db, inl (Exn ValueError "The Email field must be set"))
      else new_user (normalize_email e) password extra_fields db
  end.

(** [dict.setdefault(k, v)] *)
Definition setdefault (k : string) (v : pyval) (d : list (string * pyval))
    : list (string * pyval) :=
  match assoc k d with
  | Some _ => d
  | None => d ++ [(k, v)]
  end.

(** [d.get(k)] *)
Definition dict_get (k : string) (d : list (string * pyval)) : pyval :=
  match assoc k d with
  | Some v => v
  | None => VNone
  end.

(** [create_superuser(email, password=None, **extra_fields)] *)
Definition create_superuser (email_arg : option string) (password : option string)
    (extra_fields : list (string * pyval)) (db : Users)
    : Users * (exn + NewUser) :=
  let extra_fields := setdefault "is_staff" (VBool true) extra_fields in
  let extra_fields := setdefault "is_superuser" (VBool true) extra_fields in
  if truthy (dict_get "is_staff" extra_fields)
  then (db, inl (Exn ValueError "Superuser must have is_staff=True."))
  else if truthy (dict_get "is_superuser" extra_fields)
  then (db, inl (Exn ValueError "Superuser must have is_superuser=True."))
  else create_user email_arg password extra_fields db.
End UserManager.

(** ** URL configuration (alx_travel_app/urls.py, listings/urls.py) *)

Section Urls.
(** What a request path is dispatched to *)
Inductive view :=
| admin_site (v : string)
| router_view (v : string)                (* a route of the DefaultRouter *)
| initiate_chapa_payment_view
| verify_chapa_payment_view (tx_ref : string)
| payment_success
| payment_fail
| payment_status
| TokenObtainPairView
| TokenRefreshView
| SpectacularAPIView
| SpectacularSwaggerView
| SpectacularRedocView
| static_serve (v : string).

(** A route of [path()]: literal text and [<str:...>] converters *)
Inductive route_part :=
| Literal (s : string)
| StrConverter.

Fixpoint strip_prefix (pre s : string) : option string :=
  match pre with
  | EmptyString => Some s
  | String c pre' =>
      match s with
      | String d s' => if Ascii.eqb c d then strip_prefix pre' s' else None
      | EmptyString => None
      end
  end.

(** The longest prefix without ["/"], and what follows it *)
Fixpoint take_segment (s : string) : string * string :=
  match s with
  | EmptyString => (EmptyString, EmptyString)
  | String c s' =>
      if Ascii.eqb c "/" then (EmptyString, s)
      else let (seg, rest) := take_segment s' in (String c seg, rest)
  end.

(** Matching a route at the start of [s]: the captured arguments and
    the rest of [s].  [<str:...>] is the pattern [[^/]+]. *)
Fixpoint match_route (route : list route_part) (s : string)
    : option (list string * string) :=
  match route with
  | [] => Some ([], s)
  | Literal l :: route' =>
      match strip_prefix l s with
      | Some rest => match_route route' rest
      | None => None
      end
  | StrConverter :: route' =>
      let (seg, rest) := take_segment s in
      match seg with
      | EmptyString => None
      | _ =>
          match match_route route' rest with
          | Some (args, rest') => Some (seg :: args, rest')
          | None => None
          end
      end
  end.

Inductive urlpattern :=
| path (route : list route_part) (callback : list string -> view)
| include (route : list route_part) (urlpatterns : list urlpattern)
| external (route : list route_part) (resolver : string -> option view).
    (* patterns made by a library: admin.site.urls, router.urls, static() *)

(** The first pattern that matches wins; [path] must match to the end,
    [include] hands the rest to its patterns and, when none of them
    matches, the search goes on. *)
Fixpoint resolve_pattern (p : urlpattern) (s : string) : option view :=
  match p with
  | path route callback =>
      match match_route route s with
      | Some (args, EmptyString) => Some (callback args)
      | _ => None
      end
  | include route urlpatterns =>
      match match_route route s with
      | Some (_, rest) =>
          (fix first_match (ps : list urlpattern) : option view :=
             match ps with
             | [] => None
             | q :: qs =>
                 match resolve_pattern q rest with
                 | Some v => Some v
                 | None => first_match qs
                 end
             end) urlpatterns
      | None => None
      end
  | external route resolver =>
      match match_route route s with
      | Some (_, rest) => resolver rest
      | None => None
      end
  end.

Fixpoint resolve_first (ps : list urlpattern) (s : string) : option view :=
  match ps with
  | [] => None
  | q :: qs =>
      match resolve_pattern q s with
      | Some v => Some v
      | None => resolve_first qs s
      end
  end.

(** The patterns that libraries generate *)
Record LibraryUrls := {
  admin_urls : string -> option string;    (* admin.site.urls *)
  router_urls : string -> option string;   (* DefaultRouter().urls *)
  static_urls : string -> option string    (* static(), when DEBUG *)
}.

Definition lift_urls (f : string -> option string) (wrap : string -> view)
    (s : string) : option view :=
  match f s with
  | Some v => Some (wrap v)
  | None => None
  end.

(** listings/urls.py *)
Definition listings_urlpatterns (lib : LibraryUrls) : list urlpattern :=
  [ external [] (lift_urls (router_urls lib) router_view);
    path [Literal "api/payments/chapa/initiate/"]
      (fun _ => initiate_chapa_payment_view);
    path [Literal "api/payments/chapa/verify/"; StrConverter; Literal "/"]
      (fun args => verify_chapa_payment_view (hd EmptyString args));
    path [Literal "payment-success/"] (fun _ => payment_success);
    path [Literal "payment-fail/"] (fun _ => payment_fail);
    path [Literal "payment-status/"] (fun _ => payment_status) ].

(** alx_travel_app/urls.py *)
Definition urlpatterns (lib : LibraryUrls) : list urlpattern :=
  [ external [Literal "admin/"] (lift_urls (admin_urls lib) admin_site);
    include [Literal "api/"] (listings_urlpatterns lib);
    path [Literal "api/token/"] (fun _ => TokenObtainPairView);
    path [Literal "api/token/refresh/"] (fun _ => TokenRefreshView);
    path [Literal "api/schema/"] (fun _ => SpectacularAPIView);
    path [Literal "api/docs/"] (fun _ => SpectacularSwaggerView);
    path [Literal "api/redoc/"] (fun _ => SpectacularRedocView);
    external [] (lift_urls (static_urls lib) static_serve) ].

(** Dispatching a request path, which starts with ["/"] *)
Definition resolve (lib : LibraryUrls) (request_path : string) : option view :=
  match strip_prefix "/" request_path with
  | Some s => resolve_first (urlpatterns lib) s
  | None => None
  end.

(** The path of a URL reference: what precedes the query string *)
Fixpoint url_path (location : string) : string :=
  match location with
  | EmptyString => EmptyString
  | String c rest =>
      if Ascii.eqb c "?" then EmptyString else String c (url_path rest)
  end.

(** One of the three landing pages of listings/urls.py *)
Definition is_landing_page (v : option view) : bool :=
  match v with
  | Some payment_success | Some payment_fail | Some payment_status => true
  | _ => false
  end.
End Urls.

(** ** Outcomes of a verification *)

Section Outcomes.
Context `{PyRuntime}.

(** The payment as a successful verification stores it *)
Definition completed (p : Payment) : Payment :=
  set_status_text (set_status p COMPLETED) (VStr "success").

(** The job a successful verification submits *)
Definition confirmation_job (p : Payment) (b : Booking) : PaymentConfirmed :=
  {| job_payment_id := str_uuid (payment_id p);
     job_recipient_email := email (booking_user b);
     job_amount := amount p;
     job_booking_ref := str_uuid (booking_id b) |}.

(** The pages a verification redirects to *)
Definition landing_pages : list string :=
  ["/payment-success/"; "/payment-fail/"; "/payment-status/"].
End Outcomes.

(** ** Data for the rest of the application *)

Section Paths.
(** No ["/"] in the text *)
Fixpoint slash_free (s : string) : bool :=
  match s with
  | EmptyString => true
  | String c rest => negb (Ascii.eqb c "/") && slash_free rest
  end.
End Paths.

Module Office.
Import Sample.

Fixpoint undashed (s : string) : string :=
  match s with
  | EmptyString => EmptyString
  | String c rest =>
      if Ascii.eqb c "-" then undashed rest else String c (undashed rest)
  end.

(** [UUID(s)] accepts the dashed form that [str(uuid)] produces. *)
Definition dashed_uuid (v : pyval) : string + string :=
  match v with
  | VStr s =>
      if Nat.eqb (String.length (undashed s)) 32 then inr (undashed s)
      else inl "is not a valid UUID."
  | _ => inl "is not a valid UUID."
  end.

Definition worker_builtins : PyBuiltins := {|
  float := sample_float;
  float_of_decimal := fun c => c;
  str := sample_str;
  str_decimal := show_hundredths;
  uuid_of := dashed_uuid;
  decimal_of := sample_decimal
|}.

Definition owner : User :=
  {| user_id := "0f1e2d3c4b5a69788796a5b4c3d2e1f0";
     email := "host@example.com";
     first_name := "Amina";
     last_name := "Njeri" |}.

(** A property at 120.00 a night *)
Definition cottage : Property :=
  {| property_id := "11112222333344445555666677778888";
     host := owner;
     name := "Lake Cottage";
     description := "Two rooms by the lake";
     location := "Naivasha";
     price_per_night := 12000 |}.

(** Three nights *)
Definition stay : ValidatedBooking :=
  {| vd_property := cottage; vd_start_date := 739193; vd_end_date := 739196 |}.

(** The same dates the other way round *)
Definition stay_backwards : ValidatedBooking :=
  {| vd_property := cottage; vd_start_date := 739196; vd_end_date := 739193 |}.

Definition nothing_booked : Reservations :=
  {| booking_rows := []; booking_jobs := [] |}.

Definition desk (broker : option string) : CreateEnv :=
  {| uuid4_booking_id := "a1b2c3d4e5f678901234567890abcdef";
     booking_delay_outcome := broker |}.

Definition mailer (outcome : option string) : MailEnv :=
  {| DEFAULT_FROM_EMAIL := "noreply@alxtravel.example";
     send_mail_outcome := outcome;
     isoformat := fun day =>
       if day =? 739193 then "2024-11-03"
       else if day =? 739196 then "2024-11-06"
       else sample_str (VInt day) |}.

(** A user table that stores the address and the flags *)
Definition accounts : Type := list (string * list (string * pyval)).

Definition add_account (address : string) (password : option string)
    (extra_fields : list (string * pyval)) (db : accounts)
    : accounts * (exn + string) :=
  ((db ++ [(address, extra_fields)])%list, inr address).

(** Routes of the libraries: the list routes of the router, the admin
    index and files under [static/] *)
Definition routes : LibraryUrls :=
  {| admin_urls := fun s => if String.eqb s EmptyString then Some "index" else None;
     router_urls := fun s =>
       if String.eqb s EmptyString then Some "api-root"
       else if String.eqb s "bookings/" then Some "bookings-list"
       else if String.eqb s "payments/" then Some "payments-list"
       else None;
     static_urls := strip_prefix "static/" |}.
End Office.

(** * Properties of the payment flow *)

Section Properties.
Context `{PyRuntime} `{!PyBuiltins}.

(** ** Running a view on symbolic data *)

Ltac view_unfold :=
  unfold verify_chapa_payment, initiate_chapa_payment, run_view, try_except,
    verify_try, verify_except, initiate_try, initiate_except, check_booking,
    get_object_or_404, try_except, Payment_objects_get, Booking_objects_get,
    Payment_objects_create, requests_get, requests_post, http_result, delay,
    json_loads, py_float, payment_booking, payment_save, booking_save,
    payment_obj, payment_setattr, assign_payment, fail_if_pending, log,
    lift, lift_as, bind, ret, raise.

Ltac view_cbn :=
  cbn -[filter find existsb already_processed lower append save_payment_row
        save_booking_row assoc py_eq_str truthy String.eqb].

(** ** Tables keyed by a UUID *)

Lemma UUID_eqb_refl (a : UUID) : UUID_eqb a a = true.
Proof. now apply UUID_eqb_eq. Qed.

Lemma UUID_eqb_neq (a b : UUID) : UUID_eqb a b = false <-> a <> b.
Proof.
  split.
  - intros E ->. rewrite UUID_eqb_refl in E. discriminate.
  - intros N. destruct (UUID_eqb a b) eqn:E; [|reflexivity].
    apply UUID_eqb_eq in E. contradiction.
Qed.

Section Tables.
Context {A : Type} (key : A -> UUID).

Lemma has_pk_true id row : has_pk key id row = true <-> key row = id.
Proof. apply UUID_eqb_eq. Qed.

Lemma has_pk_false id row : has_pk key id row = false <-> key row <> id.
Proof. apply UUID_eqb_neq. Qed.

Lemma has_pk_self row : has_pk key (key row) row = true.
Proof. apply UUID_eqb_refl. Qed.

(** After [save], the row read back under the key is the saved one. *)
Lemma find_save_row id row rows :
  has_pk key id row = true ->
  find (has_pk key id) (save_row key row rows) = Some row.
Proof.
  intros Hid. apply has_pk_true in Hid. subst id. unfold save_row.
  destruct (existsb (has_pk key (key row)) rows) eqn:E.
  - induction rows as [|old rows IH]; simpl in *; [discriminate|].
    destruct (has_pk key (key row) old) eqn:Eold; simpl.
    + now rewrite has_pk_self.
    + rewrite Eold. auto.
  - induction rows as [|old rows IH]; simpl in *.
    + now rewrite has_pk_self.
    + apply orb_false_iff in E as [-> E]. auto.
Qed.

(** [save] leaves the rows under every other key as they are. *)
Lemma filter_save_row_other id row rows :
  has_pk key id row = false ->
  filter (has_pk key id) (save_row key row rows) = filter (has_pk key id) rows.
Proof.
  intros Hid. unfold save_row.
  destruct (existsb (has_pk key (key row)) rows).
  - induction rows as [|old rows IH]; simpl; [reflexivity|].
    destruct (has_pk key (key row) old) eqn:Eold.
    + apply has_pk_true in Eold.
      assert (has_pk key id old = false) as ->.
      { apply has_pk_false. apply has_pk_false in Hid. congruence. }
      simpl. now rewrite Hid.
    + simpl. destruct (has_pk key id old); simpl; now rewrite IH.
  - rewrite filter_app. simpl. rewrite Hid. apply app_nil_r.
Qed.

Lemma filter_has_pk_In id row rows :
  In row (filter (has_pk key id) rows) -> In row rows /\ key row = id.
Proof. intros Hin. apply filter_In in Hin as [? ?%has_pk_true]. auto. Qed.
End Tables.

Lemma delayed_jobs_app t1 t2 :
  delayed_jobs (t1 ++ t2) = (delayed_jobs t1 ++ delayed_jobs t2)%list.
Proof.
  induction t1 as [|[] t1 IH]; simpl; rewrite ?IH; reflexivity.
Qed.

Lemma gateway_verifications_app t1 t2 :
  gateway_verifications (t1 ++ t2)
  = (gateway_verifications t1 ++ gateway_verifications t2)%list.
Proof.
  induction t1 as [|[] t1 IH]; simpl; rewrite ?IH; reflexivity.
Qed.

Lemma booking_status_eqb_eq a b : booking_status_eqb a b = true <-> a = b.
Proof. destruct a, b; simpl; split; congruence. Qed.

Lemma py_eq_str_true v s : py_eq_str v s = true -> v = VStr s.
Proof.
  destruct v; simpl; try discriminate. intros E.
  apply String.eqb_eq in E. congruence.
Qed.

Lemma payment_status_eqb_eq a b : payment_status_eqb a b = true <-> a = b.
Proof. destruct a, b; simpl; split; congruence. Qed.

Lemma already_processed_iff p :
  already_processed p = true <-> status p = COMPLETED \/ status p = FAILED.
Proof.
  unfold already_processed; simpl. destruct (status p); simpl;
    split; intros; try tauto; try congruence;
    destruct H1; congruence.
Qed.

Lemma not_processed_pending p : status p = PENDING -> already_processed p = false.
Proof. unfold already_processed; intros ->; reflexivity. Qed.

(** A verification of an already processed payment reads the row and
    does nothing else. *)
Lemma verify_processed env tx_ref w p :
  filter (has_tx_ref tx_ref) (payments w) = [p] ->
  already_processed p = true ->
  verify_chapa_payment env tx_ref w =
    (w, HttpResponseRedirect
          ("/payment-status/?tx_ref=" ++ tx_ref ++ "&status="
           ++ lower (status_value (status p)))).
Proof.
  intros Hf Hp. view_unfold. view_cbn. rewrite Hf. view_cbn. rewrite Hp.
  reflexivity.
Qed.

(** No row carries the reference: [get_object_or_404] raises [Http404],
    which only the last [except] clause matches. *)
Lemma verify_unknown env tx_ref w :
  filter (has_tx_ref tx_ref) (payments w) = [] ->
  verify_chapa_payment env tx_ref w =
    (w, HttpResponseRedirect
          ("/payment-fail/?tx_ref=" ++ tx_ref ++ "&error=internal_error")).
Proof.
  intros Hf. view_unfold. view_cbn. rewrite Hf. reflexivity.
Qed.

Lemma verify_ambiguous env tx_ref w p q rest :
  filter (has_tx_ref tx_ref) (payments w) = p :: q :: rest ->
  verify_chapa_payment env tx_ref w =
    (w, HttpResponseRedirect
          ("/payment-fail/?tx_ref=" ++ tx_ref ++ "&error=internal_error")).
Proof.
  intros Hf. view_unfold. view_cbn. rewrite Hf. reflexivity.
Qed.

(** The gateway confirms the payment. *)
Lemma verify_confirmed env tx_ref w p response_data top nested b :
  filter (has_tx_ref tx_ref) (payments w) = [p] ->
  already_processed p = false ->
  get_outcome env = HttpJson response_data ->
  verification_payload response_data top nested ->
  reports_success top nested = true ->
  find (has_booking_id (booking p)) (bookings w) = Some b ->
  let p' := set_status_text (set_status p COMPLETED) (VStr "success") in
  let b' := set_booking_status b CONFIRMED in
  let job := {| job_payment_id := str_uuid (payment_id p);
                job_recipient_email := email (booking_user b);
                job_amount := amount p;
                job_booking_ref := str_uuid (booking_id b) |} in
  let confirm := if booking_status_eqb (booking_status b) CONFIRMED
                 then [] else [DbUpdateBooking b'] in
  verify_chapa_payment env tx_ref w =
    ({| payments := save_payment_row p' (payments w);
        bookings := if booking_status_eqb (booking_status b) CONFIRMED
                    then bookings w else save_booking_row b' (bookings w);
        trace := trace w ++ [HttpGet (CHAPA_VERIFY_URL ++ tx_ref);
                             DbUpdatePayment p'] ++ confirm ++ [CeleryDelay job] |},
     match delay_outcome env with
     | None => HttpResponseRedirect "/payment-success/"
     | Some _ => HttpResponseRedirect
                   ("/payment-fail/?tx_ref=" ++ tx_ref ++ "&error=internal_error")
     end).
Proof.
  intros Hf Hp Hget [-> Hdata] Hok Hb.
  unfold reports_success in Hok. apply andb_true_iff in Hok as [Ho Hi].
  destruct (assoc "status" top) as [o|] eqn:Eo; [|discriminate].
  destruct (assoc "status" nested) as [i|] eqn:Ei; [|discriminate].
  view_unfold. view_cbn. rewrite Hf. view_cbn. rewrite Hp. view_cbn.
  rewrite Hget. view_cbn. rewrite Eo, Ho. view_cbn. rewrite Hdata. view_cbn.
  rewrite Ei, Hi. view_cbn. rewrite Hb.
  apply py_eq_str_true in Hi as ->.
  destruct (booking_status_eqb (booking_status b) CONFIRMED);
    destruct (delay_outcome env); view_cbn;
    rewrite <- ?app_assoc; reflexivity.
Qed.

(** The gateway answers in the documented structure, without success
    at both levels. *)
Lemma verify_rejected env tx_ref w p response_data top nested :
  filter (has_tx_ref tx_ref) (payments w) = [p] ->
  already_processed p = false ->
  get_outcome env = HttpJson response_data ->
  verification_payload response_data top nested ->
  reports_success top nested = false ->
  let p' := set_status_text (set_status p FAILED) (diagnostic_text top nested) in
  verify_chapa_payment env tx_ref w =
    ({| payments := save_payment_row p' (payments w);
        bookings := bookings w;
        trace := trace w ++ [HttpGet (CHAPA_VERIFY_URL ++ tx_ref);
                             DbUpdatePayment p'] |},
     HttpResponseRedirect
       ("/payment-fail/?tx_ref=" ++ tx_ref ++ "&status="
        ++ str (diagnostic_text top nested))).
Proof.
  intros Hf Hp Hget [-> Hdata] Hok.
  unfold reports_success in Hok.
  view_unfold. view_cbn. rewrite Hf. view_cbn. rewrite Hp. view_cbn.
  rewrite Hget. view_cbn. unfold diagnostic_text.
  destruct (assoc "status" top) as [o|];
    [destruct (py_eq_str o "success")|cbn [py_eq_str]];
    view_cbn; rewrite ?Hdata; view_cbn.
  - destruct (assoc "status" nested) as [i|]; simpl in Hok;
      [rewrite Hok|cbn [py_eq_str]]; view_cbn; rewrite ?Hdata; view_cbn;
      destruct (assoc "message" nested), (assoc "message" top);
      rewrite <- app_assoc; reflexivity.
  - destruct (assoc "message" nested), (assoc "message" top);
      rewrite <- app_assoc; reflexivity.
  - destruct (assoc "message" nested), (assoc "message" top);
      rewrite <- app_assoc; reflexivity.
Qed.

(** The gateway cannot be reached, or answers with an HTTP error. *)
Lemma verify_transport_failure env tx_ref w p msg :
  filter (has_tx_ref tx_ref) (payments w) = [p] ->
  already_processed p = false ->
  get_outcome env = HttpRaises msg ->
  let p' := set_status_text (set_status p FAILED)
              (VStr ("API Verification Error: " ++ msg)) in
  verify_chapa_payment env tx_ref w =
    ({| payments := if payment_status_eqb (status p) PENDING
                    then save_payment_row p' (payments w) else payments w;
        bookings := bookings w;
        trace := trace w ++ HttpGet (CHAPA_VERIFY_URL ++ tx_ref)
                 :: (if payment_status_eqb (status p) PENDING
                     then [DbUpdatePayment p'] else []) |},
     HttpResponseRedirect
       ("/payment-fail/?tx_ref=" ++ tx_ref ++ "&error=api_error")).
Proof.
  intros Hf Hp Hget.
  view_unfold. view_cbn. rewrite Hf. view_cbn. rewrite Hp. view_cbn.
  rewrite Hget. view_cbn.
  destruct (payment_status_eqb (status p) PENDING); view_cbn;
    rewrite <- ?app_assoc; reflexivity.
Qed.

(** ** Initiation, once the request has passed the checks *)

Lemma save_fresh_payment p p' rows :
  payment_id p' = payment_id p ->
  existsb (has_payment_id (payment_id p)) rows = false ->
  save_payment_row p' (rows ++ [p]) = (rows ++ [p'])%list.
Proof.
  intros Hid Hfresh. unfold save_payment_row, save_row. rewrite Hid.
  rewrite existsb_app. simpl. unfold has_payment_id in *.
  rewrite has_pk_self, orb_true_r, map_app. simpl. rewrite has_pk_self.
  f_equal. induction rows as [|old rows IH]; simpl in *; [reflexivity|].
  apply orb_false_iff in Hfresh as [-> Hfresh]. now rewrite IH.
Qed.

Ltac initiate_prefix H :=
  let Hm := fresh "Hm" in let Hu := fresh "Hu" in
  let Hgiven := fresh "Hgiven" in let items := fresh "items" in
  let bid := fresh "bid" in let id := fresh "id" in
  let Hbody := fresh "Hbody" in let Hbid := fresh "Hbid" in
  let Ham := fresh "Ham" in let Htb := fresh "Htb" in
  let Hid := fresh "Hid" in let Hb := fresh "Hb" in
  let requested := fresh "requested" in let Hfl := fresh "Hfl" in
  let Heq := fresh "Heq" in let Hdec := fresh "Hdec" in
  let Href := fresh "Href" in let Hfid := fresh "Hfid" in
  let Hfref := fresh "Hfref" in
  destruct H as [Hm Hu Hgiven
                   (items & bid & id & Hbody & Hbid & Ham & Htb & Hid & Hb)
                   (requested & Hfl & Heq) Hdec Href Hfid Hfref];
  unfold initiate_chapa_payment; rewrite Hm, Hu; cbn [String.eqb Ascii.eqb Bool.eqb];
  view_unfold; view_cbn; rewrite Hbody; view_cbn; rewrite Hbid, Ham; view_cbn;
  rewrite Htb, Hgiven; view_cbn; rewrite Hid; view_cbn; rewrite Hb; view_cbn;
  rewrite Hfl; view_cbn; rewrite Heq; view_cbn; rewrite Hdec; view_cbn;
  rewrite <- Href, Hfid, Hfref; view_cbn.

(** The gateway cannot be reached, or answers with an HTTP error. *)
Lemma initiate_transport_failure env request w u b amount_arg c tx_ref msg :
  passes_checks env request w u b amount_arg c tx_ref ->
  post_outcome env = HttpRaises msg ->
  let p0 := pending_payment env b c tx_ref in
  let p1 := set_status_text (set_status p0 FAILED)
              (VStr ("API Request Error: " ++ msg)) in
  initiate_chapa_payment env request w =
    ({| payments := payments w ++ [p1]; bookings := bookings w;
        trace := trace w
                 ++ [DbInsertPayment p0;
                     HttpPost CHAPA_INITIATE_URL
                       (gateway_payload request b amount_arg tx_ref);
                     DbUpdatePayment p1] |},
     JsonResponse
       [("status", VStr "error");
        ("message", VStr "Could not connect to payment gateway or API error.")]
       500).
Proof.
  intros Hpc Hpost. initiate_prefix Hpc. rewrite Hpost. view_cbn.
  erewrite save_fresh_payment by (reflexivity || exact Hfid).
  rewrite <- !app_assoc. reflexivity.
Qed.

(** The gateway answers, but not with ["success"]. *)
Lemma initiate_rejected env request w u b amount_arg c tx_ref top :
  passes_checks env request w u b amount_arg c tx_ref ->
  post_outcome env = HttpJson (VDict top) ->
  match assoc "status" top with
  | Some st => py_eq_str st "success" | None => false
  end = false ->
  let text := match assoc "message" top with
              | Some m => m
              | None => VStr "Failed to initiate payment with Chapa."
              end in
  let p0 := pending_payment env b c tx_ref in
  let p1 := set_status_text (set_status p0 FAILED) text in
  initiate_chapa_payment env request w =
    ({| payments := payments w ++ [p1]; bookings := bookings w;
        trace := trace w
                 ++ [DbInsertPayment p0;
                     HttpPost CHAPA_INITIATE_URL
                       (gateway_payload request b amount_arg tx_ref);
                     DbUpdatePayment p1] |},
     JsonResponse [("status", VStr "error"); ("message", text)] 400).
Proof.
  intros Hpc Hpost Hst. initiate_prefix Hpc. rewrite Hpost. view_cbn.
  assert (py_eq_str match assoc "status" top with
                    | Some x => x | None => VNone end "success" = false) as ->.
  { destruct (assoc "status" top); [exact Hst|reflexivity]. }
  view_cbn.
  erewrite save_fresh_payment by (reflexivity || exact Hfid).
  rewrite <- !app_assoc. reflexivity.
Qed.

(** The gateway hands out a checkout link. *)
Lemma initiate_hosted env request w u b amount_arg c tx_ref top st d checkout_url :
  passes_checks env request w u b amount_arg c tx_ref ->
  post_outcome env = HttpJson (VDict top) ->
  assoc "status" top = Some st ->
  py_eq_str st "success" = true ->
  assoc "data" top = Some d ->
  py_getitem d "checkout_url" = inr checkout_url ->
  let text := match assoc "message" top with
              | Some m => m
              | None => VStr "Payment initiation successful, awaiting completion."
              end in
  let p0 := pending_payment env b c tx_ref in
  let p1 := set_status_text p0 text in
  initiate_chapa_payment env request w =
    ({| payments := payments w ++ [p1]; bookings := bookings w;
        trace := trace w
                 ++ [DbInsertPayment p0;
                     HttpPost CHAPA_INITIATE_URL
                       (gateway_payload request b amount_arg tx_ref);
                     DbUpdatePayment p1] |},
     JsonResponse [("status", VStr "success");
                   ("checkout_url", checkout_url);
                   ("tx_ref", VStr tx_ref)] 200).
Proof.
  intros Hpc Hpost Hst Hok Hd Hurl. initiate_prefix Hpc. rewrite Hpost. view_cbn.
  rewrite Hst, Hok. view_cbn. rewrite Hd. view_cbn. rewrite Hurl. view_cbn.
  erewrite save_fresh_payment by (reflexivity || exact Hfid).
  rewrite <- !app_assoc. reflexivity.
Qed.

Ltac case_step :=
  view_cbn;
  match goal with
  | |- _ = 200 -> _ =>
      let Hbad := fresh in intros Hbad; discriminate Hbad
  | |- context [match ?x with _ => _ end] =>
      lazymatch x with
      | context [match _ with _ => _ end] => fail
      | _ => first [is_var x; destruct x | destruct x eqn:?]
      end
  end.

(** A 200 answer of [initiate_chapa_payment] is only produced at the end
    of the path on which every check passed and the gateway handed out
    a checkout link. *)
Lemma initiate_success_inv env request w :
  response_status (snd (initiate_chapa_payment env request w)) = 200 ->
  exists u b amount_arg c tx_ref top st d checkout_url,
    passes_checks env request w u b amount_arg c tx_ref
    /\ post_outcome env = HttpJson (VDict top)
    /\ assoc "status" top = Some st
    /\ py_eq_str st "success" = true
    /\ assoc "data" top = Some d
    /\ py_getitem d "checkout_url" = inr checkout_url.
Proof.
  unfold initiate_chapa_payment.
  destruct (String.eqb (method request) "POST") eqn:Hm; [|discriminate].
  destruct (user request) as [u|] eqn:Hu; [|discriminate].
  view_unfold. unfold py_get, py_getitem.
  repeat case_step.
  all: intros _.
  all: try (exfalso;
            match goal with
            | Hor : (_ || _)%bool = false |- _ =>
                simpl in Hor; rewrite ?orb_true_r in Hor; discriminate Hor
            end).
  all: match goal with
       | Hu' : user _ = Some ?u,
         Hb : filter _ (bookings _) = [?b],
         Ha : assoc "amount" _ = Some ?a,
         Hd : decimal_of ?a = inr ?c,
         Hp : post_outcome ?env = HttpJson (VDict ?top),
         Hs : assoc "status" ?top = Some ?st,
         Hdata : assoc "data" ?top = Some ?d,
         Hurl : assoc "checkout_url" _ = Some ?url |- _ =>
           exists u, b, a, c, (hex (booking_id b) ++ "-" ++ hex (uuid4_tx_ref env)),
             top, st, d, url
       end.
  all: repeat match goal with
         | Hor : (_ || _)%bool = false |- _ => apply orb_false_iff in Hor as [? ?]
         | Hn : negb _ = false |- _ => apply negb_false_iff in Hn
         end.
  all: apply String.eqb_eq in Hm.
  all: split; [constructor; eauto 12 | repeat split; auto].
  all: unfold py_getitem; match goal with Hurl : assoc "checkout_url" _ = _ |- _ =>
                                    now rewrite Hurl end.
Qed.

Lemma existsb_false_filter {A} (f : A -> bool) l :
  existsb f l = false -> filter f l = [].
Proof.
  induction l as [|x l IH]; simpl; [reflexivity|].
  intros [-> E]%orb_false_iff. auto.
Qed.

Lemma has_tx_ref_true tx_ref p :
  has_tx_ref tx_ref p = true <-> chapa_transaction_id p = Some tx_ref.
Proof.
  unfold has_tx_ref. destruct (chapa_transaction_id p) as [t|].
  - rewrite String.eqb_eq. split; congruence.
  - split; discriminate.
Qed.

(** C5.  A successful initiation (HTTP 200) returns the reference
    [hex(booking id) + "-" + hex(uuid4())]; no payment stored before the
    call carries that reference; the payment row carrying it is inserted
    in state PENDING before the gateway is called, is still PENDING
    when the view returns, and is the only row with that reference; and
    a later successful initiation never returns the same reference. *)
Theorem successful_initiation_reference env request w :
  response_status (snd (initiate_chapa_payment env request w)) = 200 ->
  let w' := fst (initiate_chapa_payment env request w) in
  exists b tx_ref p0 payload p1,
    In b (bookings w)
    /\ tx_ref = hex (booking_id b) ++ "-" ++ hex (uuid4_tx_ref env)
    /\ returned_tx_ref (snd (initiate_chapa_payment env request w)) = Some tx_ref
    /\ (forall q, In q (payments w) -> chapa_transaction_id q <> Some tx_ref)
    /\ trace w' = (trace w ++ [DbInsertPayment p0;
                               HttpPost CHAPA_INITIATE_URL payload;
                               DbUpdatePayment p1])%list
    /\ (chapa_transaction_id p0 = Some tx_ref /\ status p0 = PENDING
        /\ pl_tx_ref payload = tx_ref)
    /\ (status p1 = PENDING /\ filter (has_tx_ref tx_ref) (payments w') = [p1])
    /\ (forall env2 request2,
          response_status (snd (initiate_chapa_payment env2 request2 w')) = 200 ->
          returned_tx_ref (snd (initiate_chapa_payment env2 request2 w'))
          <> Some tx_ref).
Proof.
  intros Hok w'.
  assert (Hfresh : forall env0 request0 w0,
             response_status (snd (initiate_chapa_payment env0 request0 w0)) = 200 ->
             exists tx_ref,
               returned_tx_ref (snd (initiate_chapa_payment env0 request0 w0))
               = Some tx_ref
               /\ existsb (has_tx_ref tx_ref) (payments w0) = false).
  { intros env0 request0 w0 H200.
    destruct (initiate_success_inv _ _ _ H200)
      as (u & b & a & c & tx & top & st & d & url & Hpc & Hpost & Hst & Hs & Hd & Hurl).
    exists tx.
    rewrite (initiate_hosted _ _ _ _ _ _ _ _ _ _ _ _ Hpc Hpost Hst Hs Hd Hurl).
    split; [reflexivity|]. apply Hpc. }
  destruct (initiate_success_inv _ _ _ Hok)
    as (u & b & a & c & tx & top & st & d & url & Hpc & Hpost & Hst & Hs & Hd & Hurl).
  subst w'.
  rewrite (initiate_hosted _ _ _ _ _ _ _ _ _ _ _ _ Hpc Hpost Hst Hs Hd Hurl).
  cbn [fst snd payments trace].
  set (text := match assoc "message" top with
               | Some m => m
               | None => VStr "Payment initiation successful, awaiting completion."
               end).
  exists b, tx, (pending_payment env b c tx),
    (gateway_payload request b a tx),
    (set_status_text (pending_payment env b c tx) text).
  pose proof (pc_fresh_ref _ _ _ _ _ _ _ _ Hpc) as Hnone.
  assert (Hp1 : filter (has_tx_ref tx)
                  (payments w ++ [set_status_text (pending_payment env b c tx) text])
                = [set_status_text (pending_payment env b c tx) text]).
  { rewrite filter_app, (existsb_false_filter _ _ Hnone). simpl.
    unfold has_tx_ref. simpl. now rewrite String.eqb_refl. }
  split; [|split; [|split; [|split; [|split; [|split; [|split]]]]]].
  - destruct (pc_body _ _ _ _ _ _ _ _ Hpc) as (? & ? & ? & _ & _ & _ & _ & _ & Hb).
    assert (Hin : In b [b]) by now left. rewrite <- Hb in Hin.
    now apply filter_In in Hin.
  - apply Hpc.
  - reflexivity.
  - intros q Hq Href. apply has_tx_ref_true in Href.
    assert (existsb (has_tx_ref tx) (payments w) = true) as E
      by (apply existsb_exists; eauto).
    congruence.
  - reflexivity.
  - repeat split.
  - split; [reflexivity|exact Hp1].
  - intros env2 request2 H200 Hsame.
    destruct (Hfresh _ _ _ H200) as (tx2 & Hret & Hnot).
    rewrite Hret in Hsame. injection Hsame as ->.
    cbn [payments] in Hnot.
    rewrite (existsb_false_filter _ _ Hnot) in Hp1. discriminate.
Qed.

(** ** Invariants of a running view *)

(** [I] holds of the frame whenever [c] returns or raises, and the
    value returned satisfies [Q]. *)
Definition maintains {A} (I : Frame -> Prop) (c : View A) (Q : A -> Prop) : Prop :=
  forall fr, I fr ->
    match c fr with
    | (fr', inr a) => I fr' /\ Q a
    | (fr', inl _) => I fr'
    end.

Section Maintains.
Variable I : Frame -> Prop.

Lemma maintains_ret {A} (a : A) (Q : A -> Prop) : Q a -> maintains I (ret a) Q.
Proof. intros Ha fr Hfr. simpl. auto. Qed.

Lemma maintains_raise {A} e (Q : A -> Prop) : maintains I (raise e) Q.
Proof. intros fr Hfr. exact Hfr. Qed.

Lemma maintains_bind {A B} (c : View A) (k : A -> View B) Q R :
  maintains I c Q -> (forall a, Q a -> maintains I (k a) R) ->
  maintains I (bind c k) R.
Proof.
  intros Hc Hk fr Hfr. unfold bind. specialize (Hc fr Hfr).
  destruct (c fr) as [fr' [e|a]]; [exact Hc|].
  destruct Hc as [Hfr' Ha]. exact (Hk a Ha fr' Hfr').
Qed.

Lemma maintains_try_except {A} (body : View A) handlers Q :
  maintains I body Q -> (forall e, maintains I (handlers e) Q) ->
  maintains I (try_except body handlers) Q.
Proof.
  intros Hb Hh fr Hfr. unfold try_except. specialize (Hb fr Hfr).
  destruct (body fr) as [fr' [e|a]]; [exact (Hh e fr' Hb)|exact Hb].
Qed.

(** A computation that only reads *)
Lemma maintains_reads {A} (c : View A) :
  (forall fr, fst (c fr) = fr) -> maintains I c (fun _ => True).
Proof.
  intros Hc fr Hfr. specialize (Hc fr).
  destruct (c fr) as [fr' [e|a]]; simpl in Hc; subst; auto.
Qed.

Lemma maintains_lift {A} (r : exn + A) : maintains I (lift r) (fun _ => True).
Proof. apply maintains_reads. now destruct r. Qed.

Lemma maintains_lift_as {A} cls (r : string + A) :
  maintains I (lift_as cls r) (fun _ => True).
Proof. apply maintains_reads. now destruct r. Qed.

Lemma maintains_json_loads b : maintains I (json_loads b) (fun _ => True).
Proof. apply maintains_reads. now destruct b. Qed.

Lemma maintains_py_float v : maintains I (py_float v) (fun _ => True).
Proof. apply maintains_lift_as. Qed.

Lemma maintains_Booking_objects_get v u :
  maintains I (Booking_objects_get v u) (fun _ => True).
Proof.
  apply maintains_reads. intros fr. unfold Booking_objects_get, bind, lift_as.
  destruct (uuid_of v); simpl; [reflexivity|].
  destruct (filter _ _) as [|? [|? ?]]; reflexivity.
Qed.

Lemma maintains_http_result o : maintains I (http_result o) (fun _ => True).
Proof. apply maintains_reads. now destruct o. Qed.
End Maintains.

(** The rows stored under the primary key [id] are [rows], and the
    view's variable [payment] is not bound to a row with that key. *)
Definition spares (id : UUID) (rows : list Payment) (fr : Frame) : Prop :=
  filter (has_payment_id id) (payments (world fr)) = rows
  /\ match payment_var fr with
     | Some q => has_payment_id id q = false
     | None => True
     end.

Section Spares.
Variables (id : UUID) (rows : list Payment).

Lemma spares_log ev : maintains (spares id rows) (log ev) (fun _ => True).
Proof. intros fr [Hr Hv]. simpl. repeat split; assumption. Qed.

Lemma spares_assign q :
  has_payment_id id q = false ->
  maintains (spares id rows) (assign_payment q) (fun _ => True).
Proof. intros Hq fr [Hr Hv]. simpl. repeat split; assumption. Qed.

Lemma spares_setattr f :
  (forall q, payment_id (f q) = payment_id q) ->
  maintains (spares id rows) (payment_setattr f) (fun _ => True).
Proof.
  intros Hf fr [Hr Hv]. unfold payment_setattr.
  destruct (payment_var fr) as [q|] eqn:E; simpl.
  - repeat split; [assumption|]. cbn [payment_var].
    unfold has_payment_id, has_pk in *. now rewrite Hf.
  - split; [assumption|]. now rewrite E.
Qed.

Lemma spares_save : maintains (spares id rows) payment_save (fun _ => True).
Proof.
  intros fr [Hr Hv]. unfold payment_save, bind, payment_obj.
  destruct (payment_var fr) as [q|] eqn:E; simpl.
  - rewrite E. split; [split|exact Logic.I]; cbn [world payments payment_var].
    + unfold save_payment_row, has_payment_id in *.
      rewrite (filter_save_row_other payment_id); assumption.
    + assumption.
  - split; [assumption|]. now rewrite E.
Qed.

Lemma spares_fail_if_pending text :
  maintains (spares id rows) (fail_if_pending text) (fun _ => True).
Proof.
  intros fr Hfr. unfold fail_if_pending.
  destruct (payment_var fr) as [q|]; [|simpl; auto].
  destruct (payment_status_eqb (status q) PENDING); [|simpl; auto].
  revert fr Hfr.
  change (maintains (spares id rows)
            (bind (payment_setattr (fun p => set_status p FAILED)) (fun _ =>
             bind (payment_setattr (fun p => set_status_text p (VStr text)))
               (fun _ => payment_save)))
            (fun _ => True)).
  eapply maintains_bind; [apply spares_setattr; reflexivity|intros _ _].
  eapply maintains_bind; [apply spares_setattr; reflexivity|intros _ _].
  apply spares_save.
Qed.

(** The primary key drawn for a new row is not one that is in use. *)
Lemma spares_create env b amount_arg m tx_ref s text :
  rows <> [] ->
  maintains (spares id rows)
    (Payment_objects_create env b amount_arg m tx_ref s text)
    (fun p => has_payment_id id p = false).
Proof.
  intros Hrows fr [Hr Hv]. unfold Payment_objects_create, bind, lift_as.
  destruct (decimal_of amount_arg) as [msg|a]; simpl; [split; assumption|].
  destruct (existsb _ (payments (world fr)) || existsb _ _)%bool eqn:E;
    simpl; [split; assumption|].
  apply orb_false_iff in E as [Efresh _].
  assert (Hnew : has_payment_id id
                   {| payment_id := uuid4_payment_id env; booking := booking_id b;
                      amount := a; chapa_transaction_id := Some tx_ref;
                      status := s; chapa_status_text := text;
                      payment_method := m |} = false).
  { destruct rows as [|old rest]; [congruence|].
    assert (Hold : In old (filter (has_payment_id id) (payments (world fr))))
      by (rewrite Hr; now left).
    apply (filter_has_pk_In payment_id) in Hold as [Hin Hkey].
    apply (has_pk_false payment_id). simpl. intros Heq.
    rewrite <- Heq in Hkey.
    assert (existsb (has_payment_id (uuid4_payment_id env)) (payments (world fr))
            = true) as E'.
    { apply existsb_exists. exists old. split; [assumption|].
      now apply (has_pk_true payment_id). }
    congruence. }
  split; [split|exact Hnew]; cbn [world payments payment_var];
    [|assumption].
  rewrite filter_app. simpl. rewrite Hnew, app_nil_r. assumption.
Qed.
End Spares.

Ltac maintain_step :=
  first
    [ apply maintains_ret; exact Logic.I
    | apply maintains_raise
    | apply maintains_lift
    | apply maintains_lift_as
    | apply maintains_json_loads
    | apply maintains_py_float
    | apply maintains_Booking_objects_get
    | apply maintains_http_result
    | apply spares_log
    | apply spares_assign; assumption
    | apply spares_setattr; reflexivity
    | apply spares_save
    | apply spares_fail_if_pending
    | apply spares_create; assumption ].

Ltac maintain :=
  repeat first
    [ maintain_step
    | eapply maintains_bind; [maintain_step|intros ? ?]
    | eapply maintains_bind with (Q := fun _ => True); [|intros ? ?]
    | apply maintains_try_except; [|intros ?]
    | match goal with
      | |- maintains _ (if ?c then _ else _) _ => destruct c
      | |- maintains _ (match ?x with _ => _ end) _ => destruct x
      end ].

(** An initiation leaves the rows of every payment that exists before
    the call as they are. *)
Lemma initiate_spares env request w id rows :
  rows <> [] ->
  filter (has_payment_id id) (payments w) = rows ->
  filter (has_payment_id id) (payments (fst (initiate_chapa_payment env request w)))
  = rows.
Proof.
  intros Hrows Hw. unfold initiate_chapa_payment.
  destruct (String.eqb (method request) "POST"); [|exact Hw].
  destruct (user request) as [u|]; [|exact Hw].
  assert (Hrun : maintains (spares id rows)
                   (try_except (initiate_try env request u) initiate_except)
                   (fun _ => True)).
  { apply maintains_try_except.
    - unfold initiate_try, check_booking, requests_post. maintain.
    - intros e. unfold initiate_except. maintain. }
  unfold run_view.
  specialize (Hrun {| world := w; payment_var := None |} (conj Hw Logic.I)).
  destruct (try_except _ _ _) as [fr [e|r]]; simpl; apply Hrun.
Qed.

(** A verification of a payment that is COMPLETED or FAILED changes
    nothing at all. *)
Lemma verify_processed_noop env tx_ref w p :
  In p (payments w) ->
  chapa_transaction_id p = Some tx_ref ->
  already_processed p = true ->
  fst (verify_chapa_payment env tx_ref w) = w.
Proof.
  intros Hin Href Hp.
  assert (Hf : In p (filter (has_tx_ref tx_ref) (payments w))).
  { apply filter_In. split; [assumption|]. now apply has_tx_ref_true. }
  destruct (filter (has_tx_ref tx_ref) (payments w)) as [|q [|q' rest]] eqn:E.
  - contradiction.
  - destruct Hf as [->|[]]. now rewrite (verify_processed env tx_ref w p).
  - now rewrite (verify_ambiguous env tx_ref w q q' rest).
Qed.

(** C1.  A payment that is COMPLETED or FAILED stays exactly as it is
    under every sequence of later calls, each made in an arbitrary
    environment, that verify its transaction reference or initiate
    payments: the rows stored under its primary key are the same after
    the calls, and so is its row. *)
Theorem terminal_status_absorbing w p tx_ref cs :
  In p (payments w) ->
  chapa_transaction_id p = Some tx_ref ->
  status p = COMPLETED \/ status p = FAILED ->
  Forall (concerns tx_ref) cs ->
  filter (has_payment_id (payment_id p)) (payments (run cs w))
  = filter (has_payment_id (payment_id p)) (payments w)
  /\ In p (payments (run cs w)).
Proof.
  intros Hin Href Hst%already_processed_iff Hcs. revert w Hin.
  induction Hcs as [|c cs Hc Hcs IH]; intros w Hin; [simpl; auto|].
  assert (Hp : In p (filter (has_payment_id (payment_id p)) (payments w))).
  { apply filter_In. split; [assumption|apply UUID_eqb_refl]. }
  assert (Hstep : filter (has_payment_id (payment_id p))
                    (payments (fst (perform c w)))
                  = filter (has_payment_id (payment_id p)) (payments w)).
  { destruct c as [env r|env request]; simpl in Hc |- *.
    - subst r. now rewrite (verify_processed_noop env tx_ref w p).
    - apply initiate_spares; [|reflexivity]. intros E. now rewrite E in Hp. }
  assert (Hin' : In p (payments (fst (perform c w)))).
  { rewrite <- Hstep in Hp. now apply filter_In in Hp. }
  simpl. destruct (IH _ Hin') as [IH1 IH2]. split; [congruence|assumption].
Qed.

(** Whatever happens after the payment has been saved as COMPLETED
    (the booking may be missing, the broker may refuse the task), the
    payments table is the one with the completed row. *)
Lemma verify_confirmed_payments env tx_ref w p response_data top nested :
  filter (has_tx_ref tx_ref) (payments w) = [p] ->
  already_processed p = false ->
  get_outcome env = HttpJson response_data ->
  verification_payload response_data top nested ->
  reports_success top nested = true ->
  payments (fst (verify_chapa_payment env tx_ref w))
  = save_payment_row (set_status_text (set_status p COMPLETED) (VStr "success"))
      (payments w).
Proof.
  intros Hf Hp Hget [-> Hdata] Hok.
  unfold reports_success in Hok. apply andb_true_iff in Hok as [Ho Hi].
  destruct (assoc "status" top) as [o|] eqn:Eo; [|discriminate].
  destruct (assoc "status" nested) as [i|] eqn:Ei; [|discriminate].
  apply py_eq_str_true in Hi as ->.
  view_unfold. view_cbn. rewrite Hf. view_cbn. rewrite Hp. view_cbn.
  rewrite Hget. view_cbn. rewrite Eo, Ho. view_cbn. rewrite Hdata. view_cbn.
  rewrite Ei. cbn [py_eq_str String.eqb Ascii.eqb Bool.eqb]. view_cbn.
  destruct (find _ (bookings w)) as [b|]; view_cbn; [|reflexivity].
  destruct (booking_status_eqb (booking_status b) CONFIRMED);
    destruct (delay_outcome env); reflexivity.
Qed.

Lemma filter_map_commute {A} (f : A -> bool) (g : A -> A) rows :
  (forall q, In q rows -> f (g q) = f q) ->
  filter f (map g rows) = map g (filter f rows).
Proof.
  induction rows as [|q rows IH]; intros Hfg; simpl; [reflexivity|].
  rewrite (Hfg q) by now left.
  destruct (f q); simpl; rewrite IH; auto; intros; apply Hfg; now right.
Qed.

(** Saving over the only row with its primary key keeps the row the
    only one with its reference. *)
Lemma filter_tx_ref_saved tx_ref p p' rows :
  filter (has_tx_ref tx_ref) rows = [p] ->
  filter (has_payment_id (payment_id p)) rows = [p] ->
  payment_id p' = payment_id p ->
  chapa_transaction_id p' = chapa_transaction_id p ->
  filter (has_tx_ref tx_ref) (save_payment_row p' rows) = [p'].
Proof.
  intros Href Hkey Hid Htx.
  assert (Hin : In p (filter (has_payment_id (payment_id p)) rows))
    by (rewrite Hkey; now left).
  apply filter_In in Hin as [Hin Hself].
  unfold save_payment_row, save_row. rewrite Hid.
  assert (existsb (has_pk payment_id (payment_id p)) rows = true) as ->
    by (apply existsb_exists; eauto).
  rewrite filter_map_commute.
  - rewrite Href. simpl. unfold has_payment_id in Hself. now rewrite Hself.
  - intros q Hq. destruct (has_pk payment_id (payment_id p) q) eqn:E;
      [|reflexivity].
    assert (Hq' : In q (filter (has_payment_id (payment_id p)) rows))
      by (apply filter_In; auto).
    rewrite Hkey in Hq'. destruct Hq' as [<-|[]].
    unfold has_tx_ref. now rewrite Htx.
Qed.

(** C2 (amended).  Two verifications of the same reference in a row,
    the first finding the payment PENDING (and the only row with its
    primary key), the gateway reporting success and the broker accepting
    the task: the first call redirects to the success page, the second
    to the status page with [status=completed]; the second call changes
    nothing and calls nobody; across both calls the gateway's verify
    endpoint is called once, one confirmation job is handed to the queue,
    and the payment is stored as COMPLETED. *)
Theorem repeated_verification_is_a_noop
    env1 env2 tx_ref w p response_data top nested b :
  filter (has_tx_ref tx_ref) (payments w) = [p] ->
  filter (has_payment_id (payment_id p)) (payments w) = [p] ->
  status p = PENDING ->
  get_outcome env1 = HttpJson response_data ->
  verification_payload response_data top nested ->
  reports_success top nested = true ->
  find (has_booking_id (booking p)) (bookings w) = Some b ->
  delay_outcome env1 = None ->
  let first := verify_chapa_payment env1 tx_ref w in
  let second := verify_chapa_payment env2 tx_ref (fst first) in
  snd first = HttpResponseRedirect "/payment-success/"
  /\ snd second = HttpResponseRedirect
                    ("/payment-status/?tx_ref=" ++ tx_ref ++ "&status=completed")
  /\ fst second = fst first
  /\ gateway_verifications (trace (fst second))
     = (gateway_verifications (trace w)
        ++ [(CHAPA_VERIFY_URL ++ tx_ref)%string])%list
  /\ delayed_jobs (trace (fst second))
     = (delayed_jobs (trace w)
        ++ [{| job_payment_id := str_uuid (payment_id p);
               job_recipient_email := email (booking_user b);
               job_amount := amount p;
               job_booking_ref := str_uuid (booking_id b) |}])%list
  /\ map status (filter (has_tx_ref tx_ref) (payments (fst second))) = [COMPLETED].
Proof.
  intros Hf Hkey Hst Hget Hshape Hok Hb Hbroker first second.
  set (p' := set_status_text (set_status p COMPLETED) (VStr "success")).
  assert (Hfirst := verify_confirmed env1 tx_ref w p response_data top nested b
                      Hf (not_processed_pending p Hst) Hget Hshape Hok Hb).
  cbv zeta in Hfirst. rewrite Hbroker in Hfirst. fold p' in Hfirst.
  assert (Hf' : filter (has_tx_ref tx_ref) (payments (fst first)) = [p']).
  { subst first. rewrite Hfirst. cbn [fst payments].
    now apply (filter_tx_ref_saved tx_ref p p' (payments w)). }
  assert (Hsecond := verify_processed env2 tx_ref (fst first) p' Hf' eq_refl).
  fold second in Hsecond. rewrite Hsecond. cbn [fst snd].
  subst first. rewrite Hfirst in Hf' |- *. cbn [fst snd trace] in *.
  rewrite Hf'.
  split; [reflexivity|]. split; [reflexivity|]. split; [reflexivity|].
  rewrite !gateway_verifications_app, !delayed_jobs_app.
  destruct (booking_status_eqb (booking_status b) CONFIRMED); simpl;
    rewrite ?app_nil_r; auto.
Qed.

(** C9 (amended).  After a PENDING payment has been verified with
    success, a broker that refuses the confirmation task leaves the
    stored payments and bookings exactly as an accepting broker does
    (payment COMPLETED, booking CONFIRMED), but the caller is redirected
    to the failure page with [error=internal_error] instead of the
    success page. *)
Theorem enqueue_failure_changes_only_the_response
    env tx_ref w p response_data top nested b msg :
  filter (has_tx_ref tx_ref) (payments w) = [p] ->
  status p = PENDING ->
  get_outcome env = HttpJson response_data ->
  verification_payload response_data top nested ->
  reports_success top nested = true ->
  find (has_booking_id (booking p)) (bookings w) = Some b ->
  let accepted := verify_chapa_payment (with_broker env None) tx_ref w in
  let refused := verify_chapa_payment (with_broker env (Some msg)) tx_ref w in
  payments (fst refused) = payments (fst accepted)
  /\ bookings (fst refused) = bookings (fst accepted)
  /\ find (has_payment_id (payment_id p)) (payments (fst refused))
     = Some (set_status_text (set_status p COMPLETED) (VStr "success"))
  /\ find (has_booking_id (booking p)) (bookings (fst refused))
     = Some (set_booking_status b CONFIRMED)
  /\ snd accepted = HttpResponseRedirect "/payment-success/"
  /\ snd refused = HttpResponseRedirect
                     ("/payment-fail/?tx_ref=" ++ tx_ref ++ "&error=internal_error").
Proof.
  intros Hf Hst Hget Hshape Hok Hb accepted refused.
  pose proof (not_processed_pending p Hst) as Hp.
  subst accepted refused.
  rewrite (verify_confirmed (with_broker env None) tx_ref w p response_data
             top nested b Hf Hp Hget Hshape Hok Hb).
  rewrite (verify_confirmed (with_broker env (Some msg)) tx_ref w p response_data
             top nested b Hf Hp Hget Hshape Hok Hb).
  cbn [fst snd payments bookings with_broker delay_outcome].
  split; [reflexivity|]. split; [reflexivity|].
  split; [apply (find_save_row payment_id); apply UUID_eqb_refl|].
  split; [|split; reflexivity].
  destruct (booking_status_eqb (booking_status b) CONFIRMED) eqn:E.
  - apply booking_status_eqb_eq in E. rewrite Hb. f_equal.
    destruct b; simpl in *; now subst.
  - apply (find_save_row booking_id).
    apply find_some in Hb as [_ Hb]. exact Hb.
Qed.

(** C7 (amended).  Failures of the gateway; the three parts stand each
    on its own, for every environment and database.  Initiation, for a
    request that has passed the checks (whatever payments the database
    holds, none included): the payment just inserted is stored as FAILED
    with the error detail, and the caller gets a JSON error with status
    500 when the request raised, 400 when the gateway declined.
    Verification of a payment that is not COMPLETED or FAILED, request
    raised: the payment is stored as FAILED with the error detail if it
    was PENDING and is left as it was otherwise, and the caller is
    redirected (302) to the failure page with [error=api_error].
    Verification of such a payment, answer in the documented structure
    without success: the payment is stored as FAILED with the
    diagnostic text and the caller is redirected to the failure page
    carrying that text. *)
Theorem gateway_failure_recovery :
  (forall env request w u b amount_arg c new_ref text code,
      passes_checks env request w u b amount_arg c new_ref ->
      initiation_failure (post_outcome env) text code ->
      let initiated := initiate_chapa_payment env request w in
      let p' := set_status_text (set_status (pending_payment env b c new_ref) FAILED)
                  text in
      payments (fst initiated) = (payments w ++ [p'])%list
      /\ status p' = FAILED
      /\ chapa_status_text p' = text
      /\ chapa_transaction_id p' = Some new_ref
      /\ response_status (snd initiated) = code
      /\ returned_tx_ref (snd initiated) = None)
  /\ (forall env tx_ref w p msg,
        filter (has_tx_ref tx_ref) (payments w) = [p] ->
        already_processed p = false ->
        get_outcome env = HttpRaises msg ->
        let verified := verify_chapa_payment env tx_ref w in
        let p' := set_status_text (set_status p FAILED)
                    (VStr ("API Verification Error: " ++ msg)) in
        payments (fst verified)
        = (if payment_status_eqb (status p) PENDING
           then save_payment_row p' (payments w)
           else payments w)
        /\ (status p = PENDING ->
            find (has_payment_id (payment_id p)) (payments (fst verified))
            = Some p'
            /\ status p' = FAILED
            /\ chapa_status_text p' = VStr ("API Verification Error: " ++ msg))
        /\ (status p <> PENDING -> payments (fst verified) = payments w)
        /\ bookings (fst verified) = bookings w
        /\ snd verified
           = HttpResponseRedirect
               ("/payment-fail/?tx_ref=" ++ tx_ref ++ "&error=api_error"))
  /\ (forall env tx_ref w p response_data top nested,
        filter (has_tx_ref tx_ref) (payments w) = [p] ->
        already_processed p = false ->
        get_outcome env = HttpJson response_data ->
        verification_payload response_data top nested ->
        reports_success top nested = false ->
        let verified := verify_chapa_payment env tx_ref w in
        let p' := set_status_text (set_status p FAILED)
                    (diagnostic_text top nested) in
        payments (fst verified) = save_payment_row p' (payments w)
        /\ find (has_payment_id (payment_id p)) (payments (fst verified))
           = Some p'
        /\ status p' = FAILED
        /\ chapa_status_text p' = diagnostic_text top nested
        /\ bookings (fst verified) = bookings w
        /\ snd verified
           = HttpResponseRedirect
               ("/payment-fail/?tx_ref=" ++ tx_ref ++ "&status="
                ++ str (diagnostic_text top nested))).
Proof.
  split; [|split].
  - intros env request w u b amount_arg c new_ref text code Hpc Hfail
      initiated p'. subst initiated p'.
    inversion Hfail as [msg Hpost|top Hst Hpost]; subst.
    + symmetry in Hpost.
      rewrite (initiate_transport_failure _ _ _ _ _ _ _ _ _ Hpc Hpost).
      repeat split.
    + symmetry in Hpost.
      rewrite (initiate_rejected _ _ _ _ _ _ _ _ _ Hpc Hpost Hst).
      repeat split.
  - intros env tx_ref w p msg Hf Hp Hget verified p'. subst verified p'.
    rewrite (verify_transport_failure _ _ _ _ _ Hf Hp Hget).
    cbn [fst snd payments bookings].
    split; [reflexivity|]. split; [|split; [|split; reflexivity]].
    + intros Hst. rewrite Hst. cbn [payment_status_eqb].
      split; [|split; reflexivity].
      apply (find_save_row payment_id). apply UUID_eqb_refl.
    + intros Hst. destruct (payment_status_eqb (status p) PENDING) eqn:E;
        [|reflexivity].
      apply payment_status_eqb_eq in E. contradiction.
  - intros env tx_ref w p response_data top nested Hf Hp Hget Hshape Hno
      verified p'. subst verified p'.
    rewrite (verify_rejected _ _ _ _ _ _ _ Hf Hp Hget Hshape Hno).
    cbn [fst snd payments bookings].
    split; [reflexivity|]. split; [|repeat split].
    apply (find_save_row payment_id). apply UUID_eqb_refl.
Qed.

(** Verification of a payment stored as CANCELED or REVERSED, outside
    the answers without a nested [data] object: the guard does not stop
    it and the gateway's verify endpoint is called; when the answer has
    the documented structure the payment is overwritten, COMPLETED if
    both levels report success and FAILED otherwise; when the request
    raises, the payments and the bookings are left as they were. *)
Theorem canceled_or_reversed_is_verified_again env tx_ref w p :
  filter (has_tx_ref tx_ref) (payments w) = [p] ->
  status p = CANCELED \/ status p = REVERSED ->
  let w' := fst (verify_chapa_payment env tx_ref w) in
  gateway_verifications (trace w')
  = (gateway_verifications (trace w) ++ [(CHAPA_VERIFY_URL ++ tx_ref)%string])%list
  /\ match get_outcome env with
     | HttpJson response_data =>
         forall top nested,
           verification_payload response_data top nested ->
           exists p',
             find (has_payment_id (payment_id p)) (payments w') = Some p'
             /\ status p' = (if reports_success top nested
                             then COMPLETED else FAILED)
     | HttpRaises _ | HttpNotJson _ =>
         payments w' = payments w /\ bookings w' = bookings w
     end.
Proof.
  intros Hf Hst w'.
  assert (Hp : already_processed p = false)
    by (unfold already_processed; destruct Hst as [-> | ->]; reflexivity).
  assert (Hnp : payment_status_eqb (status p) PENDING = false)
    by (destruct Hst as [-> | ->]; reflexivity).
  split.
  - subst w'. view_unfold. unfold py_get, py_getitem.
    view_cbn. rewrite Hf. view_cbn. rewrite Hp. view_cbn.
    repeat match goal with
      | |- context [match ?x with _ => _ end] =>
          lazymatch x with
          | context [match _ with _ => _ end] => fail
          | _ => first [is_var x; destruct x | destruct x eqn:?]
          end; view_cbn
      end;
      rewrite ?Hnp; view_cbn;
      rewrite ?gateway_verifications_app; simpl; rewrite ?app_nil_r; reflexivity.
  - destruct (get_outcome env) as [msg|msg|response_data] eqn:Hget.
    + subst w'. rewrite (verify_transport_failure _ _ _ _ _ Hf Hp Hget).
      cbn [fst payments bookings]. rewrite Hnp. auto.
    + subst w'. view_unfold. view_cbn. rewrite Hf. view_cbn. rewrite Hp.
      view_cbn. rewrite Hget. view_cbn. rewrite Hnp. auto.
    + intros top nested Hshape. subst w'.
      destruct (reports_success top nested) eqn:Hok.
      * rewrite (verify_confirmed_payments _ _ _ _ _ _ _ Hf Hp Hget Hshape Hok).
        eexists. split; [apply (find_save_row payment_id); apply UUID_eqb_refl|].
        reflexivity.
      * rewrite (verify_rejected _ _ _ _ _ _ _ Hf Hp Hget Hshape Hok).
        eexists. split; [apply (find_save_row payment_id); apply UUID_eqb_refl|].
        reflexivity.
Qed.


(** C3.  Verifying a PENDING payment for which the gateway reports
    success at both levels, the broker accepting the job: the stored
    payment has status COMPLETED and the text of the gateway's nested
    [data] object (its [status] member), its other columns unchanged;
    the owning booking has status CONFIRMED afterwards, its other
    columns unchanged, and is written only if it was not CONFIRMED
    before; exactly one payment-confirmation job is enqueued, carrying
    the payment identifier, the guest's e-mail address, the amount and
    the booking reference; the caller is sent to the success page. *)
Theorem verified_success_completes_payment
    env tx_ref w p response_data top nested b :
  filter (has_tx_ref tx_ref) (payments w) = [p] ->
  status p = PENDING ->
  get_outcome env = HttpJson response_data ->
  verification_payload response_data top nested ->
  reports_success top nested = true ->
  find (has_booking_id (booking p)) (bookings w) = Some b ->
  delay_outcome env = None ->
  let w' := fst (verify_chapa_payment env tx_ref w) in
  (exists p',
      find (has_payment_id (payment_id p)) (payments w') = Some p'
      /\ p' = set_status_text (set_status p COMPLETED) (VStr "success")
      /\ status p' = COMPLETED
      /\ chapa_status_text p' = VStr "success"
      /\ assoc "status" nested = Some (chapa_status_text p')
      /\ payment_id p' = payment_id p
      /\ booking p' = booking p
      /\ amount p' = amount p
      /\ chapa_transaction_id p' = chapa_transaction_id p
      /\ payment_method p' = payment_method p)
  /\ (exists b',
        find (has_booking_id (booking p)) (bookings w') = Some b'
        /\ b' = set_booking_status b CONFIRMED
        /\ booking_status b' = CONFIRMED
        /\ booking_id b' = booking_id b
        /\ booking_user b' = booking_user b
        /\ total_price b' = total_price b)
  /\ (booking_status b = CONFIRMED -> bookings w' = bookings w)
  /\ trace w'
     = (trace w
        ++ [HttpGet (CHAPA_VERIFY_URL ++ tx_ref)%string;
            DbUpdatePayment
              (set_status_text (set_status p COMPLETED) (VStr "success"))]
        ++ (if booking_status_eqb (booking_status b) CONFIRMED
            then []
            else [DbUpdateBooking (set_booking_status b CONFIRMED)])
        ++ [CeleryDelay
              {| job_payment_id := str_uuid (payment_id p);
                 job_recipient_email := email (booking_user b);
                 job_amount := amount p;
                 job_booking_ref := str_uuid (booking_id b) |}])%list
  /\ delayed_jobs (trace w')
       = (delayed_jobs (trace w)
          ++ [{| job_payment_id := str_uuid (payment_id p);
                 job_recipient_email := email (booking_user b);
                 job_amount := amount p;
                 job_booking_ref := str_uuid (booking_id b) |}])%list
  /\ snd (verify_chapa_payment env tx_ref w)
     = HttpResponseRedirect "/payment-success/".
Proof.
  intros Hf Hst Hget Hshape Hok Hb Hbroker w'.
  assert (Hnested : assoc "status" nested = Some (VStr "success")).
  { unfold reports_success in Hok. apply andb_true_iff in Hok as [_ Hi].
    destruct (assoc "status" nested); [|discriminate].
    now apply py_eq_str_true in Hi as ->. }
  subst w'.
  rewrite (verify_confirmed env tx_ref w p response_data top nested b); auto
    using not_processed_pending.
  cbn [fst snd payments bookings trace]. rewrite Hbroker.
  split; [|split; [|split; [|split; [|split]]]].
  - eexists. split; [apply (find_save_row payment_id); apply UUID_eqb_refl|].
    split; [reflexivity|]. split; [reflexivity|]. split; [reflexivity|].
    split; [exact Hnested|]. repeat split.
  - exists (set_booking_status b CONFIRMED). split; [|repeat split].
    destruct (booking_status_eqb (booking_status b) CONFIRMED) eqn:E.
    + apply booking_status_eqb_eq in E. rewrite Hb. f_equal.
      destruct b; simpl in *; now subst.
    + apply (find_save_row booking_id).
      apply find_some in Hb as [_ Hb]. exact Hb.
  - intros E. apply booking_status_eqb_eq in E. now rewrite E.
  - reflexivity.
  - rewrite !delayed_jobs_app.
    destruct (booking_status_eqb (booking_status b) CONFIRMED); simpl;
      rewrite ?app_nil_r; reflexivity.
  - reflexivity.
Qed.
End Properties.

(** * The views on concrete data *)

Module Runs.
Import Sample.

(** Witness of C1: a COMPLETED payment, verified, then a new payment
    initiated for the same booking, then verified again. *)
Lemma terminal_status_absorbing_witness :
  let p := set_status attempt COMPLETED in
  let w := ledger_with COMPLETED in
  let cs := [VerifyPayment (gateway timed_out (HttpJson unpaid) None) trip_ref;
             InitiatePayment (later_gateway (HttpJson initiated) timed_out None)
               (pay_request (VStr "800.00"));
             VerifyPayment (gateway timed_out timed_out None) trip_ref] in
  In p (payments w)
  /\ filter (has_payment_id (payment_id p)) (payments (run cs w))
     = filter (has_payment_id (payment_id p)) (payments w)
  /\ In p (payments (run cs w)).
Proof.
  intros p w cs. split; [left; reflexivity|].
  apply (terminal_status_absorbing w p trip_ref cs).
  - left; reflexivity.
  - reflexivity.
  - left; reflexivity.
  - repeat constructor.
Defined.

(** Counterexample to C2: the second verification does not return the
    response of the first. *)
Lemma second_verification_answers_differently :
  let env := gateway timed_out (HttpJson paid) None in
  let first := verify_chapa_payment env trip_ref ledger in
  let second := verify_chapa_payment env trip_ref (fst first) in
  snd first = HttpResponseRedirect "/payment-success/"
  /\ snd second <> snd first.
Proof. vm_compute. split; [reflexivity|discriminate]. Qed.

(** Witness of C2 (amended) *)
Lemma repeated_verification_is_a_noop_witness :
  let env := gateway timed_out (HttpJson paid) None in
  let first := verify_chapa_payment env trip_ref ledger in
  let second := verify_chapa_payment env trip_ref (fst first) in
  status attempt = PENDING
  /\ snd second
     = HttpResponseRedirect ("/payment-status/?tx_ref=" ++ trip_ref ++ "&status=completed")
  /\ fst second = fst first
  /\ delayed_jobs (trace (fst second)) = [confirmation].
Proof.
  intros env first second. split; [reflexivity|].
  destruct (repeated_verification_is_a_noop env env trip_ref ledger attempt paid
              [("message", VStr "Payment details"); ("status", VStr "success");
               ("data", VDict [("amount", VInt 800); ("currency", VStr "ETB");
                               ("status", VStr "success")])]
              [("amount", VInt 800); ("currency", VStr "ETB");
               ("status", VStr "success")]
              trip)
    as (_ & H2 & H3 & _ & H5 & _);
    try reflexivity.
  - split; reflexivity.
  - auto.
Defined.

(** Witness of C3 *)
Lemma verified_success_completes_payment_witness :
  let env := gateway timed_out (HttpJson paid) None in
  let w' := fst (verify_chapa_payment env trip_ref ledger) in
  status attempt = PENDING
  /\ delay_outcome env = None
  /\ (exists p',
        find (has_payment_id (payment_id attempt)) (payments w') = Some p'
        /\ status p' = COMPLETED
        /\ chapa_status_text p' = VStr "success")
  /\ (exists b',
        find (has_booking_id (booking attempt)) (bookings w') = Some b'
        /\ booking_status b' = CONFIRMED
        /\ booking_user b' = guest)
  /\ delayed_jobs (trace w') = [confirmation]
  /\ snd (verify_chapa_payment env trip_ref ledger)
     = HttpResponseRedirect "/payment-success/".
Proof.
  intros env w'. split; [reflexivity|]. split; [reflexivity|].
  destruct (verified_success_completes_payment
              env trip_ref ledger attempt paid
              [("message", VStr "Payment details"); ("status", VStr "success");
               ("data", VDict [("amount", VInt 800); ("currency", VStr "ETB");
                               ("status", VStr "success")])]
              [("amount", VInt 800); ("currency", VStr "ETB");
               ("status", VStr "success")]
              trip)
    as ((p' & Hp & _ & Hstatus & Htext & _) & (b' & Hb & _ & Hconfirmed & _ & Huser & _)
        & _ & _ & Hjobs & Hanswer);
    try reflexivity.
  - split; reflexivity.
  - split; [exists p'; auto|]. split; [exists b'; auto|].
    split; [exact Hjobs|exact Hanswer].
Defined.


(** Witness of C5 *)
Lemma successful_initiation_reference_witness :
  let env := gateway (HttpJson initiated) timed_out None in
  let request := pay_request (VStr "800.00") in
  response_status (snd (initiate_chapa_payment env request no_payments)) = 200
  /\ exists b tx_ref p0 payload p1,
      In b (bookings no_payments)
      /\ tx_ref = hex (booking_id b) ++ "-" ++ hex (uuid4_tx_ref env)
      /\ returned_tx_ref (snd (initiate_chapa_payment env request no_payments))
         = Some tx_ref
      /\ (forall q, In q (payments no_payments) ->
                    chapa_transaction_id q <> Some tx_ref)
      /\ trace (fst (initiate_chapa_payment env request no_payments))
         = ([] ++ [DbInsertPayment p0; HttpPost CHAPA_INITIATE_URL payload;
                   DbUpdatePayment p1])%list
      /\ (chapa_transaction_id p0 = Some tx_ref /\ status p0 = PENDING
          /\ pl_tx_ref payload = tx_ref)
      /\ (status p1 = PENDING
          /\ filter (has_tx_ref tx_ref)
               (payments (fst (initiate_chapa_payment env request no_payments)))
             = [p1])
      /\ (forall env2 request2,
            response_status
              (snd (initiate_chapa_payment env2 request2
                      (fst (initiate_chapa_payment env request no_payments)))) = 200 ->
            returned_tx_ref
              (snd (initiate_chapa_payment env2 request2
                      (fst (initiate_chapa_payment env request no_payments))))
            <> Some tx_ref).
Proof.
  intros env request. split; [reflexivity|].
  apply (successful_initiation_reference env request no_payments). reflexivity.
Defined.

(** C6.  A PENDING payment is verified and the gateway answers with a
    failure reported at the top level only
    ([{"message": ..., "status": "failed", "data": null}]).  The view
    does not store FAILED with the top-level message: reading the nested
    message raises after [payment.status] has been set in memory, the
    last [except] clause then no longer sees a PENDING payment, and the
    stored row stays PENDING with its old text. *)
Theorem unreadable_rejection_leaves_payment_pending :
  verify_chapa_payment (gateway timed_out (HttpJson not_found) None) trip_ref ledger
  = ({| payments := [attempt]; bookings := [trip];
        trace := [HttpGet verify_url] |},
     HttpResponseRedirect
       ("/payment-fail/?tx_ref=" ++ trip_ref ++ "&error=internal_error"))
  /\ status attempt = PENDING
  /\ diagnostic_text
       [("message", VStr "Invalid transaction or Transaction not found");
        ("status", VStr "failed"); ("data", VNone)] []
     = VStr "Invalid transaction or Transaction not found".
Proof. repeat split. Qed.

(** Counterexample to C7: a declined initiation is answered with 400,
    and a verification that cannot reach the gateway with a redirect;
    neither is a 5xx response. *)
Lemma gateway_failures_are_not_server_errors :
  let declined_init :=
    initiate_chapa_payment (gateway (HttpJson declined) timed_out None)
      (pay_request (VStr "800.00")) no_payments in
  let unreachable :=
    verify_chapa_payment (gateway timed_out timed_out None) trip_ref ledger in
  response_status (snd declined_init) = 400
  /\ response_status (snd unreachable) = 302
  /\ ~ server_error (snd declined_init)
  /\ ~ server_error (snd unreachable).
Proof.
  intros declined_init unreachable.
  assert (H400 : response_status (snd declined_init) = 400) by reflexivity.
  assert (H302 : response_status (snd unreachable) = 302) by reflexivity.
  unfold server_error. rewrite H400, H302. repeat split; lia.
Qed.

Lemma sample_passes_checks post get broker :
  passes_checks (later_gateway post get broker) (pay_request (VStr "800.00"))
    ledger guest trip (VStr "800.00") 80000
    (hex (booking_id trip) ++ "-" ++ "00112233445566778899aabbccddeeff").
Proof.
  constructor; try reflexivity.
  - exists [("booking_id", VStr (booking_id trip)); ("amount", VStr "800.00")],
      (VStr (booking_id trip)), (booking_id trip).
    repeat split.
  - exists 80000. split; reflexivity.
Defined.

Lemma first_attempt_passes_checks post get broker :
  passes_checks (gateway post get broker) (pay_request (VStr "800.00"))
    no_payments guest trip (VStr "800.00") 80000 trip_ref.
Proof.
  constructor; try reflexivity.
  - exists [("booking_id", VStr (booking_id trip)); ("amount", VStr "800.00")],
      (VStr (booking_id trip)), (booking_id trip).
    repeat split.
  - exists 80000. split; reflexivity.
Defined.

(** Witness of C7 (amended): a first payment attempt that the gateway
    declines, one for which the gateway cannot be reached, and a
    verification of a PENDING payment that times out, and one that the
    gateway answers with a failed transaction. *)
Lemma gateway_failure_recovery_witness :
  let declined_init :=
    initiate_chapa_payment (gateway (HttpJson declined) timed_out None)
      (pay_request (VStr "800.00")) no_payments in
  let unreachable_init :=
    initiate_chapa_payment (gateway timed_out timed_out None)
      (pay_request (VStr "800.00")) no_payments in
  let unreachable :=
    verify_chapa_payment (gateway timed_out timed_out None) trip_ref ledger in
  let rejected :=
    verify_chapa_payment (gateway timed_out (HttpJson unpaid) None) trip_ref ledger in
  already_processed attempt = false
  /\ (map status (payments (fst declined_init)) = [FAILED]
      /\ response_status (snd declined_init) = 400)
  /\ (map status (payments (fst unreachable_init)) = [FAILED]
      /\ response_status (snd unreachable_init) = 500)
  /\ (map status (payments (fst unreachable)) = [FAILED]
      /\ snd unreachable
         = HttpResponseRedirect
             ("/payment-fail/?tx_ref=" ++ trip_ref ++ "&error=api_error"))
  /\ (map status (payments (fst rejected)) = [FAILED]
      /\ snd rejected
         = HttpResponseRedirect
             ("/payment-fail/?tx_ref=" ++ trip_ref ++ "&status=Payment details")).
Proof.
  intros declined_init unreachable_init unreachable rejected.
  split; [reflexivity|].
  destruct gateway_failure_recovery as (Hinit & Hraised & Hrejected).
  split; [|split; [|split]].
  - destruct (Hinit (gateway (HttpJson declined) timed_out None)
                (pay_request (VStr "800.00")) no_payments guest trip
                (VStr "800.00") 80000 trip_ref (VStr "Invalid API Key") 400
                (first_attempt_passes_checks (HttpJson declined) timed_out None))
      as (H1 & _ & _ & _ & H2 & _).
    { apply (gateway_rejection
               [("message", VStr "Invalid API Key"); ("status", VStr "failed");
                ("data", VNone)]).
      reflexivity. }
    fold declined_init in H1, H2. rewrite H1. split; [reflexivity|exact H2].
  - destruct (Hinit (gateway timed_out timed_out None)
                (pay_request (VStr "800.00")) no_payments guest trip
                (VStr "800.00") 80000 trip_ref
                (VStr "API Request Error: Read timed out.") 500
                (first_attempt_passes_checks timed_out timed_out None)
                (transport_failure "Read timed out."))
      as (H1 & _ & _ & _ & H2 & _).
    fold unreachable_init in H1, H2. rewrite H1. split; [reflexivity|exact H2].
  - destruct (Hraised (gateway timed_out timed_out None) trip_ref ledger attempt
                "Read timed out." eq_refl eq_refl eq_refl)
      as (H1 & _ & _ & _ & H2).
    fold unreachable in H1, H2. rewrite H1. split; [reflexivity|exact H2].
  - destruct (Hrejected (gateway timed_out (HttpJson unpaid) None) trip_ref ledger
                attempt unpaid
                [("message", VStr "Payment details"); ("status", VStr "success");
                 ("data", VDict [("amount", VInt 800); ("currency", VStr "ETB");
                                 ("status", VStr "failed")])]
                [("amount", VInt 800); ("currency", VStr "ETB");
                 ("status", VStr "failed")]
                eq_refl eq_refl eq_refl (conj eq_refl eq_refl) eq_refl)
      as (H1 & _ & _ & _ & _ & H2).
    fold rejected in H1, H2. rewrite H1. split; [reflexivity|exact H2].
Defined.

(** C8.  No payment carries the reference: the view answers with a
    redirect (302) to the failure page, not with 404.  [Http404], raised
    by [get_object_or_404], is not a [Payment.DoesNotExist]; it is caught
    by the last [except] clause.  Nothing is written. *)
Theorem unknown_reference_is_redirected :
  verify_chapa_payment (gateway timed_out (HttpJson paid) None) "no-such-reference"
    ledger
  = (ledger,
     HttpResponseRedirect
       "/payment-fail/?tx_ref=no-such-reference&error=internal_error")
  /\ response_status
       (snd (verify_chapa_payment (gateway timed_out (HttpJson paid) None)
               "no-such-reference" ledger)) = 302.
Proof. split; reflexivity. Qed.

(** Counterexample to C9: with the payment verified and stored, the
    caller of a verification whose task the broker refuses is sent to the
    failure page, the caller of one whose task is accepted to the
    success page. *)
Lemma refused_task_reaches_the_caller :
  let accepted :=
    verify_chapa_payment (gateway timed_out (HttpJson paid) None) trip_ref ledger in
  let refused :=
    verify_chapa_payment
      (gateway timed_out (HttpJson paid) (Some "Connection refused"))
      trip_ref ledger in
  snd accepted = HttpResponseRedirect "/payment-success/"
  /\ snd refused
     = HttpResponseRedirect
         ("/payment-fail/?tx_ref=" ++ trip_ref ++ "&error=internal_error")
  /\ snd refused <> snd accepted.
Proof. vm_compute. repeat split; discriminate. Qed.

(** Witness of C9 (amended) *)
Lemma enqueue_failure_changes_only_the_response_witness :
  let env := gateway timed_out (HttpJson paid) None in
  let accepted := verify_chapa_payment (with_broker env None) trip_ref ledger in
  let refused :=
    verify_chapa_payment (with_broker env (Some "Connection refused"))
      trip_ref ledger in
  status attempt = PENDING
  /\ payments (fst refused) = payments (fst accepted)
  /\ bookings (fst refused) = bookings (fst accepted)
  /\ snd refused
     = HttpResponseRedirect
         ("/payment-fail/?tx_ref=" ++ trip_ref ++ "&error=internal_error").
Proof.
  intros env accepted refused. split; [reflexivity|].
  destruct (enqueue_failure_changes_only_the_response env trip_ref ledger attempt
              paid
              [("message", VStr "Payment details"); ("status", VStr "success");
               ("data", VDict [("amount", VInt 800); ("currency", VStr "ETB");
                               ("status", VStr "success")])]
              [("amount", VInt 800); ("currency", VStr "ETB");
               ("status", VStr "success")]
              trip "Connection refused")
    as (H1 & H2 & _ & _ & _ & H6);
    try reflexivity.
  - split; reflexivity.
  - auto.
Defined.

(** C10.  A CANCELED payment is verified and the gateway, which is
    called, answers with a failure reported at the top level only
    ([{"message": ..., "status": "failed", "data": null}]).  The payment
    is not overwritten to FAILED according to the response: as in C6,
    reading the nested message raises after [payment.status] has been
    set in memory, the last [except] clause saves nothing, and the
    stored row stays CANCELED; the caller is redirected with
    [error=internal_error]. *)
Lemma canceled_payment_survives_an_unreadable_answer :
  let w' := fst (verify_chapa_payment (gateway timed_out (HttpJson not_found) None)
                   trip_ref (ledger_with CANCELED)) in
  gateway_verifications (trace w') = [verify_url]
  /\ map status (payments w') = [CANCELED].
Proof. split; reflexivity. Qed.

(** The same verification of a REVERSED payment with a gateway that
    reports success in the documented structure *)
Lemma canceled_or_reversed_is_verified_again_witness :
  let w' := fst (verify_chapa_payment (gateway timed_out (HttpJson paid) None)
                   trip_ref (ledger_with REVERSED)) in
  status (set_status attempt REVERSED) = REVERSED
  /\ gateway_verifications (trace w') = [verify_url]
  /\ exists p',
       find (has_payment_id (payment_id attempt)) (payments w') = Some p'
       /\ status p' = COMPLETED.
Proof.
  intros w'. split; [reflexivity|].
  destruct (canceled_or_reversed_is_verified_again
              (gateway timed_out (HttpJson paid) None) trip_ref
              (ledger_with REVERSED) (set_status attempt REVERSED) eq_refl
              (or_intror eq_refl))
    as (Hcalled & Hpaid).
  split; [exact Hcalled|].
  apply (Hpaid
           [("message", VStr "Payment details"); ("status", VStr "success");
            ("data", VDict [("amount", VInt 800); ("currency", VStr "ETB");
                            ("status", VStr "success")])]
           [("amount", VInt 800); ("currency", VStr "ETB");
            ("status", VStr "success")]).
  split; reflexivity.
Defined.
End Runs.

(** * Amounts that floats cannot tell apart *)

Module Amounts.
Import Sample Rounding.

End Amounts.

(** * Further properties *)

Section Footprints.
Context `{PyRuntime} `{!PyBuiltins}.

Ltac view_unfold :=
  unfold verify_chapa_payment, initiate_chapa_payment, run_view, try_except,
    verify_try, verify_except, initiate_try, initiate_except, check_booking,
    get_object_or_404, try_except, Payment_objects_get, Booking_objects_get,
    Payment_objects_create, requests_get, requests_post, http_result, delay,
    json_loads, py_float, payment_booking, payment_save, booking_save,
    payment_obj, payment_setattr, assign_payment, fail_if_pending, log,
    lift, lift_as, bind, ret, raise.

Ltac view_cbn :=
  cbn -[filter find existsb already_processed lower append save_payment_row
        save_booking_row assoc py_eq_str truthy String.eqb].

(** One step of a case analysis along the paths of a view: the next
    test whose outcome is not yet known is split. *)
Ltac split_path :=
  view_cbn;
  match goal with
  | |- context [match ?x with _ => _ end] =>
      lazymatch x with
      | context [match _ with _ => _ end] => fail
      | _ => first [is_var x; destruct x | destruct x eqn:?]
      end
  end.

Ltac pick_one :=
  cbn [snd response_status In url_path landing_pages];
  solve [repeat first [left; reflexivity | right]].

(** ** The paths of [verify_chapa_payment]

    A property holds of every run of the view as soon as it holds in
    the four situations in which the view can end: nothing written;
    the payment found stored as FAILED; the payment stored as COMPLETED
    and no booking row found for it; the payment stored as COMPLETED,
    its booking confirmed and the job submitted. *)
Lemma verify_cases env tx_ref w (P : World * HttpResponse -> Prop) :
  (forall calls loc,
      calls = [] \/ calls = [HttpGet (CHAPA_VERIFY_URL ++ tx_ref)] ->
      In (url_path loc) ["/payment-fail/"; "/payment-status/"] ->
      P ({| payments := payments w; bookings := bookings w;
            trace := trace w ++ calls |}, HttpResponseRedirect loc)) ->
  (forall p text loc,
      filter (has_tx_ref tx_ref) (payments w) = [p] ->
      already_processed p = false ->
      url_path loc = "/payment-fail/" ->
      let p' := set_status_text (set_status p FAILED) text in
      P ({| payments := save_payment_row p' (payments w);
            bookings := bookings w;
            trace := trace w ++ [HttpGet (CHAPA_VERIFY_URL ++ tx_ref);
                                 DbUpdatePayment p'] |},
         HttpResponseRedirect loc)) ->
  (forall p,
      filter (has_tx_ref tx_ref) (payments w) = [p] ->
      already_processed p = false ->
      find (has_booking_id (booking p)) (bookings w) = None ->
      P ({| payments := save_payment_row (completed p) (payments w);
            bookings := bookings w;
            trace := trace w ++ [HttpGet (CHAPA_VERIFY_URL ++ tx_ref);
                                 DbUpdatePayment (completed p)] |},
         HttpResponseRedirect
           ("/payment-fail/?tx_ref=" ++ tx_ref ++ "&error=internal_error"))) ->
  (forall p b loc,
      filter (has_tx_ref tx_ref) (payments w) = [p] ->
      already_processed p = false ->
      find (has_booking_id (booking p)) (bookings w) = Some b ->
      In (url_path loc) ["/payment-success/"; "/payment-fail/"] ->
      let b' := set_booking_status b CONFIRMED in
      P ({| payments := save_payment_row (completed p) (payments w);
            bookings := if booking_status_eqb (booking_status b) CONFIRMED
                        then bookings w else save_booking_row b' (bookings w);
            trace := trace w
                     ++ [HttpGet (CHAPA_VERIFY_URL ++ tx_ref);
                         DbUpdatePayment (completed p)]
                     ++ (if booking_status_eqb (booking_status b) CONFIRMED
                         then [] else [DbUpdateBooking b'])
                     ++ [CeleryDelay (confirmation_job p b)] |},
         HttpResponseRedirect loc)) ->
  P (verify_chapa_payment env tx_ref w).
Proof.
  intros Hnone Hfailed Hlost Hdone.
  assert (Hsame : forall loc,
             In (url_path loc) ["/payment-fail/"; "/payment-status/"] ->
             P (w, HttpResponseRedirect loc)).
  { intros loc Hloc. specialize (Hnone [] loc (or_introl eq_refl) Hloc).
    rewrite app_nil_r in Hnone. now destruct w. }
  view_unfold. unfold py_get, py_getitem.
  repeat split_path.
  all: view_cbn.
  all: try (exfalso;
            match goal with
            | Hs : py_eq_str _ _ = true |- _ => simpl in Hs; discriminate Hs
            end).
  all: repeat match goal with
         | Hs : py_eq_str ?v _ = true |- _ =>
             apply py_eq_str_true in Hs; subst v
         | Hn : negb _ = true |- _ => apply negb_true_iff in Hn
         | Hn : negb _ = false |- _ => apply negb_false_iff in Hn
         end.
  all: rewrite <- ?app_assoc; cbn [app].
  all: try (apply Hsame; pick_one).
  all: try (eapply Hnone; [right; reflexivity|pick_one]).
  all: try (eapply Hfailed; solve [eassumption | reflexivity]).
  all: try (eapply Hlost; solve [eassumption | reflexivity]).
  all: match goal with
       | Hb : find _ _ = Some ?b,
         Hc : booking_status_eqb (booking_status ?b) CONFIRMED = _ |- _ =>
           match goal with
           | Hf : filter _ _ = [?p] |- _ =>
               let R := fresh in
               pose proof (Hdone p b) as R; cbv zeta in R; rewrite Hc in R;
               cbn [app] in R; apply R; solve [assumption | reflexivity | pick_one]
           end
       end.
Qed.

Lemma filter_singleton_In {A} (f : A -> bool) l x : filter f l = [x] -> In x l.
Proof.
  intros E. assert (Hx : In x (filter f l)) by (rewrite E; now left).
  now apply filter_In in Hx.
Qed.

(** ** The paths of [initiate_chapa_payment]

    A property holds of every run of the view as soon as it holds in
    the four situations in which the view can end: nothing written
    (with a status among 400, 401, 404, 405, 500); the PENDING row
    inserted and the gateway called, whose body is not JSON (400); the
    row kept PENDING with the gateway's text (200); the row stored as
    FAILED (400 or 500). *)
Lemma initiate_cases env request w (P : World * HttpResponse -> Prop) :
  (forall data code,
      In code [400; 401; 404; 405; 500] ->
      P (w, JsonResponse data code)) ->
  (forall b amount_arg c data,
      In b (bookings w) ->
      let tx_ref := hex (booking_id b) ++ "-" ++ hex (uuid4_tx_ref env) in
      let p0 := pending_payment env b c tx_ref in
      existsb (has_payment_id (uuid4_payment_id env)) (payments w) = false ->
      existsb (has_tx_ref tx_ref) (payments w) = false ->
      P ({| payments := payments w ++ [p0]; bookings := bookings w;
            trace := trace w
                     ++ [DbInsertPayment p0;
                         HttpPost CHAPA_INITIATE_URL
                           (gateway_payload request b amount_arg tx_ref)] |},
         JsonResponse data 400)) ->
  (forall b amount_arg c text checkout_url,
      In b (bookings w) ->
      let tx_ref := hex (booking_id b) ++ "-" ++ hex (uuid4_tx_ref env) in
      let p0 := pending_payment env b c tx_ref in
      let p1 := set_status_text p0 text in
      existsb (has_payment_id (uuid4_payment_id env)) (payments w) = false ->
      existsb (has_tx_ref tx_ref) (payments w) = false ->
      P ({| payments := payments w ++ [p1]; bookings := bookings w;
            trace := trace w
                     ++ [DbInsertPayment p0;
                         HttpPost CHAPA_INITIATE_URL
                           (gateway_payload request b amount_arg tx_ref);
                         DbUpdatePayment p1] |},
         JsonResponse [("status", VStr "success");
                       ("checkout_url", checkout_url);
                       ("tx_ref", VStr tx_ref)] 200)) ->
  (forall b amount_arg c text data code,
      In b (bookings w) ->
      In code [400; 500] ->
      let tx_ref := hex (booking_id b) ++ "-" ++ hex (uuid4_tx_ref env) in
      let p0 := pending_payment env b c tx_ref in
      let p1 := set_status_text (set_status p0 FAILED) text in
      existsb (has_payment_id (uuid4_payment_id env)) (payments w) = false ->
      existsb (has_tx_ref tx_ref) (payments w) = false ->
      P ({| payments := payments w ++ [p1]; bookings := bookings w;
            trace := trace w
                     ++ [DbInsertPayment p0;
                         HttpPost CHAPA_INITIATE_URL
                           (gateway_payload request b amount_arg tx_ref);
                         DbUpdatePayment p1] |},
         JsonResponse data code)) ->
  P (initiate_chapa_payment env request w).
Proof.
  intros Hnothing Hpending Hhosted Hfailed.
  unfold initiate_chapa_payment.
  destruct (String.eqb (method request) "POST"); [|apply Hnothing; pick_one].
  destruct (user request) as [u|]; [|apply Hnothing; pick_one].
  view_unfold. unfold py_get, py_getitem.
  repeat split_path.
  all: view_cbn.
  all: try (apply Hnothing; pick_one).
  all: repeat match goal with
         | Hor : (_ || _)%bool = false |- _ => apply orb_false_iff in Hor as [? ?]
         end.
  all: match goal with
       | Hb : filter _ _ = [?b] |- _ => apply filter_singleton_In in Hb
       end.
  all: try (erewrite save_fresh_payment by (reflexivity || eassumption)).
  all: rewrite <- ?app_assoc; cbn [app].
  all: first [ eapply Hfailed; solve [eassumption | pick_one]
             | eapply Hhosted; eassumption
             | eapply Hpending; eassumption ].
Qed.
End Footprints.

Section Initiation.
Context `{PyRuntime} `{!PyBuiltins}.

(** ** What an initiation does and answers *)

(** X1.  [initiate_chapa_payment] answers every request, in every
    environment, with a JSON response whose status is 200, 400, 401,
    404, 405 or 500: whatever the request body, the database content
    and the gateway's answer, no exception leaves the view and it never
    redirects.  (The [save] calls of the view update a row that exists
    and do not fail.) *)
Theorem initiation_always_answers_json env request w :
  exists data code,
    snd (initiate_chapa_payment env request w) = JsonResponse data code
    /\ In code [200; 400; 401; 404; 405; 500].
Proof.
  apply (initiate_cases env request w
           (fun r => exists data code,
                snd r = JsonResponse data code
                /\ In code [200; 400; 401; 404; 405; 500])).
  - intros data code Hcode. exists data, code. split; [reflexivity|].
    simpl in *. tauto.
  - intros. eexists _, _. split; [reflexivity|]. simpl. tauto.
  - intros. eexists _, _. split; [reflexivity|]. simpl. tauto.
  - intros b a c text data code _ Hcode. intros. exists data, code.
    split; [reflexivity|]. simpl in Hcode |- *. tauto.
Qed.

Ltac append_one p :=
  cbn [fst payments bookings trace];
  rewrite delayed_jobs_app, gateway_verifications_app;
  cbn [delayed_jobs gateway_verifications concat map flat_map app];
  rewrite ?app_nil_r;
  split; [reflexivity|split; [reflexivity|split; [reflexivity|]]];
  exists [p];
  split; [reflexivity|split; [simpl; lia|]];
  intros ? [<-|[]];
  split; [first [left; reflexivity | right; reflexivity]|];
  split; [assumption|];
  eexists; split; [reflexivity|assumption].

(** X2.  An initiation only ever appends to the payments table: the
    bookings and every existing payment row are left as they are, at
    most one row is added, that row is PENDING or FAILED and its primary
    key and transaction reference were not in use; no job is submitted
    to the task queue and the gateway's verify endpoint is not called. *)
Theorem initiation_is_append_only env request w :
  let w' := fst (initiate_chapa_payment env request w) in
  bookings w' = bookings w
  /\ delayed_jobs (trace w') = delayed_jobs (trace w)
  /\ gateway_verifications (trace w') = gateway_verifications (trace w)
  /\ exists added,
       payments w' = (payments w ++ added)%list
       /\ (List.length added <= 1)%nat
       /\ forall p, In p added ->
            (status p = PENDING \/ status p = FAILED)
            /\ existsb (has_payment_id (payment_id p)) (payments w) = false
            /\ exists tx_ref,
                 chapa_transaction_id p = Some tx_ref
                 /\ existsb (has_tx_ref tx_ref) (payments w) = false.
Proof.
  apply (initiate_cases env request w
           (fun r =>
              let w' := fst r in
              bookings w' = bookings w
              /\ delayed_jobs (trace w') = delayed_jobs (trace w)
              /\ gateway_verifications (trace w') = gateway_verifications (trace w)
              /\ exists added,
                   payments w' = (payments w ++ added)%list
                   /\ (List.length added <= 1)%nat
                   /\ forall p, In p added ->
                        (status p = PENDING \/ status p = FAILED)
                        /\ existsb (has_payment_id (payment_id p)) (payments w)
                           = false
                        /\ exists tx_ref,
                             chapa_transaction_id p = Some tx_ref
                             /\ existsb (has_tx_ref tx_ref) (payments w) = false)).
  - intros data code _. cbn [fst payments bookings trace].
    split; [reflexivity|split; [reflexivity|split; [reflexivity|]]].
    exists []. rewrite app_nil_r.
    split; [reflexivity|split; [simpl; lia|intros p []]].
  - intros b a c data Hb tx_ref p0 Hid Href. append_one p0.
  - intros b a c text url Hb tx_ref p0 p1 Hid Href. append_one p1.
  - intros b a c text data code Hb Hcode tx_ref p0 p1 Hid Href. append_one p1.
Qed.

(** X3.  The gateway's initialize endpoint is called at most once per
    initiation, and only directly after the PENDING payment row carrying
    the reference sent to the gateway has been inserted; whatever is
    written after the call is one update of that same row. *)
Theorem gateway_is_called_after_the_insert env request w :
  let w' := fst (initiate_chapa_payment env request w) in
  trace w' = trace w
  \/ exists p0 payload rest,
       trace w' = (trace w ++ DbInsertPayment p0
                            :: HttpPost CHAPA_INITIATE_URL payload :: rest)%list
       /\ status p0 = PENDING
       /\ chapa_transaction_id p0 = Some (pl_tx_ref payload)
       /\ pl_callback_url payload
          = build_absolute_uri request
              ("/api/payments/chapa/verify/" ++ pl_tx_ref payload ++ "/")
       /\ (rest = []
           \/ exists p1,
                rest = [DbUpdatePayment p1]
                /\ payment_id p1 = payment_id p0
                /\ chapa_transaction_id p1 = chapa_transaction_id p0).
Proof.
  apply (initiate_cases env request w
           (fun r =>
              let w' := fst r in
              trace w' = trace w
              \/ exists p0 payload rest,
                   trace w' = (trace w ++ DbInsertPayment p0
                                 :: HttpPost CHAPA_INITIATE_URL payload :: rest)%list
                   /\ status p0 = PENDING
                   /\ chapa_transaction_id p0 = Some (pl_tx_ref payload)
                   /\ pl_callback_url payload
                      = build_absolute_uri request
                          ("/api/payments/chapa/verify/" ++ pl_tx_ref payload ++ "/")
                   /\ (rest = []
                       \/ exists p1,
                            rest = [DbUpdatePayment p1]
                            /\ payment_id p1 = payment_id p0
                            /\ chapa_transaction_id p1 = chapa_transaction_id p0))).
  - intros data code _. now left.
  - intros. right. eexists _, _, []. cbn [fst trace].
    split; [reflexivity|]. repeat split. now left.
  - intros. right. eexists _, _, [_]. cbn [fst trace].
    split; [reflexivity|]. repeat split. right.
    eexists. repeat split.
  - intros. right. eexists _, _, [_]. cbn [fst trace].
    split; [reflexivity|]. repeat split. right.
    eexists. repeat split.
Qed.

(** X4.  The answer of an initiation tells what was stored: with 401,
    404 or 405 nothing was written and nobody was called; with 200 the
    new payment row is PENDING and carries the reference returned in the
    answer; with 500 either nothing was written or the new row is
    FAILED. *)
Theorem initiation_answer_matches_the_store env request w :
  let r := initiate_chapa_payment env request w in
  (In (response_status (snd r)) [401; 404; 405] -> fst r = w)
  /\ (response_status (snd r) = 200 ->
      exists p,
        payments (fst r) = (payments w ++ [p])%list
        /\ status p = PENDING
        /\ chapa_transaction_id p = returned_tx_ref (snd r))
  /\ (response_status (snd r) = 500 ->
      fst r = w
      \/ exists p,
           payments (fst r) = (payments w ++ [p])%list /\ status p = FAILED).
Proof.
  apply (initiate_cases env request w
           (fun r =>
              (In (response_status (snd r)) [401; 404; 405] -> fst r = w)
              /\ (response_status (snd r) = 200 ->
                  exists p,
                    payments (fst r) = (payments w ++ [p])%list
                    /\ status p = PENDING
                    /\ chapa_transaction_id p = returned_tx_ref (snd r))
              /\ (response_status (snd r) = 500 ->
                  fst r = w
                  \/ exists p,
                       payments (fst r) = (payments w ++ [p])%list
                       /\ status p = FAILED))).
  - intros data code Hcode. cbn [fst snd payments response_status].
    split; [reflexivity|]. split; [|now left].
    intros ->. simpl in Hcode. lia.
  - intros. cbn [fst snd payments response_status].
    split; [simpl; lia|]. split; discriminate.
  - intros. cbn [fst snd payments response_status].
    split; [simpl; lia|]. split; [|discriminate].
    intros _. eexists. repeat split.
  - intros b a c text data code _ Hcode. intros.
    cbn [fst snd payments response_status].
    split; [|split].
    + simpl in Hcode |- *. lia.
    + intros ->. simpl in Hcode. lia.
    + intros _. right. eexists. repeat split.
Qed.
End Initiation.

(** ** Rows and [save] *)

Section SavedRows.
Context `{PyRuntime} {A : Type} (key : A -> UUID).

Lemma stored_key row rows x :
  In x rows -> key x = key row ->
  existsb (has_pk key (key row)) rows = true.
Proof.
  intros Hx Hk. apply existsb_exists. exists x. split; [assumption|].
  unfold has_pk. rewrite Hk. apply UUID_eqb_eq. reflexivity.
Qed.

(** An UPDATE keeps the keys of the table, in order. *)
Lemma save_row_keys row rows :
  existsb (has_pk key (key row)) rows = true ->
  map key (save_row key row rows) = map key rows.
Proof.
  intros E. unfold save_row. rewrite E. clear E.
  induction rows as [|old rows IH]; simpl; [reflexivity|].
  rewrite IH. f_equal. unfold has_pk.
  destruct (UUID_eqb (key old) (key row)) eqn:E; [|reflexivity].
  apply UUID_eqb_eq in E. congruence.
Qed.

Lemma save_row_In row rows x :
  In x (save_row key row rows) -> x = row \/ In x rows.
Proof.
  unfold save_row. destruct (existsb _ rows).
  - rewrite in_map_iff. intros (old & E & Hold).
    destruct (has_pk key (key row) old); subst; auto.
  - rewrite in_app_iff. simpl. intuition.
Qed.

Lemma save_row_stored row rows : In row (save_row key row rows).
Proof.
  unfold save_row. destruct (existsb _ rows) eqn:E.
  - apply existsb_exists in E as (old & Hold & E).
    apply in_map_iff. exists old. now rewrite E.
  - apply in_app_iff. right. now left.
Qed.

(** An UPDATE relates each old row to the row at its place. *)
Lemma save_row_Forall2 (R : A -> A -> Prop) row rows :
  (forall old, R old old) ->
  (forall old, In old rows -> key old = key row -> R old row) ->
  existsb (has_pk key (key row)) rows = true ->
  Forall2 R rows (save_row key row rows).
Proof.
  intros Hrefl Hrow E. unfold save_row. rewrite E. clear E.
  induction rows as [|old rows IH]; simpl; constructor.
  - destruct (has_pk key (key row) old) eqn:E; [|apply Hrefl].
    apply Hrow; [now left|]. apply UUID_eqb_eq in E. exact E.
  - apply IH. intros ? ?. apply Hrow. now right.
Qed.
End SavedRows.

(** ** What a verification does and answers *)

Section Verification.
Context `{PyRuntime} `{!PyBuiltins}.

Lemma found_payment tx_ref rows p :
  filter (has_tx_ref tx_ref) rows = [p] ->
  In p rows /\ chapa_transaction_id p = Some tx_ref.
Proof.
  intros E. assert (Hp : In p (filter (has_tx_ref tx_ref) rows))
    by (rewrite E; now left).
  apply filter_In in Hp as [Hp Href]. split; [assumption|].
  now apply has_tx_ref_true.
Qed.

Lemma found_booking id rows b :
  find (has_booking_id id) rows = Some b -> In b rows /\ booking_id b = id.
Proof.
  intros E. apply find_some in E as [Hb E]. split; [assumption|].
  now apply UUID_eqb_eq in E.
Qed.

Lemma confirmed_already b :
  booking_status_eqb (booking_status b) CONFIRMED = true ->
  set_booking_status b CONFIRMED = b.
Proof.
  intros E. apply booking_status_eqb_eq in E. destruct b. simpl in E.
  now subst.
Qed.

(** X5.  [verify_chapa_payment] answers every reference, in every
    environment and whatever the database holds, with a redirect to
    /payment-success/, /payment-fail/ or /payment-status/: no exception
    leaves the view and its JSON 404 answer is never produced.  (The
    [save] calls of the view update a row that exists and do not
    fail.) *)
Theorem verification_always_redirects env tx_ref w :
  exists location,
    snd (verify_chapa_payment env tx_ref w) = HttpResponseRedirect location
    /\ In (url_path location) landing_pages.
Proof.
  apply (verify_cases env tx_ref w
           (fun r => exists location,
                snd r = HttpResponseRedirect location
                /\ In (url_path location) landing_pages)).
  - intros calls loc _ Hloc. exists loc. split; [reflexivity|].
    unfold landing_pages. simpl in Hloc |- *. tauto.
  - intros p text loc _ _ Hloc p'. exists loc. split; [reflexivity|].
    rewrite Hloc. unfold landing_pages. simpl. tauto.
  - intros p _ _ _. eexists. split; [reflexivity|].
    unfold landing_pages. simpl. tauto.
  - intros p b loc _ _ _ Hloc b'. exists loc. split; [reflexivity|].
    unfold landing_pages. simpl in Hloc |- *. tauto.
Qed.

(** X6.  A verification never inserts or deletes a payment row: the
    primary keys of the table are the same, in the same order, after
    the call.  A row that differs from the rows stored before is the
    row that carried the reference and was neither COMPLETED nor FAILED,
    with only its status, now COMPLETED or FAILED, and its status text
    replaced. *)
Theorem verification_keeps_the_payment_rows env tx_ref w :
  let w' := fst (verify_chapa_payment env tx_ref w) in
  map payment_id (payments w') = map payment_id (payments w)
  /\ forall p', In p' (payments w') ->
       In p' (payments w)
       \/ exists p st text,
            In p (payments w)
            /\ chapa_transaction_id p = Some tx_ref
            /\ already_processed p = false
            /\ (st = COMPLETED \/ st = FAILED)
            /\ p' = set_status_text (set_status p st) text.
Proof.
  apply (verify_cases env tx_ref w
           (fun r =>
              let w' := fst r in
              map payment_id (payments w') = map payment_id (payments w)
              /\ forall p', In p' (payments w') ->
                   In p' (payments w)
                   \/ exists p st text,
                        In p (payments w)
                        /\ chapa_transaction_id p = Some tx_ref
                        /\ already_processed p = false
                        /\ (st = COMPLETED \/ st = FAILED)
                        /\ p' = set_status_text (set_status p st) text)).
  - intros. cbn [fst payments]. split; [reflexivity|]. now left.
  - intros p text loc [Hp Href]%found_payment Hnew _ p'.
    cbn [fst payments]. split.
    + apply save_row_keys. now apply (stored_key payment_id p' _ p).
    + intros q [->|Hq]%save_row_In; [right|now left].
      exists p, FAILED, text. repeat split; auto.
  - intros p [Hp Href]%found_payment Hnew _.
    cbn [fst payments]. split.
    + apply save_row_keys. now apply (stored_key payment_id (completed p) _ p).
    + intros q [->|Hq]%save_row_In; [right|now left].
      exists p, COMPLETED, (VStr "success"). repeat split; auto.
  - intros p b loc [Hp Href]%found_payment Hnew _ _ b'.
    cbn [fst payments]. split.
    + apply save_row_keys. now apply (stored_key payment_id (completed p) _ p).
    + intros q [->|Hq]%save_row_In; [right|now left].
      exists p, COMPLETED, (VStr "success"). repeat split; auto.
Qed.

(** X7.  One verification asks the gateway at most once, and only
    about the reference it was called with.  It submits at most one
    confirmation job, and only in a call that has stored the payment as
    COMPLETED and leaves its booking CONFIRMED; the job names that
    payment and that booking and is addressed to the booking's guest. *)
Theorem verification_notifies_after_completion env tx_ref w :
  let w' := fst (verify_chapa_payment env tx_ref w) in
  (gateway_verifications (trace w') = gateway_verifications (trace w)
   \/ gateway_verifications (trace w')
      = (gateway_verifications (trace w) ++ [(CHAPA_VERIFY_URL ++ tx_ref)%string])%list)
  /\ (delayed_jobs (trace w') = delayed_jobs (trace w)
      \/ exists p b,
           In p (payments w)
           /\ chapa_transaction_id p = Some tx_ref
           /\ already_processed p = false
           /\ In b (bookings w)
           /\ booking_id b = booking p
           /\ delayed_jobs (trace w')
              = (delayed_jobs (trace w)
                   ++ [{| job_payment_id := str_uuid (payment_id p);
                          job_recipient_email := email (booking_user b);
                          job_amount := amount p;
                          job_booking_ref := str_uuid (booking_id b) |}])%list
           /\ In (completed p) (payments w')
           /\ In (set_booking_status b CONFIRMED) (bookings w')).
Proof.
  apply (verify_cases env tx_ref w
           (fun r =>
              let w' := fst r in
              (gateway_verifications (trace w') = gateway_verifications (trace w)
               \/ gateway_verifications (trace w')
                  = (gateway_verifications (trace w)
                       ++ [(CHAPA_VERIFY_URL ++ tx_ref)%string])%list)
              /\ (delayed_jobs (trace w') = delayed_jobs (trace w)
                  \/ exists p b,
                       In p (payments w)
                       /\ chapa_transaction_id p = Some tx_ref
                       /\ already_processed p = false
                       /\ In b (bookings w)
                       /\ booking_id b = booking p
                       /\ delayed_jobs (trace w')
                          = (delayed_jobs (trace w)
                               ++ [{| job_payment_id := str_uuid (payment_id p);
                                      job_recipient_email := email (booking_user b);
                                      job_amount := amount p;
                                      job_booking_ref := str_uuid (booking_id b) |}])%list
                       /\ In (completed p) (payments w')
                       /\ In (set_booking_status b CONFIRMED) (bookings w')))).
  - intros calls loc Hcalls _. cbn [fst payments bookings trace].
    rewrite delayed_jobs_app, gateway_verifications_app.
    destruct Hcalls as [->| ->]; simpl; rewrite ?app_nil_r; auto.
  - intros p text loc _ _ _ p'. cbn [fst payments bookings trace].
    rewrite delayed_jobs_app, gateway_verifications_app.
    simpl. rewrite app_nil_r. auto.
  - intros p _ _ _. cbn [fst payments bookings trace].
    rewrite delayed_jobs_app, gateway_verifications_app.
    simpl. rewrite app_nil_r. auto.
  - intros p b loc [Hp Href]%found_payment Hnew [Hb Hid]%found_booking _ b'.
    cbn [fst payments bookings trace].
    rewrite delayed_jobs_app, gateway_verifications_app.
    split.
    + right. destruct (booking_status_eqb _ _); reflexivity.
    + right. exists p, b.
      repeat (split; [assumption|]). split; [|split].
      * destruct (booking_status_eqb _ _); reflexivity.
      * apply save_row_stored.
      * destruct (booking_status_eqb _ _) eqn:E.
        -- now rewrite confirmed_already.
        -- apply save_row_stored.
Qed.
End Verification.

(** ** Sequences of calls *)

Section Sequences.
Context `{PyRuntime} `{!PyBuiltins}.

Lemma Forall2_same {A} (R : A -> A -> Prop) l :
  (forall x, R x x) -> Forall2 R l l.
Proof. intros Hrefl. induction l; constructor; auto. Qed.

Lemma Forall2_chain {A} (R : A -> A -> Prop) l1 l2 l3 :
  (forall x y z, R x y -> R y z -> R x z) ->
  Forall2 R l1 l2 -> Forall2 R l2 l3 -> Forall2 R l1 l3.
Proof.
  intros Htrans H12. revert l3.
  induction H12 as [|x y l1 l2 Hxy _ IH]; intros l3 H23;
    inversion H23; subst; constructor; eauto.
Qed.

Lemma unique_key {A} (key : A -> UUID) rows a b :
  NoDup (map key rows) -> In a rows -> In b rows -> key a = key b -> a = b.
Proof.
  induction rows as [|r rows IH]; simpl; [contradiction|].
  intros Hnd Ha Hb Hk. inversion Hnd as [|? ? Hr Hnd']; subst.
  destruct Ha as [->|Ha], Hb as [->|Hb]; auto.
  - exfalso. apply Hr. rewrite Hk. now apply in_map.
  - exfalso. apply Hr. rewrite <- Hk. now apply in_map.
Qed.

(** A booking row after some calls: as it was, or with its status
    replaced by CONFIRMED. *)
Lemma initiate_bookings env request w :
  bookings (fst (initiate_chapa_payment env request w)) = bookings w.
Proof.
  apply (initiate_cases env request w (fun r => bookings (fst r) = bookings w));
    reflexivity.
Qed.

Lemma verify_bookings env tx_ref w :
  bookings (fst (verify_chapa_payment env tx_ref w)) = bookings w
  \/ exists b,
       In b (bookings w)
       /\ bookings (fst (verify_chapa_payment env tx_ref w))
          = save_booking_row (set_booking_status b CONFIRMED) (bookings w).
Proof.
  apply (verify_cases env tx_ref w
           (fun r =>
              bookings (fst r) = bookings w
              \/ exists b,
                   In b (bookings w)
                   /\ bookings (fst r)
                      = save_booking_row (set_booking_status b CONFIRMED)
                          (bookings w))); try (intros; now left).
  intros p b loc _ _ [Hb _]%found_booking _ b'. cbn [fst bookings].
  destruct (booking_status_eqb _ _); [now left|right]. now exists b.
Qed.

Lemma perform_bookings c w :
  NoDup (map booking_id (bookings w)) ->
  Forall2 (fun b b' => b' = b \/ b' = set_booking_status b CONFIRMED)
    (bookings w) (bookings (fst (perform c w))).
Proof.
  intros Hnd. destruct c as [env tx_ref|env request]; cbn [perform].
  - destruct (verify_bookings env tx_ref w) as [->|(b & Hb & ->)].
    + apply Forall2_same. now left.
    + apply save_row_Forall2.
      * now left.
      * intros old Hold Hk. right. f_equal.
        now apply (unique_key booking_id (bookings w)).
      * now apply (stored_key booking_id _ _ b).
  - rewrite initiate_bookings. apply Forall2_same. now left.
Qed.

Lemma confirmed_keys rows rows' :
  Forall2 (fun b b' => b' = b \/ b' = set_booking_status b CONFIRMED) rows rows' ->
  map booking_id rows' = map booking_id rows.
Proof.
  induction 1 as [|b b' rows rows' [->| ->] _ IH]; simpl; congruence.
Qed.

(** X8.  Across any sequence of initiations and verifications, each in
    its own environment, the two views add no booking row, delete none
    and reorder nothing, and the only change they make to a row is to
    set its status to CONFIRMED: a confirmed booking is never
    un-confirmed and no other field of a booking is written.  (The
    booking keys are primary keys, hence distinct.) *)
Theorem bookings_are_only_ever_confirmed cs w :
  NoDup (map booking_id (bookings w)) ->
  Forall2 (fun b b' => b' = b \/ b' = set_booking_status b CONFIRMED)
    (bookings w) (bookings (run cs w)).
Proof.
  revert w. induction cs as [|c cs IH]; intros w Hnd.
  - apply Forall2_same. now left.
  - cbn [run fold_left]. pose proof (perform_bookings c w Hnd) as Hstep.
    eapply Forall2_chain; [|exact Hstep|].
    + intros x y z [->| ->] [->| ->]; auto.
    + apply IH. now rewrite (confirmed_keys _ _ Hstep).
Qed.

Lemma initiate_payment_keys env request w :
  exists added,
    payments (fst (initiate_chapa_payment env request w))
    = (payments w ++ added)%list.
Proof.
  apply (initiate_cases env request w
           (fun r => exists added, payments (fst r) = (payments w ++ added)%list)).
  - intros. exists []. cbn [fst payments]. now rewrite app_nil_r.
  - intros. now eexists [_].
  - intros. now eexists [_].
  - intros. now eexists [_].
Qed.

Lemma verify_payment_keys env tx_ref w :
  map payment_id (payments (fst (verify_chapa_payment env tx_ref w)))
  = map payment_id (payments w).
Proof.
  apply (verify_cases env tx_ref w
           (fun r => map payment_id (payments (fst r)) = map payment_id (payments w))).
  - reflexivity.
  - intros p text loc [Hp _]%found_payment _ _ p'. cbn [fst payments].
    apply save_row_keys. now apply (stored_key payment_id p' _ p).
  - intros p [Hp _]%found_payment _ _. cbn [fst payments].
    apply save_row_keys. now apply (stored_key payment_id (completed p) _ p).
  - intros p b loc [Hp _]%found_payment _ _ _ b'. cbn [fst payments].
    apply save_row_keys. now apply (stored_key payment_id (completed p) _ p).
Qed.

(** X9.  Across any sequence of initiations and verifications no
    payment row is deleted, re-keyed or moved: the primary keys stored
    before the calls are still there, in the same order, followed by
    the keys of the rows the initiations added. *)
Theorem payments_are_never_deleted cs w :
  exists added,
    map payment_id (payments (run cs w))
    = (map payment_id (payments w) ++ added)%list.
Proof.
  revert w. induction cs as [|c cs IH]; intros w.
  - exists []. cbn. now rewrite app_nil_r.
  - cbn [run fold_left]. destruct (IH (fst (perform c w))) as (added & E).
    unfold run in E. rewrite E. destruct c as [env tx_ref|env request];
      cbn [perform].
    + rewrite verify_payment_keys. now exists added.
    + destruct (initiate_payment_keys env request w) as (new & ->).
      rewrite map_app, <- app_assoc. now eexists.
Qed.

(** X10.  A verification that could not reach the gateway is final: it
    stores the PENDING payment as FAILED, and every later verification
    of the reference, whatever the gateway would answer by then, changes
    nothing, calls nobody and redirects to the status page with
    [status=failed]. *)
Theorem transport_failure_is_final env env' tx_ref w p msg :
  filter (has_tx_ref tx_ref) (payments w) = [p] ->
  filter (has_payment_id (payment_id p)) (payments w) = [p] ->
  status p = PENDING ->
  get_outcome env = HttpRaises msg ->
  let w1 := fst (verify_chapa_payment env tx_ref w) in
  filter (has_tx_ref tx_ref) (payments w1)
  = [set_status_text (set_status p FAILED)
       (VStr ("API Verification Error: " ++ msg))]
  /\ verify_chapa_payment env' tx_ref w1
     = (w1, HttpResponseRedirect
              ("/payment-status/?tx_ref=" ++ tx_ref ++ "&status=failed")).
Proof.
  intros Href Hkey Hpending Hget w1.
  assert (Hrows : filter (has_tx_ref tx_ref) (payments w1)
                  = [set_status_text (set_status p FAILED)
                       (VStr ("API Verification Error: " ++ msg))]).
  { subst w1.
    rewrite (verify_transport_failure env tx_ref w p msg Href
               (not_processed_pending p Hpending) Hget).
    cbn [fst payments]. rewrite Hpending. cbn [payment_status_eqb].
    now apply (filter_tx_ref_saved tx_ref p). }
  split; [exact Hrows|].
  now rewrite (verify_processed env' tx_ref w1 _ Hrows eq_refl).
Qed.

Lemma stored_booking_found b rows :
  In b rows ->
  exists b0, find (has_booking_id (booking_id b)) rows = Some b0.
Proof.
  intros Hb. destruct (find _ rows) as [b0|] eqn:E; [now exists b0|].
  apply (find_none _ _ E) in Hb. unfold has_booking_id, has_pk in Hb.
  now rewrite UUID_eqb_refl in Hb.
Qed.

(** X11.  The two views compose: after an initiation answered with
    200, a verification of the reference returned in that answer, to
    which the gateway reports success at both levels, finds exactly the
    payment row the initiation added and stores it with status
    COMPLETED, its key, booking, amount and reference unchanged; the
    booking the payment was initiated for is stored with status
    CONFIRMED afterwards, its other columns unchanged; and one
    confirmation job is submitted for that payment and booking. *)
Theorem initiated_payment_is_completed_by_verification
    env request w env' response_data top nested :
  response_status (snd (initiate_chapa_payment env request w)) = 200 ->
  get_outcome env' = HttpJson response_data ->
  verification_payload response_data top nested ->
  reports_success top nested = true ->
  let r := initiate_chapa_payment env request w in
  exists tx_ref p b,
    returned_tx_ref (snd r) = Some tx_ref
    /\ payments (fst r) = (payments w ++ [p])%list
    /\ status p = PENDING
    /\ chapa_transaction_id p = Some tx_ref
    /\ In b (bookings w)
    /\ booking_id b = booking p
    /\ let w2 := fst (verify_chapa_payment env' tx_ref (fst r)) in
       exists p' b',
         payments w2 = (payments w ++ [p'])%list
         /\ p' = completed p
         /\ status p' = COMPLETED
         /\ chapa_status_text p' = VStr "success"
         /\ payment_id p' = payment_id p
         /\ booking p' = booking p
         /\ amount p' = amount p
         /\ chapa_transaction_id p' = Some tx_ref
         /\ In b' (bookings w2)
         /\ b' = set_booking_status b CONFIRMED
         /\ booking_status b' = CONFIRMED
         /\ booking_id b' = booking_id b
         /\ booking_user b' = booking_user b
         /\ total_price b' = total_price b
         /\ delayed_jobs (trace w2)
            = (delayed_jobs (trace w)
                 ++ [{| job_payment_id := str_uuid (payment_id p);
                        job_recipient_email := email (booking_user b);
                        job_amount := amount p;
                        job_booking_ref := str_uuid (booking_id b) |}])%list.
Proof.
  intros Hok Hget Hpayload Hsuccess r. subst r. revert Hok.
  apply (initiate_cases env request w
           (fun r =>
              response_status (snd r) = 200 ->
              exists tx_ref p b,
                returned_tx_ref (snd r) = Some tx_ref
                /\ payments (fst r) = (payments w ++ [p])%list
                /\ status p = PENDING
                /\ chapa_transaction_id p = Some tx_ref
                /\ In b (bookings w)
                /\ booking_id b = booking p
                /\ let w2 := fst (verify_chapa_payment env' tx_ref (fst r)) in
                   exists p' b',
                     payments w2 = (payments w ++ [p'])%list
                     /\ p' = completed p
                     /\ status p' = COMPLETED
                     /\ chapa_status_text p' = VStr "success"
                     /\ payment_id p' = payment_id p
                     /\ booking p' = booking p
                     /\ amount p' = amount p
                     /\ chapa_transaction_id p' = Some tx_ref
                     /\ In b' (bookings w2)
                     /\ b' = set_booking_status b CONFIRMED
                     /\ booking_status b' = CONFIRMED
                     /\ booking_id b' = booking_id b
                     /\ booking_user b' = booking_user b
                     /\ total_price b' = total_price b
                     /\ delayed_jobs (trace w2)
                        = (delayed_jobs (trace w)
                             ++ [{| job_payment_id := str_uuid (payment_id p);
                                    job_recipient_email := email (booking_user b);
                                    job_amount := amount p;
                                    job_booking_ref := str_uuid (booking_id b) |}])%list)).
  - intros data code Hcode Hok. cbn [snd response_status] in Hok. subst code.
    simpl in Hcode. lia.
  - intros b a c data _ tx_ref p0 _ _ Hok. discriminate Hok.
  - intros b a c text url Hb tx_ref p0 p1 Hid Href _.
    destruct (stored_booking_found b (bookings w) Hb) as (b0 & Hfind).
    destruct (found_booking _ _ _ Hfind) as [Hb0 Hid0].
    exists tx_ref, p1, b0. cbn [fst snd payments].
    assert (Hrows : filter (has_tx_ref tx_ref) (payments w ++ [p1]) = [p1]).
    { rewrite filter_app, (existsb_false_filter _ _ Href). cbn.
      now rewrite String.eqb_refl. }
    split; [reflexivity|]. split; [reflexivity|]. split; [reflexivity|].
    split; [reflexivity|]. split; [assumption|]. split; [assumption|].
    match goal with
    | |- context [verify_chapa_payment env' tx_ref ?w1] =>
        rewrite (verify_confirmed env' tx_ref w1 p1 response_data top nested b0
                   Hrows eq_refl Hget Hpayload Hsuccess Hfind)
    end.
    cbn [fst payments bookings trace].
    exists (completed p1), (set_booking_status b0 CONFIRMED).
    split; [now apply save_fresh_payment|].
    do 7 (split; [reflexivity|]).
    split; [|do 5 (split; [reflexivity|])].
    + destruct (booking_status_eqb _ _) eqn:E.
      * now rewrite confirmed_already.
      * apply save_row_stored.
    + rewrite !delayed_jobs_app. cbn.
      destruct (booking_status_eqb _ _); cbn; now rewrite app_nil_r.
  - intros b a c text data code _ Hcode tx_ref p0 p1 _ _ Hok.
    cbn [snd response_status] in Hok. subst code. simpl in Hcode. lia.
Qed.
End Sequences.

(** ** The booking endpoint and the e-mail tasks *)

Section Mail.
Context `{PyRuntime} `{!PyBuiltins}.

(** X12.  [send_payment_confirmation_email] returns normally whatever
    the mail backend does: when [send_mail] succeeds the outbox grows by
    exactly the confirmation built from the four arguments, sent from
    DEFAULT_FROM_EMAIL to the recipient alone; when [send_mail] raises,
    the exception is caught and only printed, the outbox is left as it
    was and the task still ends without an error, so the mail is lost
    to the caller and to the queue alike. *)
Theorem payment_task_swallows_mail_failures menv job outbox :
  let r := send_payment_confirmation_email menv job outbox in
  snd r = inr tt
  /\ (send_mail_outcome menv = None ->
      exists m,
        fst r = (outbox ++ [m])%list
        /\ m = payment_email menv job
        /\ mail_recipients m = [job_recipient_email job]
        /\ mail_from m = DEFAULT_FROM_EMAIL menv
        /\ mail_subject m
           = "Your Payment for Booking " ++ job_booking_ref job ++ " is Confirmed!")
  /\ (forall msg, send_mail_outcome menv = Some msg -> fst r = outbox).
Proof.
  unfold send_payment_confirmation_email, task_try, send_mail, task_ret.
  destruct (send_mail_outcome menv) as [failure|]; cbn [fst snd].
  - split; [reflexivity|]. split; [discriminate|reflexivity].
  - split; [reflexivity|]. split; [|discriminate].
    intros _. eexists. split; [reflexivity|]. repeat split.
Qed.

(** X13.  [send_booking_confirmation_email] returns normally on every
    input: an identifier that is no UUID, a missing booking, several
    bookings under the key and a failing mail backend are all caught
    and only printed.  It sends at most one mail, and one only when
    exactly one booking row has the key and [send_mail] succeeds; the
    mail is then the confirmation of that row, sent to the given
    address. *)
Theorem booking_task_never_fails menv rows booking_id_str recipient_email outbox :
  let r := send_booking_confirmation_email menv rows booking_id_str
             recipient_email outbox in
  snd r = inr tt
  /\ (fst r = outbox
      \/ exists id b,
           uuid_of (VStr booking_id_str) = inr id
           /\ filter (has_pk row_booking_id id) rows = [b]
           /\ send_mail_outcome menv = None
           /\ fst r = (outbox ++ [booking_email menv b recipient_email])%list).
Proof.
  unfold send_booking_confirmation_email, task_try, task_bind,
    task_get_booking, send_mail, task_raise, task_ret.
  destruct (uuid_of (VStr booking_id_str)) as [msg|id] eqn:Eid;
    [split; [reflexivity|now left]|].
  destruct (filter (has_pk row_booking_id id) rows) as [|b [|b' more]] eqn:Eb;
    [split; [reflexivity|now left]| |split; [reflexivity|now left]].
  destruct (send_mail_outcome menv) eqn:Esend;
    [split; [reflexivity|now left]|].
  split; [reflexivity|]. right. now exists id, b.
Qed.

(** X14.  From the gateway's confirmation to the guest's mailbox: when
    a verification completes a payment and the broker accepts the job,
    the task run on the arguments of that job with a working mail
    backend returns normally and sends exactly one mail; it is
    addressed to the e-mail address of the guest of the payment's
    booking and its subject names that booking. *)
Theorem confirmation_mail_reaches_the_guest
    env tx_ref w p response_data top nested b menv outbox :
  filter (has_tx_ref tx_ref) (payments w) = [p] ->
  already_processed p = false ->
  get_outcome env = HttpJson response_data ->
  verification_payload response_data top nested ->
  reports_success top nested = true ->
  find (has_booking_id (booking p)) (bookings w) = Some b ->
  delay_outcome env = None ->
  send_mail_outcome menv = None ->
  exists job m,
    delayed_jobs (trace (fst (verify_chapa_payment env tx_ref w)))
    = (delayed_jobs (trace w) ++ [job])%list
    /\ snd (verify_chapa_payment env tx_ref w)
       = HttpResponseRedirect "/payment-success/"
    /\ send_payment_confirmation_email menv job outbox
       = ((outbox ++ [m])%list, inr tt)
    /\ mail_recipients m = [email (booking_user b)]
    /\ mail_subject m
       = "Your Payment for Booking " ++ str_uuid (booking_id b) ++ " is Confirmed!"
    /\ mail_from m = DEFAULT_FROM_EMAIL menv.
Proof.
  intros Href Hnew Hget Hpayload Hsuccess Hfind Hbroker Hsend.
  rewrite (verify_confirmed env tx_ref w p response_data top nested b
             Href Hnew Hget Hpayload Hsuccess Hfind).
  cbn [fst snd trace]. rewrite Hbroker.
  eexists _, _. split; [|split; [reflexivity|split]].
  - rewrite !delayed_jobs_app. cbn.
    destruct (booking_status_eqb _ _); cbn; reflexivity.
  - unfold send_payment_confirmation_email, task_try, send_mail.
    rewrite Hsend. reflexivity.
  - repeat split.
Qed.

Lemma fresh_key_filter {A} (key : A -> UUID) row rows :
  existsb (has_pk key (key row)) rows = false ->
  filter (has_pk key (key row)) (rows ++ [row]) = [row].
Proof.
  intros E. rewrite filter_app.
  replace (filter (has_pk key (key row)) rows) with (@nil A).
  - cbn. unfold has_pk.
    now replace (UUID_eqb (key row) (key row)) with true
      by (symmetry; now apply UUID_eqb_eq).
  - symmetry. induction rows as [|r rows IH]; [reflexivity|].
    cbn in E |- *. apply orb_false_iff in E as [-> E]. auto.
Qed.

Lemma perform_create_stored env validated_data request_user db :
  snd (perform_create env validated_data request_user db) = inr tt ->
  let row := {| row_booking_id := uuid4_booking_id env;
                row_property := vd_property validated_data;
                row_user := request_user;
                start_date := vd_start_date validated_data;
                end_date := vd_end_date validated_data;
                row_total_price :=
                  (vd_end_date validated_data - vd_start_date validated_data)
                  * price_per_night (vd_property validated_data);
                row_status := BOOKING_PENDING |} in
  existsb (has_pk row_booking_id (uuid4_booking_id env)) (booking_rows db) = false
  /\ fst (perform_create env validated_data request_user db)
     = {| booking_rows := booking_rows db ++ [row];
          booking_jobs :=
            booking_jobs db
            ++ [{| bc_booking_id := str_uuid (uuid4_booking_id env);
                   bc_recipient_email := email request_user |}] |}.
Proof.
  unfold perform_create. cbn [row_booking_id row_user].
  destruct (negb (fits_decimal_10_2 _)); [discriminate|].
  destruct (existsb _ (booking_rows db)) eqn:E; [discriminate|].
  destruct (booking_delay_outcome env); [discriminate|].
  intros _. split; reflexivity.
Qed.

(** X15.  A booking request whose end date lies before its start date
    is not refused by [perform_create]: when the call returns normally
    for such dates and a positive price per night, the booking row it
    has appended carries the dates as given and a negative total
    price. *)
Theorem reversed_dates_book_a_negative_total env validated_data request_user db :
  vd_end_date validated_data < vd_start_date validated_data ->
  0 < price_per_night (vd_property validated_data) ->
  snd (perform_create env validated_data request_user db) = inr tt ->
  exists row,
    booking_rows (fst (perform_create env validated_data request_user db))
    = (booking_rows db ++ [row])%list
    /\ start_date row = vd_start_date validated_data
    /\ end_date row = vd_end_date validated_data
    /\ row_total_price row < 0.
Proof.
  intros Hdates Hprice Hok.
  destruct (perform_create_stored _ _ _ _ Hok) as [_ ->].
  eexists. cbn [fst booking_rows]. split; [reflexivity|].
  cbn [start_date end_date row_total_price]. split; [reflexivity|].
  split; [reflexivity|]. nia.
Qed.

(** X16.  [perform_create] saves the booking before it submits the
    e-mail job and has no handler around the submission: when the
    broker refuses the job the exception leaves the view, yet the
    booking row stays stored.  On its other failures nothing is
    stored. *)
Theorem refused_booking_job_keeps_the_booking
    env validated_data request_user db failure :
  snd (perform_create env validated_data request_user db) = inl failure ->
  match failure with
  | BrokerRefused msg =>
      booking_delay_outcome env = Some msg
      /\ exists row,
           booking_rows (fst (perform_create env validated_data request_user db))
           = (booking_rows db ++ [row])%list
           /\ row_booking_id row = uuid4_booking_id env
           /\ row_user row = request_user
           /\ row_status row = BOOKING_PENDING
  | DecimalOutOfRange | DuplicateKey =>
      fst (perform_create env validated_data request_user db) = db
  end.
Proof.
  unfold perform_create. cbn [row_booking_id row_user].
  destruct (negb (fits_decimal_10_2 _)); [intros [= <-]; reflexivity|].
  destruct (existsb _ (booking_rows db)); [intros [= <-]; reflexivity|].
  destruct (booking_delay_outcome env) as [msg|]; [|discriminate].
  intros [= <-]. split; [reflexivity|]. eexists. cbn [fst booking_rows].
  repeat split.
Qed.

(** X17.  From the booking request to the mail: when [perform_create]
    returns normally, the identifier it hands to the task as a string
    reads back as the booking's key, and the mail backend works, the
    task finds exactly the new row and sends one mail to the address
    of the user who booked.  The mail says the booking "has been
    successfully confirmed" and quotes nights times price as the total,
    while the row it is about is stored as pending. *)
Theorem booking_mail_is_sent_for_a_pending_booking
    env validated_data request_user db menv outbox :
  snd (perform_create env validated_data request_user db) = inr tt ->
  uuid_of (VStr (str_uuid (uuid4_booking_id env))) = inr (uuid4_booking_id env) ->
  send_mail_outcome menv = None ->
  let db' := fst (perform_create env validated_data request_user db) in
  exists job row,
    booking_jobs db' = (booking_jobs db ++ [job])%list
    /\ booking_rows db' = (booking_rows db ++ [row])%list
    /\ row_status row = BOOKING_PENDING
    /\ row_total_price row
       = (vd_end_date validated_data - vd_start_date validated_data)
         * price_per_night (vd_property validated_data)
    /\ send_booking_confirmation_email menv (booking_rows db')
         (bc_booking_id job) (bc_recipient_email job) outbox
       = ((outbox ++ [booking_email menv row (email request_user)])%list, inr tt).
Proof.
  intros Hok Hid Hsend db'. subst db'.
  destruct (perform_create_stored _ _ _ _ Hok) as [Hfresh ->].
  eexists _, _. cbn [fst booking_rows booking_jobs].
  split; [reflexivity|]. split; [reflexivity|]. split; [reflexivity|].
  split; [reflexivity|].
  cbn [bc_booking_id bc_recipient_email].
  unfold send_booking_confirmation_email, task_try, task_bind,
    task_get_booking, send_mail, task_raise, task_ret.
  rewrite Hid.
  match goal with
  | |- context [filter _ (?rows ++ [?row])%list] =>
      let Hf := fresh in
      pose proof (fresh_key_filter row_booking_id row rows Hfresh) as Hf;
      cbn [row_booking_id] in Hf; rewrite Hf
  end.
  now rewrite Hsend.
Qed.
End Mail.

(** ** The user manager *)

Section Superusers.
Context `{PyRuntime}.
Variables (Users NewUser : Type).
Variable normalize_email : string -> string.
Variable new_user :
  string -> option string -> list (string * pyval) -> Users -> Users * (exn + NewUser).

Lemma assoc_app k d d' :
  assoc k (d ++ d') = match assoc k d with Some v => Some v | None => assoc k d' end.
Proof.
  induction d as [|[k' v] d IH]; [reflexivity|]. cbn.
  now destruct (String.eqb k k').
Qed.

Lemma dict_get_setdefault k v d :
  dict_get k (setdefault k v d)
  = match assoc k d with Some old => old | None => v end.
Proof.
  unfold dict_get, setdefault. destruct (assoc k d) as [old|] eqn:E.
  - now rewrite E.
  - rewrite assoc_app, E. cbn. now rewrite String.eqb_refl.
Qed.

Lemma dict_get_setdefault_other k k' v d :
  String.eqb k k' = false ->
  dict_get k (setdefault k' v d) = dict_get k d.
Proof.
  intros E. unfold dict_get, setdefault. destruct (assoc k' d); [reflexivity|].
  rewrite assoc_app. destruct (assoc k d); [reflexivity|]. cbn. now rewrite E.
Qed.

(** The two defaults and the two tests, by what the caller passed *)
Lemma create_superuser_paths email_arg password extra_fields db :
  create_superuser Users NewUser normalize_email new_user
    email_arg password extra_fields db
  = match assoc "is_staff" extra_fields with
    | None => (db, inl (Exn ValueError "Superuser must have is_staff=True."))
    | Some staff =>
        if truthy staff
        then (db, inl (Exn ValueError "Superuser must have is_staff=True."))
        else
          match assoc "is_superuser" extra_fields with
          | None =>
              (db, inl (Exn ValueError "Superuser must have is_superuser=True."))
          | Some super =>
              if truthy super
              then (db, inl (Exn ValueError
                               "Superuser must have is_superuser=True."))
              else create_user Users NewUser normalize_email new_user
                     email_arg password extra_fields db
          end
    end.
Proof.
  unfold create_superuser.
  rewrite dict_get_setdefault_other by reflexivity.
  rewrite dict_get_setdefault.
  destruct (assoc "is_staff" extra_fields) as [staff|] eqn:Estaff;
    [|reflexivity].
  destruct (truthy staff); [reflexivity|].
  assert (E1 : setdefault "is_staff" (VBool true) extra_fields = extra_fields)
    by (unfold setdefault; now rewrite Estaff).
  rewrite E1, dict_get_setdefault.
  destruct (assoc "is_superuser" extra_fields) as [super|] eqn:Esuper;
    [|reflexivity].
  destruct (truthy super); [reflexivity|].
  unfold setdefault. now rewrite Esuper.
Qed.

(** X18.  [create_superuser] called without an [is_staff] argument,
    as Django's [createsuperuser] command calls it, always raises
    ValueError('Superuser must have is_staff=True.') and stores
    nothing: the default it has just set to True is the value its test
    rejects. *)
Theorem superuser_defaults_are_rejected email_arg password extra_fields db :
  assoc "is_staff" extra_fields = None ->
  create_superuser Users NewUser normalize_email new_user
    email_arg password extra_fields db
  = (db, inl (Exn ValueError "Superuser must have is_staff=True.")).
Proof.
  intros Hstaff. now rewrite create_superuser_paths, Hstaff.
Qed.

(** X19.  [create_superuser] cannot create a superuser: every call
    either raises a ValueError and leaves the user table as it is, or
    hands the model the caller's fields unchanged, with [is_staff] and
    [is_superuser] both given and both false or empty. *)
Theorem no_superuser_is_ever_created email_arg password extra_fields db :
  let r := create_superuser Users NewUser normalize_email new_user
             email_arg password extra_fields db in
  (fst r = db /\ exists msg, snd r = inl (Exn ValueError msg))
  \/ exists address staff super,
       email_arg = Some address
       /\ assoc "is_staff" extra_fields = Some staff
       /\ truthy staff = false
       /\ assoc "is_superuser" extra_fields = Some super
       /\ truthy super = false
       /\ r = new_user (normalize_email address) password extra_fields db.
Proof.
  cbv zeta. rewrite create_superuser_paths.
  destruct (assoc "is_staff" extra_fields) as [staff|];
    [|left; split; [reflexivity|eexists; reflexivity]].
  destruct (truthy staff) eqn:Tstaff;
    [left; split; [reflexivity|eexists; reflexivity]|].
  destruct (assoc "is_superuser" extra_fields) as [super|];
    [|left; split; [reflexivity|eexists; reflexivity]].
  destruct (truthy super) eqn:Tsuper;
    [left; split; [reflexivity|eexists; reflexivity]|].
  unfold create_user.
  destruct email_arg as [address|];
    [|left; split; [reflexivity|eexists; reflexivity]].
  destruct (String.eqb address EmptyString);
    [left; split; [reflexivity|eexists; reflexivity]|].
  right. exists address, staff, super. repeat split; assumption.
Qed.
End Superusers.

(** ** The URL configuration *)

Section Dispatch.
Context `{PyRuntime} `{!PyBuiltins}.

Lemma callback_path_dispatch lib tx_ref :
  resolve lib ("/api/payments/chapa/verify/" ++ tx_ref ++ "/")
  = match router_urls lib ("payments/chapa/verify/" ++ tx_ref ++ "/") with
    | Some v => Some (router_view v)
    | None =>
        match static_urls lib ("api/payments/chapa/verify/" ++ tx_ref ++ "/") with
        | Some v => Some (static_serve v)
        | None => None
        end
    end.
Proof.
  unfold resolve, urlpatterns, listings_urlpatterns, lift_urls. cbn.
  destruct (router_urls lib _); [reflexivity|].
  destruct (static_urls lib _); reflexivity.
Qed.

(** X20.  Every request that [initiate_chapa_payment] posts to the
    gateway names as callback URL the site's address followed by
    /api/payments/chapa/verify/<tx_ref>/, and the URL configuration
    does not dispatch that path to [verify_chapa_payment]:
    listings/urls.py is included under [api/] and spells the prefix
    [api/] again, so the path reaches the router or [static()] and
    otherwise resolves to nothing. *)
Theorem callback_url_is_not_routed_to_the_view lib env request w :
  exists written,
    trace (fst (initiate_chapa_payment env request w))
    = (trace w ++ written)%list
    /\ forall url payload,
         In (HttpPost url payload) written ->
         exists request_path,
           pl_callback_url payload = (base_uri request ++ request_path)%string
           /\ resolve lib request_path
              = match router_urls lib
                        ("payments/chapa/verify/" ++ pl_tx_ref payload ++ "/") with
                | Some v => Some (router_view v)
                | None =>
                    match static_urls lib
                            ("api/payments/chapa/verify/"
                             ++ pl_tx_ref payload ++ "/") with
                    | Some v => Some (static_serve v)
                    | None => None
                    end
                end.
Proof.
  apply (initiate_cases env request w
           (fun r =>
              exists written,
                trace (fst r) = (trace w ++ written)%list
                /\ forall url payload,
                     In (HttpPost url payload) written ->
                     exists request_path,
                       pl_callback_url payload
                       = (base_uri request ++ request_path)%string
                       /\ resolve lib request_path
                          = match router_urls lib
                                    ("payments/chapa/verify/"
                                     ++ pl_tx_ref payload ++ "/") with
                            | Some v => Some (router_view v)
                            | None =>
                                match static_urls lib
                                        ("api/payments/chapa/verify/"
                                         ++ pl_tx_ref payload ++ "/") with
                                | Some v => Some (static_serve v)
                                | None => None
                                end
                            end)).
  - intros data code _. exists []. cbn [fst trace]. rewrite app_nil_r.
    split; [reflexivity|]. intros url payload [].
  - intros. eexists. cbn [fst trace]. split; [reflexivity|].
    intros url payload [Hin|[Hin|[]]]; [discriminate Hin|].
    injection Hin as _ <-. eexists. split; [reflexivity|].
    apply callback_path_dispatch.
  - intros. eexists. cbn [fst trace]. split; [reflexivity|].
    intros url payload [Hin|[Hin|[Hin|[]]]];
      [discriminate Hin| |discriminate Hin].
    injection Hin as _ <-. eexists. split; [reflexivity|].
    apply callback_path_dispatch.
  - intros. eexists. cbn [fst trace]. split; [reflexivity|].
    intros url payload [Hin|[Hin|[Hin|[]]]];
      [discriminate Hin| |discriminate Hin].
    injection Hin as _ <-. eexists. split; [reflexivity|].
    apply callback_path_dispatch.
Qed.

Lemma take_segment_slash_free s rest :
  slash_free s = true ->
  take_segment (s ++ String "/" rest) = (s, String "/" rest).
Proof.
  induction s as [|c s IH]; intros Hs; [reflexivity|].
  cbn in Hs |- *. apply andb_true_iff in Hs as [Hc Hs].
  apply negb_true_iff in Hc. rewrite Hc, (IH Hs). reflexivity.
Qed.

(** X21.  [verify_chapa_payment] is served at
    /api/api/payments/chapa/verify/<tx_ref>/: for a reference that is
    not empty and contains no slash, and a router that has no route
    for the path, the URL configuration dispatches that path to the
    view with the reference as its argument. *)
Theorem verification_is_served_under_api_api lib tx_ref :
  tx_ref <> EmptyString ->
  slash_free tx_ref = true ->
  router_urls lib ("api/payments/chapa/verify/" ++ tx_ref ++ "/") = None ->
  resolve lib ("/api/api/payments/chapa/verify/" ++ tx_ref ++ "/")
  = Some (verify_chapa_payment_view tx_ref).
Proof.
  intros Hne Hfree Hrouter.
  unfold resolve, urlpatterns, listings_urlpatterns, lift_urls.
  cbn in Hrouter |- *.
  rewrite Hrouter. rewrite (take_segment_slash_free tx_ref EmptyString Hfree).
  destruct tx_ref; [contradiction|reflexivity].
Qed.

(** X22.  No redirect of [verify_chapa_payment] arrives at one of the
    three landing pages of listings/urls.py: the view redirects to
    /payment-success/, /payment-fail/ or /payment-status/, paths that
    the URL configuration, which includes the pages under [api/], hands
    to [static()] at most. *)
Theorem verification_redirects_miss_the_landing_pages lib env tx_ref w :
  exists location,
    snd (verify_chapa_payment env tx_ref w) = HttpResponseRedirect location
    /\ is_landing_page (resolve lib (url_path location)) = false.
Proof.
  assert (Hpage : forall location,
             In (url_path location) landing_pages ->
             is_landing_page (resolve lib (url_path location)) = false).
  { intros location [<-|[<-|[<-|[]]]];
      unfold resolve, urlpatterns, listings_urlpatterns, lift_urls; cbn;
      destruct (static_urls lib _); reflexivity. }
  apply (verify_cases env tx_ref w
           (fun r => exists location,
                snd r = HttpResponseRedirect location
                /\ is_landing_page (resolve lib (url_path location)) = false)).
  - intros calls loc _ Hloc. exists loc. split; [reflexivity|].
    apply Hpage. unfold landing_pages. simpl in Hloc |- *. tauto.
  - intros p text loc _ _ Hloc p'. exists loc. split; [reflexivity|].
    apply Hpage. rewrite Hloc. unfold landing_pages. simpl. tauto.
  - intros p _ _ _. eexists. split; [reflexivity|].
    apply Hpage. unfold landing_pages. simpl. tauto.
  - intros p b loc _ _ _ Hloc b'. exists loc. split; [reflexivity|].
    apply Hpage. unfold landing_pages. simpl in Hloc |- *. tauto.
Qed.
End Dispatch.

(** * The further properties on concrete data *)

Module Walkthrough.
Import Sample Office.

(** Witness of X8: a payment is initiated for the booking and the first
    attempt is verified with success. *)
Lemma bookings_are_only_ever_confirmed_witness :
  let cs := [InitiatePayment (later_gateway (HttpJson initiated) timed_out None)
               (pay_request (VStr "800.00"));
             VerifyPayment (gateway timed_out (HttpJson paid) None) trip_ref] in
  NoDup (map booking_id (bookings ledger))
  /\ Forall2 (fun b b' => b' = b \/ b' = set_booking_status b CONFIRMED)
       (bookings ledger) (bookings (run cs ledger)).
Proof.
  intros cs.
  assert (Hkeys : NoDup (map booking_id (bookings ledger)))
    by (apply NoDup_cons; [intros []|apply NoDup_nil]).
  split; [exact Hkeys|].
  apply (bookings_are_only_ever_confirmed cs ledger Hkeys).
Defined.

(** Witness of X10: the gateway times out, then reports the payment as
    paid. *)
Lemma transport_failure_is_final_witness :
  let env := gateway timed_out timed_out None in
  let env' := gateway timed_out (HttpJson paid) None in
  let w1 := fst (verify_chapa_payment env trip_ref ledger) in
  status attempt = PENDING
  /\ get_outcome env = HttpRaises "Read timed out."
  /\ filter (has_tx_ref trip_ref) (payments w1)
     = [set_status_text (set_status attempt FAILED)
          (VStr "API Verification Error: Read timed out.")]
  /\ verify_chapa_payment env' trip_ref w1
     = (w1, HttpResponseRedirect
              ("/payment-status/?tx_ref=" ++ trip_ref ++ "&status=failed")).
Proof.
  intros env env' w1. split; [reflexivity|]. split; [reflexivity|].
  apply (transport_failure_is_final env env' trip_ref ledger attempt
           "Read timed out."); reflexivity.
Defined.

(** Witness of X11: 800.00 is offered for the booking, the gateway
    hands out a checkout link and later reports the payment as paid. *)
Lemma initiated_payment_is_completed_by_verification_witness :
  let env := gateway (HttpJson initiated) timed_out None in
  let env' := gateway timed_out (HttpJson paid) None in
  let r := initiate_chapa_payment env (pay_request (VStr "800.00")) no_payments in
  response_status (snd r) = 200
  /\ exists tx_ref p b,
       returned_tx_ref (snd r) = Some tx_ref
       /\ payments (fst r) = (payments no_payments ++ [p])%list
       /\ status p = PENDING
       /\ In b (bookings no_payments)
       /\ let w2 := fst (verify_chapa_payment env' tx_ref (fst r)) in
          exists p' b',
            payments w2 = (payments no_payments ++ [p'])%list
            /\ status p' = COMPLETED
            /\ In b' (bookings w2)
            /\ booking_status b' = CONFIRMED
            /\ booking_id b' = booking_id b.
Proof.
  intros env env' r.
  assert (Hok : response_status (snd r) = 200) by (vm_compute; reflexivity).
  assert (Hget : get_outcome env' = HttpJson paid) by reflexivity.
  assert (Hpayload :
            verification_payload paid
              [("message", VStr "Payment details"); ("status", VStr "success");
               ("data", VDict [("amount", VInt 800); ("currency", VStr "ETB");
                               ("status", VStr "success")])]
              [("amount", VInt 800); ("currency", VStr "ETB");
               ("status", VStr "success")])
    by (split; reflexivity).
  split; [exact Hok|].
  destruct (initiated_payment_is_completed_by_verification env
              (pay_request (VStr "800.00")) no_payments env' paid _ _
              Hok Hget Hpayload eq_refl)
    as (tx_ref & p & b & Href & Hrows & Hpending & _ & Hb & _ & Hverified).
  exists tx_ref, p, b. fold r in Href, Hrows, Hverified.
  split; [exact Href|]. split; [exact Hrows|]. split; [exact Hpending|].
  split; [exact Hb|].
  destruct Hverified
    as (p' & b' & Hrows' & _ & Hcompleted & _ & _ & _ & _ & _ & Hb' & _
        & Hconfirmed & Hkey & _).
  exists p', b'. repeat split; assumption.
Defined.

(** Witness of X12: a mail backend that refuses the connection *)
Lemma payment_task_swallows_mail_failures_witness :
  let r := send_payment_confirmation_email (mailer (Some "Connection refused"))
             confirmation [] in
  send_mail_outcome (mailer (Some "Connection refused")) = Some "Connection refused"
  /\ snd r = inr tt
  /\ fst r = [].
Proof.
  intros r. split; [reflexivity|].
  destruct (payment_task_swallows_mail_failures
              (mailer (Some "Connection refused")) confirmation [])
    as (Hreturns & _ & Hlost).
  split; [exact Hreturns|]. apply (Hlost "Connection refused"). reflexivity.
Defined.

(** Witness of X14 *)
Lemma confirmation_mail_reaches_the_guest_witness :
  let env := gateway timed_out (HttpJson paid) None in
  status attempt = PENDING
  /\ exists job m,
       delayed_jobs (trace (fst (verify_chapa_payment env trip_ref ledger)))
       = (delayed_jobs (trace ledger) ++ [job])%list
       /\ snd (verify_chapa_payment env trip_ref ledger)
          = HttpResponseRedirect "/payment-success/"
       /\ send_payment_confirmation_email (mailer None) job []
          = (([] ++ [m])%list, inr tt)
       /\ mail_recipients m = ["jane.doe@example.com"]
       /\ mail_subject m
          = "Your Payment for Booking a1b2c3d4-e5f6-7890-1234-567890abcdef is Confirmed!"
       /\ mail_from m = "noreply@alxtravel.example".
Proof.
  intros env. split; [reflexivity|].
  apply (confirmation_mail_reaches_the_guest env trip_ref ledger attempt paid
           [("message", VStr "Payment details"); ("status", VStr "success");
            ("data", VDict [("amount", VInt 800); ("currency", VStr "ETB");
                            ("status", VStr "success")])]
           [("amount", VInt 800); ("currency", VStr "ETB");
            ("status", VStr "success")]
           trip (mailer None) []); try reflexivity.
  split; reflexivity.
Defined.

(** Witness of X15: three nights backwards at 120.00 *)
Lemma reversed_dates_book_a_negative_total_witness :
  snd (perform_create (desk None) stay_backwards guest nothing_booked) = inr tt
  /\ exists row,
       booking_rows (fst (perform_create (desk None) stay_backwards guest
                            nothing_booked))
       = (booking_rows nothing_booked ++ [row])%list
       /\ start_date row = 739196
       /\ end_date row = 739193
       /\ row_total_price row < 0.
Proof.
  split; [reflexivity|].
  apply (reversed_dates_book_a_negative_total (desk None) stay_backwards guest
           nothing_booked); [reflexivity|reflexivity|reflexivity].
Defined.

(** Witness of X16 *)
Lemma refused_booking_job_keeps_the_booking_witness :
  let r := perform_create (desk (Some "Connection refused")) stay guest
             nothing_booked in
  snd r = inl (BrokerRefused "Connection refused")
  /\ exists row,
       booking_rows (fst r) = (booking_rows nothing_booked ++ [row])%list
       /\ row_booking_id row = "a1b2c3d4e5f678901234567890abcdef"
       /\ row_user row = guest
       /\ row_status row = BOOKING_PENDING.
Proof.
  intros r. split; [reflexivity|].
  apply (refused_booking_job_keeps_the_booking
           (desk (Some "Connection refused")) stay guest nothing_booked
           (BrokerRefused "Connection refused") eq_refl).
Defined.

(** Witness of X17, with a [UUID()] that reads the dashed form *)
Lemma booking_mail_is_sent_for_a_pending_booking_witness :
  let db' := fst (perform_create (desk None) stay guest nothing_booked) in
  snd (perform_create (desk None) stay guest nothing_booked) = inr tt
  /\ exists job row,
       booking_jobs db' = (booking_jobs nothing_booked ++ [job])%list
       /\ booking_rows db' = (booking_rows nothing_booked ++ [row])%list
       /\ row_status row = BOOKING_PENDING
       /\ row_total_price row = (739196 - 739193) * 12000
       /\ @send_booking_confirmation_email runtime worker_builtins
            (mailer None) (booking_rows db')
            (bc_booking_id job) (bc_recipient_email job) []
          = (([] ++ [@booking_email runtime worker_builtins (mailer None) row
                       "jane.doe@example.com"])%list, inr tt).
Proof.
  intros db'. split; [reflexivity|].
  apply (@booking_mail_is_sent_for_a_pending_booking runtime worker_builtins
           (desk None) stay guest nothing_booked (mailer None) []);
    reflexivity.
Defined.

(** Witness of X18: the call of [manage.py createsuperuser] *)
Lemma superuser_defaults_are_rejected_witness :
  assoc "is_staff" [] = None
  /\ create_superuser accounts string (fun address => address) add_account
       (Some "admin@example.com") (Some "correct horse") [] []
     = ([], inl (Exn ValueError "Superuser must have is_staff=True.")).
Proof.
  split; [reflexivity|].
  apply (superuser_defaults_are_rejected accounts string
           (fun address => address) add_account
           (Some "admin@example.com") (Some "correct horse") [] []).
  reflexivity.
Defined.

(** Witness of X21 *)
Lemma verification_is_served_under_api_api_witness :
  slash_free trip_ref = true
  /\ resolve routes ("/api/api/payments/chapa/verify/" ++ trip_ref ++ "/")
     = Some (verify_chapa_payment_view trip_ref).
Proof.
  split; [reflexivity|].
  apply (verification_is_served_under_api_api routes trip_ref);
    [discriminate|reflexivity|reflexivity].
Defined.
End Walkthrough.
